(** * Lab 4 geoprocessing scripts: a shallow embedding

    The development follows the two pipeline scripts of the repository,
    and the helpers of its console tool:

    - [Labs/Lab4/lab4_arcpy_tool.py]  (module [ArcPyTool])
    - [Labs/Lab4/lab4_geopandas.py]   (module [GeoPandasTool])
    - [Labs/Lab5/lab5_GISP_tool.py]   (module [Lab5Tool])

    The scripts drive two external geoprocessing libraries (ArcPy and
    GeoPandas/pyproj).  What the repository's own code decides (which
    layer is picked, which fields are used, which tool is run and when
    it is skipped, which layer names are written) is embedded as it is
    written; what the libraries compute (geometry kernels, coordinate
    transformations, path functions) is a parameter ([Library]), so every
    statement holds whatever they compute.

    The first part holds the definitions, the second part the properties. *)

From Stdlib Require Import Ascii ZArith QArith Qround.
From stdpp Require Import gmap strings list fin_maps pretty.

Local Open Scope Z_scope.
Local Open Scope string_scope.
Local Open Scope list_scope.

(** ** Python strings

    A Python [str] is modelled by a Rocq string holding its UTF-8
    encoding, so an ASCII text is itself.  [lower] maps the ASCII letters:
    it is [str.lower] on ASCII texts (the candidate names and the file
    extensions of the scripts are such) and the case folding of [re.I] for
    the letters of the scripts' patterns; on other texts Python's case
    mapping is the Unicode one.  [strip] removes the white space of
    [str.isspace], Unicode white space included. *)
Module PyStr.

Definition lower_ascii (c : ascii) : ascii :=
  let n := nat_of_ascii c in
  if (Nat.leb 65 n && Nat.leb n 90)%bool then ascii_of_nat (n + 32) else c.

(** [s.lower()] *)
Fixpoint lower (s : string) : string :=
  match s with
  | EmptyString => EmptyString
  | String c r => String (lower_ascii c) (lower r)
  end.

(** [pat in s]: [pat] occurs in [s] at some position. *)
Fixpoint contains (pat s : string) : bool :=
  String.prefix pat s ||
  match s with
  | EmptyString => false
  | String _ r => contains pat r
  end.

Definition newline : string := String (ascii_of_nat 10) EmptyString.

(** [re.search("^c$", s)] without [re.M]: [^] is the start of the string and
    [$] the end of the string or the position before a final newline. *)
Definition whole (c s : string) : bool :=
  String.eqb s c || String.eqb s (c +:+ newline).

(** The byte string of a list of byte values. *)
Definition bytes (l : list nat) : string :=
  fold_right (λ n s, String (ascii_of_nat n) s) EmptyString l.

(** The characters [str.strip()] removes (those with [str.isspace]), in
    UTF-8: U+0009 to U+000D, U+001C to U+001F, U+0020, U+0085, U+00A0,
    U+1680, U+2000 to U+200A, U+2028, U+2029, U+202F, U+205F and U+3000. *)
Definition white_space : list string :=
  map bytes
    ([[9]; [10]; [11]; [12]; [13]; [28]; [29]; [30]; [31]; [32];
      [194; 133]; [194; 160]; [225; 154; 128]]
     ++ map (λ n, [226; 128; n]) (seq 128 11)
     ++ [[226; 128; 168]; [226; 128; 169]; [226; 128; 175]; [226; 129; 159];
         [227; 128; 128]])%nat.

(** [s] is one white-space character. *)
Definition is_space (s : string) : bool := bool_decide (s ∈ white_space).

(** [s.lstrip()] *)
Fixpoint lstrip (s : string) : string :=
  match s with
  | String a (String b (String c r3 as r2) as r1) =>
      if is_space (String a EmptyString) then lstrip r1
      else if is_space (String a (String b EmptyString)) then lstrip r2
      else if is_space (String a (String b (String c EmptyString))) then lstrip r3
      else s
  | String a (String b EmptyString as r1) =>
      if is_space (String a EmptyString) then lstrip r1
      else if is_space s then EmptyString
      else s
  | String a EmptyString => if is_space s then EmptyString else s
  | EmptyString => EmptyString
  end.

(** [s.rstrip()]: the white space at the end of [String c r] is that of
    [r], and [c] with what is left of [r] when that is one white-space
    character. *)
Fixpoint rstrip (s : string) : string :=
  match s with
  | EmptyString => EmptyString
  | String c r =>
      let t := String c (rstrip r) in
      if is_space t then EmptyString else t
  end.

(** [s.strip()] *)
Definition strip (s : string) : string := rstrip (lstrip s).

End PyStr.

(** ** The field heuristic: [_detect_xy_fields] *)
Module FieldDetector.
Import PyStr.

(** An [arcpy.Field]: the script reads [f.name] and [f.type] only. *)
Record Field := mkField { name : string; type : string }.

(** [re.search(r"(^x$|lon|long|longitude)", n, re.I)] *)
Definition x_like (n : string) : bool :=
  let l := lower n in
  whole "x" l || contains "lon" l || contains "long" l || contains "longitude" l.

(** [re.search(r"(^y$|lat|latitude)", n, re.I)] *)
Definition y_like (n : string) : bool :=
  let l := lower n in
  whole "y" l || contains "lat" l || contains "latitude" l.

(** [f.type in ('Double','Single','Integer','SmallInteger')] *)
Definition is_numeric (f : Field) : bool :=
  bool_decide (type f ∈ ["Double"; "Single"; "Integer"; "SmallInteger"]).

Definition x_candidates (fields : list Field) : list string :=
  List.filter x_like (map name fields).
Definition y_candidates (fields : list Field) : list string :=
  List.filter y_like (map name fields).
Definition num_fields (fields : list Field) : list string :=
  map name (List.filter is_numeric fields).

(** Body of [_detect_xy_fields] once [arcpy.ListFields(table)] has returned
    [fields].  The result is the Python pair; [None] is Python's [None]. *)
Definition detect_xy (fields : list Field) : option string * option string :=
  match x_candidates fields, y_candidates fields with
  | x :: _, y :: _ => (Some x, Some y)
  | _, _ =>
      match num_fields fields with
      | a :: b :: _ => (Some a, Some b)
      | _ => (None, None)
      end
  end.

(** The two passes of the spec for given name classes: the first name of
    each class in schema order, and the first two numeric fields only when
    a class has no match. *)
Definition two_pass (x_class y_class : string → bool) (fields : list Field)
  : option string * option string :=
  match List.find x_class (map name fields), List.find y_class (map name fields) with
  | Some x, Some y => (Some x, Some y)
  | _, _ =>
      match List.filter is_numeric fields with
      | a :: b :: _ => (Some (name a), Some (name b))
      | _ => (None, None)
      end
  end.

(** The classes as the spec lists them: the name is one of [x], [lon],
    [long], [longitude] (or [y], [lat], [latitude]), whatever its case. *)
Definition x_listed (n : string) : bool :=
  bool_decide (lower n ∈ ["x"; "lon"; "long"; "longitude"]).
Definition y_listed (n : string) : bool :=
  bool_decide (lower n ∈ ["y"; "lat"; "latitude"]).

(** The spec's reading of the detector: the two passes over the listed
    names. *)
Definition detectXY_spec (fields : list Field) : option string * option string :=
  two_pass x_listed y_listed fields.

Definition Ambiguous : option string * option string := (None, None).

End FieldDetector.

(** ** Python floats, script-tool arguments and exceptions *)
Module PyNum.

(** A Python [float]: a finite value (the rational it denotes), an infinity
    or a NaN. *)
Inductive PyFloat :=
| Finite (q : Q)
| Infinite (negative : bool)
| NaN.

(** [int(f)]: truncation towards zero; [OverflowError] on an infinity and
    [ValueError] on a NaN (both [None] here). *)
Definition int (f : PyFloat) : option Z :=
  match f with
  | Finite q => Some (Z.quot (Qnum q) (Zpos (Qden q)))
  | _ => None
  end.

(** [str(n)] for an [int]. *)
Definition str (n : Z) : string := pretty n.

(** What [main] may receive as [buffer_meters]: [None], a text (from
    [GetParameterAsText] or [sys.argv]) or a number (the default [150]). *)
Inductive PyArg :=
| ArgNone
| ArgText (s : string)
| ArgNumber (f : PyFloat).

(** Result of a computation: a value, or a raised exception with its text. *)
Inductive Outcome (A : Type) :=
| Ok (a : A)
| Raise (msg : string).
Arguments Ok {A} _.
Arguments Raise {A} _.

End PyNum.

(** ** [lab4_arcpy_tool.py] *)
Module ArcPyTool.
Import PyStr FieldDetector PyNum.

(** A feature class: its spatial reference (factory code, [None] when
    unknown) and its features. *)
Record Layer (Feature : Type) := mkLayer {
  sr : option Z;
  features : list Feature
}.
Arguments mkLayer {Feature} _ _.
Arguments sr {Feature} _.
Arguments features {Feature} _.

(** What a workspace holds under a name.  [arcpy.Exists] answers for any
    dataset, [arcpy.ListFeatureClasses] lists feature classes only. *)
Inductive Dataset (Feature : Type) :=
| FeatureClass (l : Layer Feature)
| OtherDataset.
Arguments FeatureClass {Feature} _.
Arguments OtherDataset {Feature}.

(** A file outside the geodatabases: a delimited table, or anything else. *)
Inductive FileEntry (Row : Type) :=
| CsvTable (fields : list Field) (rows : list Row)
| OtherFile.
Arguments CsvTable {Row} _ _.
Arguments OtherFile {Row}.

(** [os.path.join(workspace, name)] for a dataset of a workspace: the
    workspace path and the dataset name. *)
Definition FcPath : Type := string * string.

(** Geoprocessing tools the script runs (the trace of tool invocations). *)
Inductive ToolCall :=
| CreateFileGDB_call (folder name : string)
| XYTableToPoint_call (table : string) (out : FcPath) (x_field y_field : string)
| Project_call (input out : FcPath) (target_sr : Z)
| Buffer_call (input out : FcPath) (distance : PyFloat)
| Intersect_call (inputs : list FcPath) (out : FcPath).

(** The state the script acts on: the geodatabases (workspace path to its
    datasets, in listing order), the other files on disk, the ambient
    [arcpy.env.workspace], the tools run so far (most recent last) and the
    texts passed to [arcpy.AddError].  The progress texts of
    [arcpy.AddMessage] are not kept. *)
Record State (Feature Row : Type) := mkState {
  gdbs : gmap string (list (string * Dataset Feature));
  files : gmap string (FileEntry Row);
  env_workspace : option string;
  calls : list ToolCall;
  errors : list string
}.
Arguments mkState {Feature Row} _ _ _ _ _.
Arguments gdbs {Feature Row} _.
Arguments files {Feature Row} _.
Arguments env_workspace {Feature Row} _.
Arguments calls {Feature Row} _.
Arguments errors {Feature Row} _.

(** The library side: what the geometry kernels compute ([None]: the tool
    raises), how [float] reads a text, and the [os.path] functions on
    workspace paths.  Nothing is assumed about them. *)
Class Library (Feature Row : Type) := {
  Project_kernel : Layer Feature → Z → option (Layer Feature);
  Buffer_kernel : Layer Feature → PyFloat → option (Layer Feature);
  Intersect_kernel : Layer Feature → Layer Feature → option (Layer Feature);
  XYTableToPoint_kernel : list Field → list Row → string → string → option (Layer Feature);
  (** where [CreateFileGDB(folder, name)] puts the geodatabase *)
  CreateFileGDB_location : string → string → option string;
  float_of_text : string → option PyFloat;
  os_path_dirname : string → string;
  os_path_basename : string → string;
  os_path_join : string → string → string;
  (** [os.path.splitext(name)[0]] *)
  os_path_splitext_root : string → string
}.

Section Script.
Context {Feature Row : Type} {L : Library Feature Row}.

Abbreviation St := (State Feature Row).

(** Computations of the script: they read and change the state, and return
    or raise; a raised exception keeps the state reached so far. *)
Definition M (A : Type) : Type := St → Outcome A * St.

#[export] Instance M_ret : MRet M := λ A a st, (Ok a, st).
#[export] Instance M_bind : MBind M := λ A B f m st,
  match m st with
  | (Ok a, st') => f a st'
  | (Raise e, st') => (Raise e, st')
  end.

Definition raise {A} (msg : string) : M A := λ st, (Raise msg, st).
Definition lift {A} (r : Outcome A) : M A := λ st, (r, st).
Definition get : M St := λ st, (Ok st, st).

Definition with_env (w : string) (st : St) : St :=
  mkState (gdbs st) (files st) (Some w) (calls st) (errors st).
Definition with_call (c : ToolCall) (st : St) : St :=
  mkState (gdbs st) (files st) (env_workspace st) (calls st ++ [c]) (errors st).
Definition with_gdbs (g : gmap string (list (string * Dataset Feature))) (st : St) : St :=
  mkState g (files st) (env_workspace st) (calls st) (errors st).

(** [arcpy.env.workspace = w] *)
Definition set_env_workspace (w : string) : M unit := λ st, (Ok tt, with_env w st).
Definition log_call (c : ToolCall) : M unit := λ st, (Ok tt, with_call c st).
Definition set_gdbs (g : gmap string (list (string * Dataset Feature))) : M unit := λ st,
  (Ok tt, with_gdbs g st).
(** [arcpy.AddError(msg)] *)
Definition AddError (msg : string) (st : St) : St :=
  mkState (gdbs st) (files st) (env_workspace st) (calls st) (errors st ++ [msg]).

(** *** ArcPy / [os] primitives *)

Definition has_name (n : string) (content : list (string * Dataset Feature)) : bool :=
  bool_decide (n ∈ content.*1).

(** [arcpy.Exists(p)] for a workspace path. *)
Definition workspace_exists (st : St) (p : string) : bool :=
  bool_decide (is_Some (gdbs st !! p)).

(** [arcpy.Exists(os.path.join(workspace, n))] *)
Definition fc_exists (st : St) (p : FcPath) : bool :=
  match gdbs st !! p.1 with
  | Some content => has_name p.2 content
  | None => false
  end.

Definition Exists (p : FcPath) : M bool := λ st, (Ok (fc_exists st p), st).
Definition Exists_workspace (p : string) : M bool := λ st, (Ok (workspace_exists st p), st).

Definition is_feature_class (d : string * Dataset Feature) : bool :=
  match d.2 with FeatureClass _ => true | OtherDataset => false end.

Definition feature_class_names (content : list (string * Dataset Feature)) : list string :=
  (List.filter is_feature_class content).*1.

(** [arcpy.ListFeatureClasses()]: the feature classes of the ambient
    workspace in listing order; nothing when there is no such workspace. *)
Definition ListFeatureClasses : M (list string) := λ st,
  (Ok match env_workspace st with
      | Some w => match gdbs st !! w with
                  | Some content => feature_class_names content
                  | None => []
                  end
      | None => []
      end, st).

(** [os.path.exists(p)] *)
Definition os_path_exists (st : St) (p : string) : bool :=
  bool_decide (is_Some (files st !! p)) || bool_decide (is_Some (gdbs st !! p)).

(** [arcpy.ListFields(table)] *)
Definition ListFields (table : string) : M (list Field) := λ st,
  match files st !! table with
  | Some (CsvTable fs _) => (Ok fs, st)
  | _ => (Raise "ListFields: cannot open table", st)
  end.

(** Reading a tool input: it must be a feature class. *)
Definition read_fc (p : FcPath) : M (Layer Feature) := λ st,
  match gdbs st !! p.1 with
  | Some content =>
      match list_find (λ d, bool_decide (d.1 = p.2)) content with
      | Some (_, (_, FeatureClass l)) => (Ok l, st)
      | _ => (Raise "ERROR 000732: input does not exist or is not supported", st)
      end
  | None => (Raise "ERROR 000732: input does not exist or is not supported", st)
  end.

(** Writing a tool output: a new dataset at the end of its workspace.  The
    workspace must exist; an output that exists already is an error
    ([arcpy.env.overwriteOutput] is left at [False] by the script). *)
Definition write_fc (p : FcPath) (l : Layer Feature) : M unit := λ st,
  match gdbs st !! p.1 with
  | Some content =>
      if has_name p.2 content
      then (Raise "ERROR 000725: output already exists", st)
      else set_gdbs (<[p.1 := content ++ [(p.2, FeatureClass l)]]> (gdbs st)) st
  | None => (Raise "ERROR 000210: cannot create output", st)
  end.

Definition kernel_result (r : option (Layer Feature)) : M (Layer Feature) :=
  match r with
  | Some l => mret l
  | None => raise "ERROR 999999: tool failed"
  end.

(** [arcpy.management.Project(input_fc, out_fc, target_sr)] *)
Definition Project (input_fc out_fc : FcPath) (target_sr : Z) : M unit :=
  log_call (Project_call input_fc out_fc target_sr);;
  l ← read_fc input_fc;
  l' ← kernel_result (Project_kernel l target_sr);
  write_fc out_fc l'.

(** [arcpy.analysis.Buffer(in, out, f"{d} Meters", line_side='FULL',
    line_end_type='ROUND', dissolve_option='NONE')] *)
Definition Buffer (input_fc out_fc : FcPath) (d : PyFloat) : M unit :=
  log_call (Buffer_call input_fc out_fc d);;
  l ← read_fc input_fc;
  l' ← kernel_result (Buffer_kernel l d);
  write_fc out_fc l'.

(** [arcpy.analysis.Intersect([a, b], out, join_attributes='ALL')] *)
Definition Intersect (a b out_fc : FcPath) : M unit :=
  log_call (Intersect_call [a; b] out_fc);;
  la ← read_fc a;
  lb ← read_fc b;
  l' ← kernel_result (Intersect_kernel la lb);
  write_fc out_fc l'.

(** [arcpy.management.XYTableToPoint(table, out, x_field, y_field)] *)
Definition XYTableToPoint (table : string) (out_fc : FcPath) (x_field y_field : string) : M unit :=
  log_call (XYTableToPoint_call table out_fc x_field y_field);;
  st ← get;
  match files st !! table with
  | Some (CsvTable fs rs) =>
      l' ← kernel_result (XYTableToPoint_kernel fs rs x_field y_field);
      write_fc out_fc l'
  | _ => raise "ERROR 000732: input table does not exist"
  end.

(** [arcpy.management.CreateFileGDB(folder, name)]: a new, empty
    geodatabase. *)
Definition CreateFileGDB (folder name : string) : M unit :=
  log_call (CreateFileGDB_call folder name);;
  st ← get;
  match CreateFileGDB_location folder name with
  | Some p =>
      if workspace_exists st p
      then raise "ERROR 000258: output already exists"
      else set_gdbs (<[p := []]> (gdbs st))
  | None => raise "ERROR 999999: tool failed"
  end.

(** *** The script's functions *)

(** First loop of [_find_candidate_featureclass]:
    [for n in names: if arcpy.Exists(os.path.join(workspace, n)): return n] *)
Fixpoint exact_loop (st : St) (workspace : string) (names : list string) : option string :=
  match names with
  | [] => None
  | n :: rest =>
      if fc_exists st (workspace, n) then Some n else exact_loop st workspace rest
  end.

(** Inner loop of the second stage:
    [for f in fcs: if f.lower() == n.lower(): return f] *)
Fixpoint inner_loop (n : string) (fcs : list string) : option string :=
  match fcs with
  | [] => None
  | f :: rest =>
      if String.eqb (lower f) (lower n) then Some f else inner_loop n rest
  end.

(** Outer loop of the second stage: [for n in names: ...] *)
Fixpoint outer_loop (names fcs : list string) : option string :=
  match names with
  | [] => None
  | n :: rest =>
      match inner_loop n fcs with
      | Some f => Some f
      | None => outer_loop rest fcs
      end
  end.

Definition _find_candidate_featureclass (workspace : string) (names : list string)
  : M (option string) :=
  set_env_workspace workspace;;
  st ← get;
  match exact_loop st workspace names with
  | Some n => mret (Some n)
  | None =>
      (* try case-insensitive match *)
      fcs ← ListFeatureClasses;
      match fcs with
      | [] => mret None
      | _ => mret (outer_loop names fcs)
      end
  end.

(** The datasets of a workspace ([[]] when there is no such workspace). *)
Definition workspace_content (st : St) (workspace : string) : list (string * Dataset Feature) :=
  default [] (gdbs st !! workspace).

(** The resolver in the spec's words: the first candidate that exists
    under its exact name; failing that, for the candidates in order, the
    first listed feature class equal to it up to case. *)
Definition resolve_spec (content : list (string * Dataset Feature)) (names : list string)
  : option string :=
  match List.find (λ n, has_name n content) names with
  | Some n => Some n
  | None =>
      head (flat_map (λ n, List.filter (λ f, String.eqb (lower f) (lower n))
                              (feature_class_names content)) names)
  end.

Definition _detect_xy_fields (table : string) : M (option string * option string) :=
  fields ← ListFields table;
  mret (detect_xy fields).

Definition endswith_gdb (name : string) : bool :=
  let l := lower name in
  String.eqb (String.substring (String.length l - 4) 4 l) ".gdb".

Definition create_output_gdb (out_gdb_path : string) : M string :=
  e ← Exists_workspace out_gdb_path;
  if (e : bool) then mret out_gdb_path
  else
    let folder := os_path_dirname out_gdb_path in
    let name := os_path_basename out_gdb_path in
    (* name must be without .gdb extension for CreateFileGDB *)
    let name_no_ext := if endswith_gdb name then os_path_splitext_root name else name in
    CreateFileGDB folder name_no_ext;;
    mret out_gdb_path.

Definition project_feature (input_fc out_fc : FcPath) (target_sr : Z) : M FcPath :=
  e ← Exists out_fc;
  if (e : bool) then mret out_fc
  else
    Project input_fc out_fc target_sr;;
    mret out_fc.

(** Python truth value of a name or [None]. *)
Definition truthy (o : option string) : bool :=
  match o with
  | Some s => negb (String.eqb s "")
  | None => false
  end.

(** [float(buffer_meters) if buffer_meters not in (None, '', 'None') else 150.0] *)
Definition buffer_distance (buffer_meters : PyArg) : Outcome PyFloat :=
  match buffer_meters with
  | ArgNone => Ok (Finite 150)
  | ArgText s =>
      if bool_decide (s ∈ [""; "None"]) then Ok (Finite 150)
      else match float_of_text s with
           | Some f => Ok f
           | None => Raise "could not convert string to float"
           end
  | ArgNumber f => Ok f
  end.

Definition garage_names : list string := ["GaragePoints"; "garagepoints"; "garages"; "Garages"].
Definition structures_names : list string := ["Structures"; "structures"].

(** The text of the [ValueError] raised when no X/Y fields are detected. *)
Definition unable_to_detect : string :=
  "Unable to detect X/Y fields in CSV. Please provide CSV with X/Y or Lon/Lat fields.".

(** [main], "Identify garages / points": the garage layer of the input
    geodatabase, or a point layer made from the CSV. *)
Definition main_garages (in_gdb csv_or_table : string) : M FcPath :=
  garage_fc ← _find_candidate_featureclass in_gdb garage_names;
  if truthy garage_fc then mret (in_gdb, default "" garage_fc)
  else
    (* try csv path *)
    st ← get;
    if negb (String.eqb csv_or_table "") && os_path_exists st csv_or_table then
      xy ← _detect_xy_fields csv_or_table;
      if negb (truthy xy.1) || negb (truthy xy.2) then
        raise unable_to_detect
      else
        let garage_fc_path := (in_gdb, "GaragePoints") in
        XYTableToPoint csv_or_table garage_fc_path (default "" xy.1) (default "" xy.2);;
        mret garage_fc_path
    else
      raise "Could not find garage point feature class in GDB and no valid CSV provided.".

(** [main], "Identify Structures". *)
Definition main_structures (in_gdb : string) : M FcPath :=
  structures_fc ← _find_candidate_featureclass in_gdb structures_names;
  if negb (truthy structures_fc) then
    raise "Could not find Structures feature class in input GDB"
  else mret (in_gdb, default "" structures_fc).

(** [f"Garage_Buffer_{int(buffer_meters)}m"] *)
Definition buffer_name (buffer_meters : PyFloat) : option string :=
  match int buffer_meters with
  | Some n => Some ("Garage_Buffer_" +:+ str n +:+ "m")
  | None => None
  end.

(** [main], "Buffer". *)
Definition main_buffer (out_gdb : string) (garage_prj : FcPath) (buffer_meters : PyFloat)
  : M FcPath :=
  match buffer_name buffer_meters with
  | None => raise "cannot convert float to integer"
  | Some name =>
      let buffer_fc := (out_gdb, name) in
      e ← Exists buffer_fc;
      (if negb (e : bool) then Buffer garage_prj buffer_fc buffer_meters else mret tt);;
      mret buffer_fc
  end.

(** [main], "Intersect". *)
Definition main_intersect (out_gdb : string) (buffer_fc structures_prj : FcPath) : M FcPath :=
  let intersect_fc := (out_gdb, "Garage_Structures_Intersect") in
  e ← Exists intersect_fc;
  (if negb (e : bool) then Intersect buffer_fc structures_prj intersect_fc else mret tt);;
  mret intersect_fc.

(** The destination geodatabase [main] works on: the stripped argument, or
    ['Lab4_Output.gdb'] beside the input geodatabase when it is empty. *)
Definition output_gdb (in_gdb out_gdb : string) : string :=
  let in_gdb := strip in_gdb in
  let out_gdb := strip out_gdb in
  if String.eqb out_gdb "" then os_path_join (os_path_dirname in_gdb) "Lab4_Output.gdb"
  else out_gdb.

(** The [try] block of [main].  An absent [csv_or_table] or [out_gdb]
    ([None]) is the empty text; [force_sample] is normalised and never used. *)
Definition main_body (in_gdb csv_or_table out_gdb : string) (buffer_meters : PyArg)
    (force_sample : string) : M Z :=
  (* Normalize *)
  let out_gdb := output_gdb in_gdb out_gdb in
  let in_gdb := strip in_gdb in
  let csv_or_table := strip csv_or_table in
  buffer_meters ← lift (buffer_distance buffer_meters);
  (* Resolve input GDB path *)
  e ← Exists_workspace in_gdb;
  if negb (e : bool) then raise ("Input geodatabase does not exist: " +:+ in_gdb)
  else
    set_env_workspace in_gdb;;
    garage_fc_path ← main_garages in_gdb csv_or_table;
    structures_fc_path ← main_structures in_gdb;
    (* prepare output GDB *)
    create_output_gdb out_gdb;;
    (* Project to metric CRS for buffering *)
    let target_sr := 3857 in
    let garage_prj := (out_gdb, "GaragePoints_PRJ") in
    let structures_prj := (out_gdb, "Structures_PRJ") in
    project_feature garage_fc_path garage_prj target_sr;;
    project_feature structures_fc_path structures_prj target_sr;;
    buffer_fc ← main_buffer out_gdb garage_prj buffer_meters;
    main_intersect out_gdb buffer_fc structures_prj;;
    mret 0.

(** [main]: [0] when the [try] block completes, [1] after
    [arcpy.AddError(str(e))] when it raises. *)
Definition main (in_gdb csv_or_table out_gdb : string) (buffer_meters : PyArg)
    (force_sample : string) (st : St) : Z * St :=
  match main_body in_gdb csv_or_table out_gdb buffer_meters force_sample st with
  | (Ok r, st') => (r, st')
  | (Raise e, st') => (1, AddError e st')
  end.

(** *** Vocabulary of the statements *)

(** [st'] keeps what [st] holds: the same files and error texts, every
    dataset of every workspace still there, in place, and the tools run so
    far still the first ones of the trace. *)
Record extends (st st' : St) : Prop := mkExtends {
  ext_files : files st' = files st;
  ext_errors : errors st' = errors st;
  ext_gdbs : ∀ w c, gdbs st !! w = Some c → ∃ c', gdbs st' !! w = Some (c ++ c');
  ext_calls : ∃ cs, calls st' = calls st ++ cs
}.

(** A computation that only adds datasets and, once the ambient workspace
    is [w], leaves it there. *)
Definition stable (w : string) {A} (m : M A) : Prop :=
  ∀ st r st', m st = (r, st') →
    extends st st' ∧ (env_workspace st = Some w → env_workspace st' = Some w).

(** What [_find_candidate_featureclass] returns on a state. *)
Definition find_result (st : St) (workspace : string) (names : list string) : option string :=
  match exact_loop st workspace names with
  | Some n => Some n
  | None => outer_loop names (feature_class_names (workspace_content st workspace))
  end.

(** The state after a tool has written the feature class [l] at [p]. *)
Definition put_fc (p : FcPath) (l : Layer Feature) (st : St) : St :=
  with_gdbs (<[p.1 := workspace_content st p.1 ++ [(p.2, FeatureClass l)]]> (gdbs st)) st.

(** Computations that leave the state as it is. *)
Definition reads {A} (m : M A) : Prop := ∀ st r st', m st = (r, st') → st' = st.

(** Computations that write one new feature class at [p], or raise and
    leave the state as it is. *)
Definition writes (p : FcPath) (m : M unit) : Prop :=
  ∀ st r st', m st = (r, st') →
    (∃ l, r = Ok tt ∧ fc_exists st p = false ∧ st' = put_fc p l st) ∨
    ((∃ e, r = Raise e) ∧ st' = st).

(** What running a tool that writes [p] and is traced as [c] does. *)
Definition tool_run (p : FcPath) (c : ToolCall) (m : M unit) : Prop :=
  ∀ st r st', m st = (r, st') →
    (∃ l, r = Ok tt ∧ fc_exists st p = false ∧ st' = put_fc p l (with_call c st)) ∨
    ((∃ e, r = Raise e) ∧ st' = with_call c st).

End Script.

(** *** A library and a campus to run the script on

    Features and table rows are numbers.  [Project] keeps the features and
    sets the spatial reference, [Buffer] keeps the layer, [Intersect] keeps
    the features of the first layer that the second has too, and
    [XYTableToPoint] makes one WGS 84 point per row.  Paths use [/]. *)
Module Sample.

Fixpoint dirname (s : string) : string :=
  match s with
  | EmptyString => EmptyString
  | String c r => if contains "/" r then String c (dirname r) else EmptyString
  end.

Fixpoint basename (s : string) : string :=
  match s with
  | EmptyString => EmptyString
  | String c r =>
      if contains "/" r then basename r
      else if Ascii.eqb c "/" then r else s
  end.

Definition library : Library Z Z := {|
  Project_kernel l target := Some (mkLayer (Some target) (features l));
  Buffer_kernel l d := Some l;
  Intersect_kernel la lb :=
    Some (mkLayer (sr la) (List.filter (λ f, bool_decide (f ∈ features lb)) (features la)));
  XYTableToPoint_kernel fs rs x y := Some (mkLayer (Some 4326) rs);
  CreateFileGDB_location folder name := Some (folder +:+ "/" +:+ name +:+ ".gdb");
  float_of_text s :=
    if String.eqb s "150.2" then Some (Finite (1502 # 10))
    else if String.eqb s "150.9" then Some (Finite (1509 # 10))
    else if String.eqb s "200" then Some (Finite 200)
    else None;
  os_path_dirname := dirname;
  os_path_basename := basename;
  os_path_join a b := a +:+ "/" +:+ b;
  os_path_splitext_root name := String.substring 0 (String.length name - 4) name
|}.

Definition campus_gdb : string := "/data/Campus.gdb".
Definition output_gdb_path : string := "/data/Lab4_Output.gdb".

(** Two garages under a name that differs from the candidates by case, and
    two structures, one of which meets a garage. *)
Definition campus : State Z Z :=
  mkState
    {[ campus_gdb := [("GARAGEPOINTS", FeatureClass (mkLayer (Some 4326) [1; 2]));
                      ("Structures", FeatureClass (mkLayer (Some 4326) [2; 3]))] ]}
    ∅ None [] [].

(** The same campus with its destination geodatabase created, empty. *)
Definition campus_with_output : State Z Z :=
  mkState
    {[ campus_gdb := [("GARAGEPOINTS", FeatureClass (mkLayer (Some 4326) [1; 2]));
                      ("Structures", FeatureClass (mkLayer (Some 4326) [2; 3]))];
       output_gdb_path := [] ]}
    ∅ None [] [].

(** A campus without garage layer, and two CSV files: one with longitude
    and latitude columns, one whose columns are neither named like
    coordinates nor numeric. *)
Definition campus_csv : State Z Z :=
  mkState
    {[ campus_gdb := [("Structures", FeatureClass (mkLayer (Some 4326) [2; 3]))] ]}
    {[ "/data/garages.csv" :=
         CsvTable [mkField "Longitude" "Double"; mkField "Latitude" "Double";
                   mkField "capacity" "Integer"] [1; 2];
       "/data/names.csv" :=
         CsvTable [mkField "id" "String"; mkField "name" "String"] [1; 2] ]}
    None [] [].

(** The destination filled step by step, as [main] does. *)
Definition projected : State Z Z :=
  (project_feature (L := library) (campus_gdb, "GARAGEPOINTS")
     (output_gdb_path, "GaragePoints_PRJ") 3857 campus_with_output).2.
Definition projected_both : State Z Z :=
  (project_feature (L := library) (campus_gdb, "Structures")
     (output_gdb_path, "Structures_PRJ") 3857 projected).2.
Definition buffered : State Z Z :=
  (main_buffer (L := library) output_gdb_path (output_gdb_path, "GaragePoints_PRJ")
     (Finite 150) projected_both).2.
Definition intersected : State Z Z :=
  (main_intersect (L := library) output_gdb_path (output_gdb_path, "Garage_Buffer_150m")
     (output_gdb_path, "Structures_PRJ") buffered).2.

(** The campus after a run of [main] with a buffer of 150.2 metres, and
    after a second run with 200 metres. *)
Definition after_run : State Z Z :=
  (main (L := library) campus_gdb "" "" (ArgText "150.2") "false" campus).2.
Definition after_second_run : State Z Z :=
  (main (L := library) campus_gdb "" "" (ArgText "200") "false" after_run).2.

End Sample.

End ArcPyTool.

(** ** [lab4_geopandas.py] *)
Module GeoPandasTool.
Import PyNum.

Inductive LinearUnit := Metre | Foot.

#[export] Instance LinearUnit_eq_dec : EqDecision LinearUnit.
Proof. solve_decision. Defined.

(** A [pyproj.CRS]: geographic (angular units), projected (with its linear
    unit), or of another kind (geocentric, engineering, ...). *)
Inductive CRS :=
| Geographic (code : Z)
| Projected (code : Z) (unit : LinearUnit)
| OtherCRS (code : Z).

#[export] Instance CRS_eq_dec : EqDecision CRS.
Proof. solve_decision. Defined.

(** [crs.is_geographic] *)
Definition is_geographic (c : CRS) : bool :=
  match c with Geographic _ => true | _ => false end.

(** The CRS has linear units, in metres. *)
Definition linear_metric (c : CRS) : bool :=
  match c with Projected _ Metre => true | _ => false end.

(** [CRS.from_epsg(3857)], Web Mercator. *)
Definition web_mercator : CRS := Projected 3857 Metre.

(** The UTM CRS of a zone on WGS 84 (EPSG:326zz north, EPSG:327zz south). *)
Definition utm_crs (zone : Z) (north : bool) : CRS :=
  Projected ((if north then 32600 else 32700) + zone) Metre.

(** A [GeoDataFrame]: its CRS ([None] when unset) and its rows, of which
    the script touches the geometry only. *)
Record GeoDataFrame (Geom : Type) := mkGDF {
  crs : option CRS;
  geometry : list Geom
}.
Arguments mkGDF {Geom} _ _.
Arguments crs {Geom} _.
Arguments geometry {Geom} _.

(** [gdf.empty] *)
Definition empty {Geom} (gdf : GeoDataFrame Geom) : bool :=
  match geometry gdf with [] => true | _ => false end.

(** The library side; nothing is assumed about it. *)
Class Library (Geom : Type) := {
  (** coordinate transformation of one geometry between two CRSs *)
  transform : CRS → CRS → Geom → Geom;
  (** the [try] block of [ensure_projected_for_buffer] on the centroid of
      [gdf.unary_union]: the UTM zone and hemisphere found, [None] when it
      raises *)
  estimate_utm_zone : list Geom → option (Z * bool);
  (** [geometry.buffer(d)] *)
  buffer : Geom → Z → Geom;
  (** [gpd.overlay(df1, df2, how='intersection')], [None] when it raises *)
  overlay_intersection : GeoDataFrame Geom → GeoDataFrame Geom → option (GeoDataFrame Geom);
  (** whether [gdf.to_file(path, layer=name, driver='GPKG')] succeeds *)
  to_file_succeeds : string → GeoDataFrame Geom → bool
}.

Section Script.
Context {Geom : Type} {L : Library Geom}.

Abbreviation GDF := (GeoDataFrame Geom).

(** [gdf.to_crs(target)]: [ValueError] on a frame without CRS or a [None]
    target; the frame itself when the CRS is the target already. *)
Definition to_crs (gdf : GDF) (target : option CRS) : Outcome GDF :=
  match crs gdf with
  | None => Raise "Cannot transform naive geometries. Please set a crs on the object first."
  | Some c =>
      match target with
      | None => Raise "Must pass either crs or epsg."
      | Some t =>
          if decide (c = t) then Ok gdf
          else Ok (mkGDF (Some t) (map (transform c t) (geometry gdf)))
      end
  end.

Definition ensure_projected_for_buffer (gdf : option GDF) : Outcome (option GDF) :=
  match gdf with
  | None => Ok None
  | Some g =>
      if empty g then Ok (Some g)
      else
        let geographic := match crs g with
                          | None => true
                          | Some c => is_geographic c
                          end in
        if geographic then
          (* estimate UTM by centroid of the combined geometry *)
          let utm := match estimate_utm_zone (geometry g) with
                     | Some (zone, north) => utm_crs zone north
                     | None => web_mercator  (* fallback to Web Mercator (units in meters) *)
                     end in
          match to_crs g (Some utm) with
          | Ok g' => Ok (Some g')
          | Raise e => Raise e
          end
        else Ok (Some g)
  end.

(** The local variables of [main] after the analysis. *)
Record Locals := mkLocals {
  garage_proj : option GDF;
  structures_proj : option GDF;
  garage_buffer : option GDF;
  intersect_gdf : GDF
}.

(** [g.to_crs(target) if g is not None and g.crs != target else g] *)
Definition align (g : option GDF) (target : CRS) : Outcome (option GDF) :=
  match g with
  | Some gdf =>
      if decide (crs gdf ≠ Some target) then
        match to_crs gdf (Some target) with
        | Ok g' => Ok (Some g')
        | Raise e => Raise e
        end
      else Ok g
  | None => Ok None
  end.

(** [main] from "If garage present, use its CRS as target" to the
    intersect analysis, on the two layers [read_layer_safe] returned. *)
Definition analysis (garage_gdf structures_gdf : option GDF) : Outcome Locals :=
  let target_crs :=
    match garage_gdf with
    | Some (mkGDF (Some c) _) => Some c
    | _ => match structures_gdf with
           | Some (mkGDF (Some c) _) => Some c
           | _ => None
           end
    end in
  (* Reproject both to target_crs (or ensure projected for buffer) *)
  match (match target_crs with
         | Some t =>
             match align garage_gdf t with
             | Ok g => match align structures_gdf t with
                       | Ok s => Ok (g, s)
                       | Raise e => Raise e
                       end
             | Raise e => Raise e
             end
         | None => Ok (garage_gdf, structures_gdf)
         end) with
  | Raise e => Raise e
  | Ok (garage_gdf, structures_gdf) =>
      (* Prepare projected versions for buffer operation (in meters) *)
      match (match garage_gdf with
             | Some _ => ensure_projected_for_buffer garage_gdf
             | None => Ok None
             end) with
      | Raise e => Raise e
      | Ok garage_proj =>
          match (match structures_gdf with
                 | Some s =>
                     match garage_proj with
                     | Some gp =>
                         match to_crs s (crs gp) with
                         | Ok s' => Ok (Some s')
                         | Raise e => Raise e
                         end
                     | None => ensure_projected_for_buffer structures_gdf
                     end
                 | None => Ok None
                 end) with
          | Raise e => Raise e
          | Ok structures_proj =>
              (* Buffer analysis: 150 meters *)
              let buffer_m := 150 in
              let garage_buffer :=
                match garage_proj with
                | Some gp =>
                    if negb (empty gp)
                    then Some (mkGDF (crs gp) (map (λ g, buffer g buffer_m) (geometry gp)))
                    else None
                | None => None
                end in
              (* Intersect analysis: buffer with structures *)
              match garage_buffer, structures_proj with
              | Some b, Some s =>
                  if negb (empty s) then
                    match overlay_intersection s b with
                    | Some i => Ok (mkLocals garage_proj structures_proj garage_buffer i)
                    | None => Raise "overlay failed"
                    end
                  else Ok (mkLocals garage_proj structures_proj garage_buffer
                             (mkGDF (crs b) []))
              | _, _ =>
                  Ok (mkLocals garage_proj structures_proj garage_buffer
                        (mkGDF (match garage_buffer with Some b => crs b | None => None end) []))
              end
          end
      end
  end.

(** The operands [gpd.overlay] is called with, when it is called. *)
Definition overlay_operands (l : Locals) : option (GDF * GDF) :=
  match garage_buffer l, structures_proj l with
  | Some b, Some s => if negb (empty s) then Some (s, b) else None
  | _, _ => None
  end.

(** [gdf.to_file(output_path, layer=name, driver='GPKG')] on the layers of
    the output GeoPackage: the layer is written under its name, or the call
    raises ([None]). *)
Definition to_file (name : string) (gdf : GDF) (gpkg : gmap string GDF)
  : option (gmap string GDF) :=
  if to_file_succeeds name gdf then Some (<[name := gdf]> gpkg) else None.

(** [x.to_file(..., layer=name) if x is not None] *)
Definition to_file_if_present (name : string) (gdf : option GDF) (gpkg : gmap string GDF)
  : option (gmap string GDF) :=
  match gdf with
  | Some g => to_file name g gpkg
  | None => Some gpkg
  end.

(** [main], "Save outputs to GeoPackage": the four writes in their [try]
    block; a write that raises is reported and ends the block, the layers
    written before it staying in the file. *)
Definition save_outputs (l : Locals) (gpkg : gmap string GDF) : gmap string GDF :=
  match to_file_if_present "GaragePoints_PRJ" (garage_proj l) gpkg with
  | None => gpkg
  | Some gpkg1 =>
      match to_file_if_present "Structures_PRJ" (structures_proj l) gpkg1 with
      | None => gpkg1
      | Some gpkg2 =>
          match to_file_if_present "Garage_Buffer_150m" (garage_buffer l) gpkg2 with
          | None => gpkg2
          | Some gpkg3 =>
              if negb (empty (intersect_gdf l)) then
                match to_file "Garage_Structures_Intersect" (intersect_gdf l) gpkg3 with
                | None => gpkg3
                | Some gpkg4 => gpkg4
                end
              else gpkg3
          end
      end
  end.

(** [main] once the two layers are read: the layers of the output
    GeoPackage when it prints "Done"; unchanged when both layers are
    missing and it exits early. *)
Definition main (garage_gdf structures_gdf : option GDF) (gpkg : gmap string GDF)
  : Outcome (gmap string GDF) :=
  match garage_gdf, structures_gdf with
  | None, None => Ok gpkg
  | _, _ =>
      match analysis garage_gdf structures_gdf with
      | Ok l => Ok (save_outputs l gpkg)
      | Raise e => Raise e
      end
  end.

End Script.

(** *** A library and two layers to run the script on

    Geometries are numbers; transformation and buffering keep them, the
    UTM estimate raises (the [try] block calls [CRS.estimate_utm_crs], an
    attribute that [pyproj.CRS] does not have), the overlay keeps the
    geometries of the first frame that the second has too, and every write
    succeeds. *)
Module Sample.

Definition library : Library Z := {|
  transform source target g := g;
  estimate_utm_zone geoms := None;
  buffer g d := g;
  overlay_intersection df1 df2 :=
    Some (mkGDF (crs df1)
            (List.filter (λ g, bool_decide (g ∈ geometry df2)) (geometry df1)));
  to_file_succeeds name gdf := true
|}.

(** Two garages in WGS 84. *)
Definition garages : GeoDataFrame Z := mkGDF (Some (Geographic 4326)) [1; 2].
(** Two structures in a State Plane CRS, in feet. *)
Definition structures : GeoDataFrame Z := mkGDF (Some (Projected 2277 Foot)) [2; 3].
(** Two structures, in WGS 84, that meet no garage. *)
Definition far_structures : GeoDataFrame Z := mkGDF (Some (Geographic 4326)) [3; 4].
(** A garage layer, in WGS 84, without any feature. *)
Definition no_garages : GeoDataFrame Z := mkGDF (Some (Geographic 4326)) [].

End Sample.

End GeoPandasTool.

(** ** Vocabulary for further statements about [lab4_arcpy_tool.py] *)
Module ArcPyFrame.
Import PyStr FieldDetector PyNum ArcPyTool.

Section Vocabulary.
Context {Feature Row : Type}.

(** A computation that leaves every workspace outside [ws] that exists as
    it is. *)
Definition confined (ws : list string) {A} (m : @M Feature Row A) : Prop :=
  ∀ st r st' w c,
    m st = (r, st') → gdbs st !! w = Some c → w ∉ ws → gdbs st' !! w = Some c.

(** A computation that, started in a state where [I] holds, keeps [I] and
    runs only tools that satisfy [P]. *)
Definition runs_only (I : State Feature Row → Prop) (P : ToolCall → Prop) {A}
    (m : @M Feature Row A) : Prop :=
  ∀ st r st',
    I st → m st = (r, st') →
    I st' ∧ ∃ cs, calls st' = calls st ++ cs ∧ Forall P cs.

Definition is_Intersect_call (c : ToolCall) : Prop :=
  match c with Intersect_call _ _ => True | _ => False end.

Definition is_XYTableToPoint_call (c : ToolCall) : Prop :=
  match c with XYTableToPoint_call _ _ _ _ => True | _ => False end.

(** A property of states that adding datasets keeps. *)
Definition kept_by_extends (I : State Feature Row → Prop) : Prop :=
  ∀ st st', extends st st' → I st → I st'.

(** The text of the [ValueError] raised when there is neither a garage
    layer nor a usable CSV. *)
Definition no_garages_no_csv : string :=
  "Could not find garage point feature class in GDB and no valid CSV provided.".

(** The name [create_output_gdb] passes to [CreateFileGDB]. *)
Definition name_no_ext {L : Library Feature Row} (out_gdb_path : string) : string :=
  let name := os_path_basename out_gdb_path in
  if endswith_gdb name then os_path_splitext_root name else name.

End Vocabulary.
End ArcPyFrame.

(** ** More states to run [lab4_arcpy_tool.py] on *)
Module ArcPySamples.
Import FieldDetector PyNum ArcPyTool ArcPyTool.Sample.

(** The campus next to an archive geodatabase that no run should touch. *)
Definition campus_and_archive : State Z Z :=
  mkState
    {[ campus_gdb := [("GARAGEPOINTS", FeatureClass (mkLayer (Some 4326) [1; 2]));
                      ("Structures", FeatureClass (mkLayer (Some 4326) [2; 3]))];
       "/data/Archive.gdb" := [("Structures_2019", FeatureClass (mkLayer (Some 4326) [7]))] ]}
    ∅ None [] [].

(** A campus with garages, a garage CSV and no structures. *)
Definition garages_only : State Z Z :=
  mkState
    {[ campus_gdb := [("Trees", FeatureClass (mkLayer (Some 4326) [5]))] ]}
    {[ "/data/garages.csv" :=
         CsvTable [mkField "Longitude" "Double"; mkField "Latitude" "Double"] [1; 2] ]}
    None [] [].

End ArcPySamples.

(** ** [lab4_geopandas.py]: the stages of the analysis

    The analysis of [main], stage by stage; [GeoPandasMore.analysis_stages]
    shows that [GeoPandasTool.analysis] is these stages in sequence. *)
Module GeoPandasStages.
Import PyNum GeoPandasTool.

Section Stages.
Context {Geom : Type} {L : Library Geom}.

Abbreviation GDF := (GeoDataFrame Geom).

(** "If garage present, use its CRS as target; else use structures CRS" *)
Definition target_crs (garage_gdf structures_gdf : option GDF) : option CRS :=
  match garage_gdf with
  | Some (mkGDF (Some c) _) => Some c
  | _ => match structures_gdf with
         | Some (mkGDF (Some c) _) => Some c
         | _ => None
         end
  end.

(** "Reproject both to target_crs" *)
Definition aligned (garage_gdf structures_gdf : option GDF)
  : Outcome (option GDF * option GDF) :=
  match target_crs garage_gdf structures_gdf with
  | Some t =>
      match align garage_gdf t with
      | Ok g => match align structures_gdf t with
                | Ok s => Ok (g, s)
                | Raise e => Raise e
                end
      | Raise e => Raise e
      end
  | None => Ok (garage_gdf, structures_gdf)
  end.

(** [garage_proj] *)
Definition project_garage (garage_gdf : option GDF) : Outcome (option GDF) :=
  match garage_gdf with
  | Some _ => ensure_projected_for_buffer garage_gdf
  | None => Ok None
  end.

(** [structures_proj] *)
Definition project_structures (structures_gdf garage_proj : option GDF)
  : Outcome (option GDF) :=
  match structures_gdf with
  | Some s =>
      match garage_proj with
      | Some gp =>
          match to_crs s (crs gp) with
          | Ok s' => Ok (Some s')
          | Raise e => Raise e
          end
      | None => ensure_projected_for_buffer structures_gdf
      end
  | None => Ok None
  end.

(** [garage_buffer], "Buffer analysis: 150 meters" *)
Definition buffer_of (garage_proj : option GDF) : option GDF :=
  match garage_proj with
  | Some gp =>
      if negb (empty gp)
      then Some (mkGDF (crs gp) (map (λ g, buffer g 150) (geometry gp)))
      else None
  | None => None
  end.

(** [intersect_gdf], "Intersect analysis: buffer with structures" *)
Definition overlay_of (garage_proj structures_proj garage_buffer : option GDF)
  : Outcome Locals :=
  match garage_buffer, structures_proj with
  | Some b, Some s =>
      if negb (empty s) then
        match overlay_intersection s b with
        | Some i => Ok (mkLocals garage_proj structures_proj garage_buffer i)
        | None => Raise "overlay failed"
        end
      else Ok (mkLocals garage_proj structures_proj garage_buffer (mkGDF (crs b) []))
  | _, _ =>
      Ok (mkLocals garage_proj structures_proj garage_buffer
            (mkGDF (match garage_buffer with Some b => crs b | None => None end) []))
  end.

(** The layers [main] may write to the output GeoPackage. *)
Definition output_layer_names : list string :=
  ["GaragePoints_PRJ"; "Structures_PRJ"; "Garage_Buffer_150m"; "Garage_Structures_Intersect"].

Definition staged_analysis (garage_gdf structures_gdf : option GDF) : Outcome Locals :=
  match aligned garage_gdf structures_gdf with
  | Raise e => Raise e
  | Ok (g1, s1) =>
      match project_garage g1 with
      | Raise e => Raise e
      | Ok gp =>
          match project_structures s1 gp with
          | Raise e => Raise e
          | Ok sp => overlay_of gp sp (buffer_of gp)
          end
      end
  end.

End Stages.
End GeoPandasStages.

(** ** [lab4_geopandas.py]: looking for an input *)
Module GeoPandasInput.
Import PyStr.

(** [s.endswith(suffix)] *)
Definition endswith (suffix s : string) : bool :=
  String.eqb
    (String.substring (String.length s - String.length suffix) (String.length suffix) s)
    suffix.

(** [for f in listing: if p(f): return f] *)
Fixpoint first_where (p : string → bool) (listing : list string) : option string :=
  match listing with
  | [] => None
  | f :: rest => if p f then Some f else first_where p rest
  end.

(** [find_first_gdb_or_folder(base_dir)], given what [os.listdir(base_dir)]
    returns (the same listing for both loops), [os.path.isdir] and
    [os.path.join]. *)
Definition find_first_gdb_or_folder
    (join : string → string → string) (isdir : string → bool)
    (listing : list string) (base_dir : string) : option string :=
  (* Look for .gdb directories *)
  match first_where (λ f, endswith ".gdb" (lower f) && isdir (join base_dir f)) listing with
  | Some f => Some (join base_dir f)
  | None =>
      (* look for geopackage *)
      match first_where (λ f, endswith ".gpkg" (lower f)) listing with
      | Some f => Some (join base_dir f)
      | None => None
      end
  end.

End GeoPandasInput.

(** ** [lab5_GISP_tool.py] *)
Module Lab5Tool.
Import PyStr.

(** A call that returns, or leaves through [sys.exit(code)]. *)
Inductive Exit (A : Type) :=
| Return (a : A)
| SysExit (code : Z).
Arguments Return {A} _.
Arguments SysExit {A} _.

(** [ask(prompt)], given the line [input(prompt)] returns. *)
Definition ask (typed : string) : Exit string :=
  let v := strip typed in
  if String.eqb v "" then SysExit 1 else Return v.
(** [s.replace(old, new)] for a one-character [old]. *)
Fixpoint replace_char (old : ascii) (new : string) (s : string) : string :=
  match s with
  | EmptyString => EmptyString
  | String c r =>
      if Ascii.eqb c old then new +:+ replace_char old new r
      else String c (replace_char old new r)
  end.

(** [Selected_Name.replace("'", "''")] *)
Definition safe_name (Selected_Name : string) : string :=
  replace_char "'" "''" Selected_Name.

(** [f"BldgName = '{safe_name}'"] *)
Definition where_clause (Selected_Name : string) : string :=
  "BldgName = '" +:+ safe_name Selected_Name +:+ "'".

(** [f"clip_{Selected_Name.replace(' ', '_')}"] *)
Definition clip_name (Selected_Name : string) : string :=
  "clip_" +:+ replace_char " " "_" Selected_Name.

Section Hints.
Context {V : Type} `{Countable V}.

(** The loop that prints sample names when the selected name is not found:
    [rows] are the [BldgName] values the cursor yields, [seen] the set of
    names printed so far; the result is what the loop prints, in order. *)
Fixpoint hint_loop (rows : list V) (seen : gset V) : list V :=
  match rows with
  | [] => []
  | nm :: rest =>
      let fresh := bool_decide (nm ∉ seen) in
      let seen' := if fresh then seen ∪ {[nm]} else seen in
      let printed := if fresh then [nm] else [] in
      if bool_decide (10 ≤ size seen')%nat  (* don't spam the console *)
      then printed
      else printed ++ hint_loop rest seen'
  end.

Definition hints (rows : list V) : list V := hint_loop rows ∅.

End Hints.

End Lab5Tool.

(** * Properties *)

(** ** Python strings *)
Module PyStrFacts.
Import PyStr.

(** *** Texts and patterns *)

Lemma append_nil_l (v : string) : "" +:+ v = v.
Proof. reflexivity. Qed.

Lemma append_cons_l (c : ascii) (u v : string) : String c u +:+ v = String c (u +:+ v).
Proof. reflexivity. Qed.

Lemma append_assoc (u v w : string) : (u +:+ v) +:+ w = u +:+ (v +:+ w).
Proof.
  induction u as [|c u IH]; [reflexivity|]. by rewrite !append_cons_l, IH.
Qed.

Lemma prefix_nil s : String.prefix "" s = true.
Proof. by destruct s. Qed.

Lemma prefix_cons c p d s :
  String.prefix (String c p) (String d s)
  = if decide (c = d) then String.prefix p s else false.
Proof. cbn. destruct (ascii_dec c d), (decide (c = d)); done. Qed.

Lemma prefix_split p s : String.prefix p s = true ↔ ∃ v, s = p +:+ v.
Proof.
  revert s. induction p as [|c p IH]; intros s.
  - rewrite prefix_nil. split; [intros _; exists s; reflexivity | done].
  - destruct s as [|d s].
    + split; [done | intros [v Hv]; rewrite append_cons_l in Hv; discriminate].
    + rewrite prefix_cons. setoid_rewrite append_cons_l.
      destruct (decide (c = d)) as [->|Hne].
      * rewrite IH. split; intros [v Hv]; exists v.
        -- by rewrite Hv.
        -- by injection Hv.
      * split; [done|]. intros [v Hv]. injection Hv as E _. by destruct Hne.
Qed.

Lemma contains_cons p d s :
  contains p (String d s) = String.prefix p (String d s) || contains p s.
Proof. reflexivity. Qed.

(** [pat in s] holds when [s] is some text, [pat], some text. *)
Lemma contains_split p s : contains p s = true ↔ ∃ u v, s = u +:+ p +:+ v.
Proof.
  induction s as [|d s IH].
  - change (contains p "") with (String.prefix p "" || false).
    rewrite orb_false_r, prefix_split. split.
    + intros [v Hv]. by exists "", v.
    + intros (u & v & H). destruct u; [by exists v | discriminate].
  - rewrite contains_cons, orb_true_iff, prefix_split, IH. split.
    + intros [[v Hv] | (u & v & H)].
      * by exists "", v.
      * exists (String d u), v. by rewrite H.
    + intros (u & v & H). destruct u as [|e u].
      * left. by exists v.
      * right. exists u, v. rewrite append_cons_l in H. by injection H.
Qed.

Lemma contains_longer p q s : contains (p +:+ q) s = true → contains p s = true.
Proof.
  rewrite !contains_split. intros (u & v & ->). exists u, (q +:+ v).
  by rewrite append_assoc.
Qed.

Lemma whole_iff c s : whole c s = true ↔ s = c ∨ s = c +:+ newline.
Proof. unfold whole. by rewrite orb_true_iff, !String.eqb_eq. Qed.

(** *** [str.strip] *)

Lemma is_space_white w : is_space w = true ↔ w ∈ white_space.
Proof. unfold is_space. apply bool_decide_eq_true. Qed.

(** A white-space character is one, two or three bytes long. *)
Lemma white_space_bytes w :
  w ∈ white_space →
  (∃ a, w = String a "") ∨ (∃ a b, w = String a (String b "")) ∨
  (∃ a b c, w = String a (String b (String c ""))).
Proof.
  intros H. vm_compute in H.
  repeat (apply elem_of_cons in H as [->|H]; [eauto 10|]).
  by apply elem_of_nil in H.
Qed.

Lemma lstrip_1 a :
  lstrip (String a "") = if is_space (String a "") then "" else String a "".
Proof. reflexivity. Qed.

Lemma lstrip_2 a b :
  lstrip (String a (String b ""))
  = if is_space (String a "") then lstrip (String b "")
    else if is_space (String a (String b "")) then "" else String a (String b "").
Proof. reflexivity. Qed.

Lemma lstrip_3 a b c r :
  lstrip (String a (String b (String c r)))
  = if is_space (String a "") then lstrip (String b (String c r))
    else if is_space (String a (String b "")) then lstrip (String c r)
    else if is_space (String a (String b (String c ""))) then lstrip r
    else String a (String b (String c r)).
Proof. reflexivity. Qed.

Lemma lstrip_no_space_fuel n s w u :
  (String.length s ≤ n)%nat → w ∈ white_space → lstrip s ≠ w +:+ u.
Proof.
  revert s. induction n as [|n IH]; intros s Hn Hw.
  { destruct s; [|simpl in Hn; lia]. simpl.
    destruct (white_space_bytes w Hw) as [(a & ->)|[(a & b & ->)|(a & b & c & ->)]];
      discriminate. }
  assert (∀ r, (String.length r ≤ n)%nat → lstrip r ≠ w +:+ u) as IH' by (intros; by apply IH).
  assert (w +:+ u ≠ "") as Hne.
  { destruct (white_space_bytes w Hw) as [(a & ->)|[(a & b & ->)|(a & b & c & ->)]];
      discriminate. }
  destruct s as [|a [|b [|c r3]]]; rewrite ?lstrip_1, ?lstrip_2, ?lstrip_3.
  - done.
  - destruct (is_space (String a "")) eqn:E1; [done|].
    intros Heq. apply not_true_iff_false in E1. apply E1, is_space_white.
    destruct (white_space_bytes w Hw) as [(x & ->)|[(x & y & ->)|(x & y & z & ->)]];
      rewrite ?append_cons_l in Heq; injection Heq; intros; subst; try done.
  - destruct (is_space (String a "")) eqn:E1.
    { apply IH'. simpl in *. lia. }
    destruct (is_space (String a (String b ""))) eqn:E2; [done|].
    intros Heq. apply not_true_iff_false in E1, E2.
    destruct (white_space_bytes w Hw) as [(x & ->)|[(x & y & ->)|(x & y & z & ->)]];
      rewrite ?append_cons_l in Heq; injection Heq; intros; subst.
    + by apply E1, is_space_white.
    + by apply E2, is_space_white.
    + discriminate.
  - destruct (is_space (String a "")) eqn:E1.
    { apply IH'. simpl in *. lia. }
    destruct (is_space (String a (String b ""))) eqn:E2.
    { apply IH'. simpl in *. lia. }
    destruct (is_space (String a (String b (String c "")))) eqn:E3.
    { apply IH'. simpl in *. lia. }
    intros Heq. apply not_true_iff_false in E1, E2, E3.
    destruct (white_space_bytes w Hw) as [(x & ->)|[(x & y & ->)|(x & y & z & ->)]];
      rewrite ?append_cons_l in Heq; injection Heq; intros; subst.
    + by apply E1, is_space_white.
    + by apply E2, is_space_white.
    + by apply E3, is_space_white.
Qed.

(** What [lstrip] returns does not begin with white space. *)
Lemma lstrip_no_space s w u : w ∈ white_space → lstrip s ≠ w +:+ u.
Proof. by apply (lstrip_no_space_fuel (String.length s)). Qed.

Lemma rstrip_cons c r :
  rstrip (String c r) = if is_space (String c (rstrip r)) then "" else String c (rstrip r).
Proof. reflexivity. Qed.

(** [rstrip] only removes from the end. *)
Lemma rstrip_prefix s : ∃ tail, s = rstrip s +:+ tail.
Proof.
  induction s as [|c r [tail IH]]; [by exists ""|].
  rewrite rstrip_cons. destruct (is_space _).
  - by exists (String c r).
  - exists tail. by rewrite append_cons_l, <- IH.
Qed.

(** What [rstrip] returns does not end with white space. *)
Lemma rstrip_no_space s w u : w ∈ white_space → rstrip s ≠ u +:+ w.
Proof.
  intros Hw.
  assert (w ≠ "") as Hne.
  { destruct (white_space_bytes w Hw) as [(a & ->)|[(a & b & ->)|(a & b & c & ->)]];
      discriminate. }
  revert u. induction s as [|c r IH]; intros u.
  - simpl. destruct u; [by rewrite append_nil_l | discriminate].
  - rewrite rstrip_cons. destruct (is_space _) eqn:E.
    + destruct u; [by rewrite append_nil_l | discriminate].
    + destruct u as [|d u].
      * rewrite append_nil_l. intros Heq. apply not_true_iff_false in E.
        apply E, is_space_white. by rewrite Heq.
      * rewrite append_cons_l. intros [= _ Heq]. by apply (IH u).
Qed.

Lemma strip_no_space s w u :
  w ∈ white_space → strip s ≠ w +:+ u ∧ strip s ≠ u +:+ w.
Proof.
  intros Hw. split; [|by apply rstrip_no_space].
  unfold strip. intros Heq. destruct (rstrip_prefix (lstrip s)) as [tail Ht].
  rewrite Heq, append_assoc in Ht. by apply lstrip_no_space in Ht.
Qed.

Lemma lstrip_id s : (∀ w u, w ∈ white_space → s ≠ w +:+ u) → lstrip s = s.
Proof.
  intros H.
  assert (∀ w u, is_space w = true → s ≠ w +:+ u) as H'.
  { intros w u Hw. apply H. by apply is_space_white. }
  destruct s as [|a [|b [|c r3]]]; rewrite ?lstrip_1, ?lstrip_2, ?lstrip_3; [done| | |].
  - destruct (is_space (String a "")) eqn:E1; [|done].
    by destruct (H' _ "" E1).
  - destruct (is_space (String a "")) eqn:E1; [by destruct (H' _ (String b "") E1)|].
    destruct (is_space (String a (String b ""))) eqn:E2; [|done].
    by destruct (H' _ "" E2).
  - destruct (is_space (String a "")) eqn:E1;
      [by destruct (H' _ (String b (String c r3)) E1)|].
    destruct (is_space (String a (String b ""))) eqn:E2;
      [by destruct (H' _ (String c r3) E2)|].
    destruct (is_space (String a (String b (String c "")))) eqn:E3; [|done].
    by destruct (H' _ r3 E3).
Qed.

Lemma rstrip_id s : (∀ w u, w ∈ white_space → s ≠ u +:+ w) → rstrip s = s.
Proof.
  induction s as [|c r IH]; intros H; [done|].
  rewrite rstrip_cons, IH.
  - destruct (is_space (String c r)) eqn:E; [|done].
    apply is_space_white in E. by destruct (H _ "" E).
  - intros w u Hw ->. by apply (H w (String c u)).
Qed.

Lemma strip_idempotent s : strip (strip s) = strip s.
Proof.
  unfold strip at 1. rewrite lstrip_id, rstrip_id; [done| |];
    intros w u Hw; by destruct (strip_no_space s w u Hw).
Qed.

End PyStrFacts.

(** ** The field heuristic *)
Module FieldDetectorFacts.
Import PyStr FieldDetector PyStrFacts.

Lemma filter_head_find {A} (p : A → bool) (l : list A) :
  head (List.filter p l) = List.find p l.
Proof.
  induction l as [|a l IH]; simpl; [reflexivity|].
  destruct (p a); [reflexivity | exact IH].
Qed.

Lemma x_candidates_find fields :
  head (x_candidates fields) = List.find x_like (map name fields).
Proof. apply filter_head_find. Qed.

Lemma y_candidates_find fields :
  head (y_candidates fields) = List.find y_like (map name fields).
Proof. apply filter_head_find. Qed.

(** The code runs the two passes, with its own name classes. *)
Lemma detect_xy_two_pass fields : detect_xy fields = two_pass x_like y_like fields.
Proof.
  unfold detect_xy, two_pass, num_fields.
  rewrite <- x_candidates_find, <- y_candidates_find.
  destruct (x_candidates fields) as [|x xs], (y_candidates fields) as [|y ys]; simpl;
    destruct (List.filter is_numeric fields) as [|a [|b r]]; reflexivity.
Qed.

(** What [(^x$|lon|long|longitude)] accepts: the text [x] (a final newline
    apart), or any text with [lon] in it. *)
Lemma x_like_iff n :
  x_like n = true ↔
  lower n = "x" ∨ lower n = "x" +:+ newline ∨ ∃ u v, lower n = u +:+ "lon" +:+ v.
Proof.
  unfold x_like. cbv zeta. rewrite !orb_true_iff, whole_iff, <- contains_split.
  split; [|tauto].
  intros [[[H|H]|H]|H]; [tauto | tauto | |].
  - right. right. by apply (contains_longer "lon" "g").
  - right. right. by apply (contains_longer "lon" "gitude").
Qed.

(** What [(^y$|lat|latitude)] accepts: the text [y] (a final newline
    apart), or any text with [lat] in it. *)
Lemma y_like_iff n :
  y_like n = true ↔
  lower n = "y" ∨ lower n = "y" +:+ newline ∨ ∃ u v, lower n = u +:+ "lat" +:+ v.
Proof.
  unfold y_like. cbv zeta. rewrite !orb_true_iff, whole_iff, <- contains_split.
  split; [|tauto].
  intros [[H|H]|H]; [tauto | tauto |].
  right. right. by apply (contains_longer "lat" "itude").
Qed.

Lemma x_like_named n : x_listed n = true → x_like n = true.
Proof.
  unfold x_listed, x_like. intros H. apply bool_decide_eq_true in H.
  repeat (apply elem_of_cons in H as [-> | H]; [reflexivity|]).
  by apply elem_of_nil in H.
Qed.

Lemma y_like_named n : y_listed n = true → y_like n = true.
Proof.
  unfold y_listed, y_like. intros H. apply bool_decide_eq_true in H.
  repeat (apply elem_of_cons in H as [-> | H]; [reflexivity|]).
  by apply elem_of_nil in H.
Qed.

Lemma find_agree (p q : string → bool) (l : list string) :
  (∀ n, n ∈ l → p n = q n) → List.find p l = List.find q l.
Proof.
  induction l as [|a l IH]; intros H; simpl; [reflexivity|].
  rewrite <- (H a) by (apply elem_of_cons; by left).
  destruct (p a); [reflexivity|]. apply IH. intros n Hn. apply H.
  apply elem_of_cons. by right.
Qed.

(** Two passes with classes that agree on the names of the schema. *)
Lemma two_pass_agree (xc yc xc' yc' : string → bool) fields :
  (∀ f, f ∈ fields → xc (name f) = xc' (name f) ∧ yc (name f) = yc' (name f)) →
  two_pass xc yc fields = two_pass xc' yc' fields.
Proof.
  intros H. unfold two_pass.
  rewrite (find_agree xc xc'), (find_agree yc yc'); [reflexivity| |];
    intros n Hn; apply list_elem_of_fmap in Hn as (f & -> & Hf); by apply H.
Qed.

(** No usable pair: exactly when a name class is empty and fewer than two
    fields are numeric. *)
Lemma detect_xy_ambiguous_iff fields :
  detect_xy fields = Ambiguous ↔
  (length (List.filter is_numeric fields) < 2)%nat ∧
  (x_candidates fields = [] ∨ y_candidates fields = []).
Proof.
  unfold detect_xy, Ambiguous, num_fields.
  destruct (x_candidates fields) as [|x xs], (y_candidates fields) as [|y ys];
    destruct (List.filter is_numeric fields) as [|a [|b r]]; simpl;
    split; try (intros [H1 [H2|H2]]); try intros H; try split;
    try discriminate; try lia; try reflexivity; auto.
Qed.

(** C4 (as amended): the detector runs the two passes of the spec (the
    first name of each class in schema order; the first two numeric fields
    only when a class has no match) with the classes of its two patterns:
    X-like is the name [x] or any name with [lon] in it, Y-like is the name
    [y] or any name with [lat] in it, whatever the case.  The listed names
    are in their class, but so is a name that merely contains [lon] or
    [lat]; on a schema without such a name the detector is that of the
    listed classes.  The four schemas of the spec give ("X","Y"),
    ("lon","lat"), ("a","b") and Ambiguous. *)
Theorem detect_xy_name_then_numeric
    (fields : list Field) (n : string) (tid tcap tx ty tlon tlat ta tb tname : string)
    (Hid : is_numeric (mkField "id" tid) = false)
    (Ha : is_numeric (mkField "a" ta) = true)
    (Hb : is_numeric (mkField "b" tb) = true)
    (Hname : is_numeric (mkField "name" tname) = false) :
  detect_xy fields = two_pass x_like y_like fields ∧
  (x_like n = true ↔
     lower n = "x" ∨ lower n = "x" +:+ newline ∨ ∃ u v, lower n = u +:+ "lon" +:+ v) ∧
  (y_like n = true ↔
     lower n = "y" ∨ lower n = "y" +:+ newline ∨ ∃ u v, lower n = u +:+ "lat" +:+ v) ∧
  (x_listed n = true → x_like n = true) ∧
  (y_listed n = true → y_like n = true) ∧
  ((∀ f, f ∈ fields →
      x_like (name f) = x_listed (name f) ∧ y_like (name f) = y_listed (name f)) →
   detect_xy fields = detectXY_spec fields) ∧
  detect_xy [mkField "id" tid; mkField "capacity" tcap; mkField "X" tx; mkField "Y" ty]
    = (Some "X", Some "Y") ∧
  detect_xy [mkField "id" tid; mkField "lon" tlon; mkField "lat" tlat]
    = (Some "lon", Some "lat") ∧
  detect_xy [mkField "id" tid; mkField "a" ta; mkField "b" tb] = (Some "a", Some "b") ∧
  detect_xy [mkField "id" tid; mkField "name" tname] = Ambiguous.
Proof.
  split; [apply detect_xy_two_pass|].
  split; [apply x_like_iff|].
  split; [apply y_like_iff|].
  split; [apply x_like_named|].
  split; [apply y_like_named|].
  split.
  { intros H. rewrite detect_xy_two_pass. by apply two_pass_agree. }
  split; [reflexivity|].
  split; [reflexivity|].
  unfold detect_xy, x_candidates, y_candidates, num_fields, Ambiguous.
  cbn [map List.filter name]. split.
  - rewrite Hid, Ha, Hb. reflexivity.
  - rewrite Hid, Hname. reflexivity.
Qed.

Lemma detect_xy_name_then_numeric_witness :
  detect_xy [mkField "id" "String"; mkField "a" "Double"; mkField "b" "Integer"]
    = (Some "a", Some "b") ∧
  detect_xy [mkField "id" "String"; mkField "name" "String"] = Ambiguous.
Proof.
  pose proof (detect_xy_name_then_numeric [] "X" "String" "Integer" "Double" "Double"
                "Double" "Double" "Double" "Integer" "String"
                eq_refl eq_refl eq_refl eq_refl) as H.
  split; [apply H | apply H].
Defined.

(** C4 as stated fails: with the classes as listed, no name of the schema
    Platform, colony, a, b is X-like or Y-like, so the two numeric fields
    [a] and [b] would be returned; the detector returns [colony] and
    [Platform], text fields whose names contain [lon] and [lat]. *)
Lemma names_that_contain_lon_or_lat :
  let schema := [mkField "Platform" "String"; mkField "colony" "String";
                 mkField "a" "Double"; mkField "b" "Double"] in
  detectXY_spec schema = (Some "a", Some "b") ∧
  detect_xy schema = (Some "colony", Some "Platform") ∧
  detect_xy schema ≠ detectXY_spec schema.
Proof.
  split; [vm_compute; reflexivity|]. split; [vm_compute; reflexivity|].
  vm_compute. discriminate.
Qed.

End FieldDetectorFacts.

(** ** The ArcPy script tool *)
Module ArcPyFacts.
Import PyStr FieldDetector PyNum ArcPyTool.

Section Facts.
Context {Feature Row : Type} {L : Library Feature Row}.

Abbreviation St := (State Feature Row).
Abbreviation Mc := (@M Feature Row).
Abbreviation stable w m := (@ArcPyTool.stable Feature Row w _ m).
Abbreviation reads m := (@ArcPyTool.reads Feature Row _ m).
Abbreviation writes p m := (@ArcPyTool.writes Feature Row p m).
Abbreviation tool_run p c m := (@ArcPyTool.tool_run Feature Row p c m).
Implicit Types (st : St) (p : FcPath) (w : string).

(** *** Running binds *)

Lemma bind_inv {A B} (m : Mc A) (f : A → Mc B) st r st' :
  (m ≫= f) st = (r, st') →
  (∃ a s, m st = (Ok a, s) ∧ f a s = (r, st')) ∨
  (∃ e, m st = (Raise e, st') ∧ r = Raise e).
Proof.
  unfold mbind, M_bind. destruct (m st) as [[a|e] s]; intros H.
  - left. eauto.
  - right. exists e. by inversion H.
Qed.

Lemma bind_Ok_inv {A B} (m : Mc A) (f : A → Mc B) st b st' :
  (m ≫= f) st = (Ok b, st') →
  ∃ a s, m st = (Ok a, s) ∧ f a s = (Ok b, st').
Proof.
  intros H. apply bind_inv in H as [H | (e & _ & H)]; [exact H | discriminate].
Qed.

Lemma bind_run {A B} (m : Mc A) (f : A → Mc B) st a s :
  m st = (Ok a, s) → (m ≫= f) st = f a s.
Proof. unfold mbind, M_bind. by intros ->. Qed.

Lemma state_eta st :
  mkState (gdbs st) (files st) (env_workspace st) (calls st) (errors st) = st.
Proof. by destruct st. Qed.

Lemma with_env_id w st : env_workspace st = Some w → with_env w st = st.
Proof. unfold with_env. intros <-. apply state_eta. Qed.

(** *** States that keep what was there *)

Lemma extends_refl st : extends st st.
Proof.
  split; try reflexivity.
  - intros w c H. exists []. by rewrite app_nil_r.
  - exists []. by rewrite app_nil_r.
Qed.

Lemma extends_trans st1 st2 st3 : extends st1 st2 → extends st2 st3 → extends st1 st3.
Proof.
  intros [F1 E1 G1 [c1 C1]] [F2 E2 G2 [c2 C2]]. split.
  - congruence.
  - congruence.
  - intros w c H. destruct (G1 _ _ H) as [c' H']. destruct (G2 _ _ H') as [c'' H''].
    exists (c' ++ c''). by rewrite app_assoc.
  - exists (c1 ++ c2). by rewrite C2, C1, app_assoc.
Qed.

Lemma extends_with_env w st : extends st (with_env w st).
Proof.
  split; try reflexivity.
  - intros w' c H. exists []. by rewrite app_nil_r.
  - exists []. by rewrite app_nil_r.
Qed.

Lemma extends_with_call c st : extends st (with_call c st).
Proof.
  split; try reflexivity.
  - intros w' c' H. exists []. by rewrite app_nil_r.
  - by exists [c].
Qed.

Lemma extends_put_fc p l st : extends st (put_fc p l st).
Proof.
  split; try reflexivity.
  - intros w c H. unfold put_fc, with_gdbs, workspace_content; simpl.
    destruct (decide (p.1 = w)) as [->|Hne].
    + rewrite lookup_insert_eq, H. simpl. eauto.
    + rewrite lookup_insert_ne by done. exists []. by rewrite app_nil_r.
  - exists []. by rewrite app_nil_r.
Qed.

Lemma has_name_app n (c c' : list (string * Dataset Feature)) :
  has_name n (c ++ c') = has_name n c || has_name n c'.
Proof.
  unfold has_name. rewrite fmap_app.
  apply eq_true_iff_eq. rewrite orb_true_iff, !bool_decide_eq_true.
  apply elem_of_app.
Qed.

Lemma fc_exists_extends st st' p :
  extends st st' → fc_exists st p = true → fc_exists st' p = true.
Proof.
  intros E. unfold fc_exists. destruct (gdbs st !! p.1) as [c|] eqn:Hc; [|done].
  destruct (ext_gdbs _ _ E _ _ Hc) as [c' ->]. rewrite has_name_app. by intros ->.
Qed.

Lemma workspace_exists_extends st st' w :
  extends st st' → workspace_exists st w = true → workspace_exists st' w = true.
Proof.
  intros E. unfold workspace_exists. rewrite !bool_decide_eq_true. intros [c Hc].
  destruct (ext_gdbs _ _ E _ _ Hc) as [c' H']. eauto.
Qed.

Lemma fc_exists_workspace st p : fc_exists st p = true → workspace_exists st p.1 = true.
Proof.
  unfold fc_exists, workspace_exists. destruct (gdbs st !! p.1); [|done].
  intros _. apply bool_decide_eq_true. eauto.
Qed.

Lemma fc_exists_put_fc p l st : fc_exists (put_fc p l st) p = true.
Proof.
  unfold fc_exists, put_fc, with_gdbs; simpl. rewrite lookup_insert_eq.
  rewrite has_name_app. apply orb_true_iff. right.
  unfold has_name. apply bool_decide_eq_true. simpl. set_solver.
Qed.


(** *** The geoprocessing tools *)

Lemma reads_ret {A} (a : A) : reads (mret a).
Proof. intros st r st' H. by inversion H. Qed.

Lemma reads_raise {A} e : reads (raise e : Mc A).
Proof. intros st r st' H. by inversion H. Qed.

Lemma reads_lift {A} (o : Outcome A) : reads (lift o).
Proof. intros st r st' H. by inversion H. Qed.

Lemma reads_get : reads get.
Proof. intros st r st' H. by inversion H. Qed.

Lemma reads_Exists p : reads (Exists p).
Proof. intros st r st' H. by inversion H. Qed.

Lemma reads_Exists_workspace w : reads (Exists_workspace w).
Proof. intros st r st' H. by inversion H. Qed.

Lemma reads_ListFeatureClasses : reads ListFeatureClasses.
Proof. intros st r st' H. by inversion H. Qed.

Lemma reads_ListFields t : reads (ListFields t).
Proof.
  intros st r st'. unfold ListFields.
  destruct (files st !! t) as [[fs rs|]|]; intros H; by inversion H.
Qed.

Lemma reads_read_fc p : reads (read_fc p).
Proof.
  intros st r st'. unfold read_fc.
  destruct (gdbs st !! p.1) as [c|]; [|intros H; by inversion H].
  destruct (list_find _ c) as [[i [n [l|]]]|]; intros H; by inversion H.
Qed.

Lemma reads_kernel_result o : reads (kernel_result o).
Proof. destruct o; [apply reads_ret | apply reads_raise]. Qed.

Lemma reads_bind {A B} (m : Mc A) (f : A → Mc B) :
  reads m → (∀ a, reads (f a)) → reads (m ≫= f).
Proof.
  intros Hm Hf st r st' H. apply bind_inv in H as [(a & s & H1 & H2) | (e & H1 & _)].
  - apply Hm in H1 as ->. by apply Hf in H2.
  - by apply Hm in H1.
Qed.

Lemma writes_raise p e : writes p (raise e).
Proof. intros st r st' H. inversion H. right. eauto. Qed.

Lemma writes_write_fc p l : writes p (write_fc p l).
Proof.
  intros st r st'. unfold write_fc, put_fc, fc_exists, workspace_content.
  destruct (gdbs st !! p.1) as [c|]; simpl.
  - destruct (has_name p.2 c); intros H; inversion H; [right | left]; eauto.
  - intros H; inversion H. right; eauto.
Qed.

Lemma writes_bind {A} p (m : Mc A) (f : A → Mc unit) :
  reads m → (∀ a, writes p (f a)) → writes p (m ≫= f).
Proof.
  intros Hm Hf st r st' H. apply bind_inv in H as [(a & s & H1 & H2) | (e & H1 & ->)].
  - apply Hm in H1 as ->. by apply Hf in H2.
  - apply Hm in H1 as ->. right. eauto.
Qed.

(** A tool: its invocation is traced, then it writes its output or raises. *)
Lemma tool_inv p c (body : Mc unit) st r st' :
  writes p body →
  (log_call c ;; body) st = (r, st') →
  (∃ l, r = Ok tt ∧ fc_exists st p = false ∧ st' = put_fc p l (with_call c st)) ∨
  ((∃ e, r = Raise e) ∧ st' = with_call c st).
Proof.
  intros Hb H. apply bind_inv in H as [(a & s & H1 & H2) | (e & H1 & _)];
    [|discriminate].
  inversion H1; subst. exact (Hb _ _ _ H2).
Qed.

Lemma writes_Project_body i o sr :
  writes o (l ← read_fc i; l' ← kernel_result (Project_kernel l sr); write_fc o l').
Proof.
  apply writes_bind; [apply reads_read_fc | intros l].
  apply writes_bind; [apply reads_kernel_result | intros l'].
  apply writes_write_fc.
Qed.

Lemma writes_Buffer_body i o d :
  writes o (l ← read_fc i; l' ← kernel_result (Buffer_kernel l d); write_fc o l').
Proof.
  apply writes_bind; [apply reads_read_fc | intros l].
  apply writes_bind; [apply reads_kernel_result | intros l'].
  apply writes_write_fc.
Qed.

Lemma writes_Intersect_body a b o :
  writes o (la ← read_fc a; lb ← read_fc b;
            l' ← kernel_result (Intersect_kernel la lb); write_fc o l').
Proof.
  apply writes_bind; [apply reads_read_fc | intros la].
  apply writes_bind; [apply reads_read_fc | intros lb].
  apply writes_bind; [apply reads_kernel_result | intros l'].
  apply writes_write_fc.
Qed.

Lemma writes_XYTableToPoint_body t o x y :
  writes o (st ← get;
            match files st !! t with
            | Some (CsvTable fs rs) =>
                l' ← kernel_result (XYTableToPoint_kernel fs rs x y); write_fc o l'
            | _ => raise "ERROR 000732: input table does not exist"
            end).
Proof.
  apply writes_bind; [apply reads_get | intros st].
  destruct (files st !! t) as [[fs rs|]|]; try apply writes_raise.
  apply writes_bind; [apply reads_kernel_result | intros l'].
  apply writes_write_fc.
Qed.

Lemma Project_run i o sr : tool_run o (Project_call i o sr) (Project i o sr).
Proof. intros st r st'. apply tool_inv, writes_Project_body. Qed.

Lemma Buffer_run i o d : tool_run o (Buffer_call i o d) (Buffer i o d).
Proof. intros st r st'. apply tool_inv, writes_Buffer_body. Qed.

Lemma Intersect_run a b o : tool_run o (Intersect_call [a; b] o) (Intersect a b o).
Proof. intros st r st'. apply tool_inv, writes_Intersect_body. Qed.

Lemma XYTableToPoint_run t o x y :
  tool_run o (XYTableToPoint_call t o x y) (XYTableToPoint t o x y).
Proof. intros st r st'. apply tool_inv, writes_XYTableToPoint_body. Qed.


(** *** Stability of the script's steps *)

Lemma stable_reads w {A} (m : Mc A) : reads m → stable w m.
Proof. intros Hm st r st' H. apply Hm in H as ->. split; [apply extends_refl | done]. Qed.

Lemma stable_bind w {A B} (m : Mc A) (f : A → Mc B) :
  stable w m → (∀ a, stable w (f a)) → stable w (m ≫= f).
Proof.
  intros Hm Hf st r st' H. apply bind_inv in H as [(a & s & H1 & H2) | (e & H1 & _)].
  - destruct (Hm _ _ _ H1) as [E1 W1], (Hf _ _ _ _ H2) as [E2 W2].
    split; [by eapply extends_trans | auto].
  - exact (Hm _ _ _ H1).
Qed.

Lemma stable_set_env_workspace w : stable w (set_env_workspace w).
Proof. intros st r st' H. inversion H. split; [apply extends_with_env | done]. Qed.

Lemma stable_tool w p c m : tool_run p c m → stable w m.
Proof.
  intros Hm st r st' H. apply Hm in H as [(l & _ & _ & ->) | (_ & ->)].
  - split; [|done]. eapply extends_trans; [apply extends_with_call | apply extends_put_fc].
  - split; [apply extends_with_call | done].
Qed.

Lemma stable_CreateFileGDB w folder name : stable w (CreateFileGDB folder name).
Proof.
  intros st r st' H. unfold CreateFileGDB in H.
  apply bind_inv in H as [(a & s & H1 & H2) | (e & H1 & _)]; [|discriminate].
  inversion H1; subst; clear H1.
  apply bind_inv in H2 as [(s0 & s & H1 & H2) | (e & H1 & _)]; [|discriminate].
  inversion H1; subst; clear H1.
  assert (extends st (with_call (CreateFileGDB_call folder name) st)) as E0
    by apply extends_with_call.
  destruct (CreateFileGDB_location folder name) as [p|]; [|by inversion H2].
  destruct (workspace_exists _ p) eqn:Hp; inversion H2; subst; [done|].
  split; [|done]. eapply extends_trans; [exact E0|].
  split; try reflexivity.
  - intros w' c Hc. simpl. exists []. rewrite app_nil_r.
    rewrite lookup_insert_ne; [done|]. intros ->.
    apply bool_decide_eq_false in Hp. apply Hp. simpl. eauto.
  - exists []. by rewrite app_nil_r.
Qed.

Lemma outer_loop_nil names : outer_loop names [] = None.
Proof. induction names; simpl; auto. Qed.

Lemma exact_loop_gdbs st st' w names :
  gdbs st = gdbs st' → exact_loop st w names = exact_loop st' w names.
Proof.
  intros Hg. induction names as [|n names IH]; simpl; [reflexivity|].
  unfold fc_exists. rewrite Hg, IH. reflexivity.
Qed.

Lemma find_result_gdbs st st' w names :
  gdbs st = gdbs st' → find_result st w names = find_result st' w names.
Proof.
  intros Hg. unfold find_result, workspace_content.
  by rewrite (exact_loop_gdbs st st' w names Hg), Hg.
Qed.

(** [_find_candidate_featureclass] sets the ambient workspace and changes
    nothing else; its result is [find_result]. *)
Lemma find_candidate_run w names st :
  _find_candidate_featureclass w names st = (Ok (find_result st w names), with_env w st).
Proof.
  unfold _find_candidate_featureclass, find_result.
  unfold mbind, M_bind, set_env_workspace, get, ListFeatureClasses, mret, M_ret.
  rewrite (exact_loop_gdbs (with_env w st) st w names eq_refl).
  destruct (exact_loop st w names); [reflexivity|].
  simpl. unfold workspace_content.
  destruct (gdbs st !! w) as [c|]; simpl.
  - destruct (feature_class_names c) eqn:E; [by rewrite outer_loop_nil | reflexivity].
  - by rewrite outer_loop_nil.
Qed.

Lemma stable_find_candidate w names : stable w (_find_candidate_featureclass w names).
Proof.
  intros st r st'. rewrite find_candidate_run. intros H; inversion H.
  split; [apply extends_with_env | done].
Qed.

Lemma stable_create_output_gdb w out : stable w (create_output_gdb out).
Proof.
  apply stable_bind; [apply stable_reads, reads_Exists_workspace | intros e].
  destruct e; [apply stable_reads, reads_ret|].
  apply stable_bind; [apply stable_CreateFileGDB | intros _].
  apply stable_reads, reads_ret.
Qed.

Lemma stable_project_feature w i o sr : stable w (project_feature i o sr).
Proof.
  apply stable_bind; [apply stable_reads, reads_Exists | intros e].
  destruct e; [apply stable_reads, reads_ret|].
  apply stable_bind; [eapply stable_tool, Project_run | intros _].
  apply stable_reads, reads_ret.
Qed.

Lemma stable_main_buffer w out gp d : stable w (main_buffer out gp d).
Proof.
  unfold main_buffer. destruct (buffer_name d); [|apply stable_reads, reads_raise].
  apply stable_bind; [apply stable_reads, reads_Exists | intros e].
  apply stable_bind; [|intros _; apply stable_reads, reads_ret].
  destruct e; simpl; [apply stable_reads, reads_ret | eapply stable_tool, Buffer_run].
Qed.

Lemma stable_main_intersect w out b s : stable w (main_intersect out b s).
Proof.
  apply stable_bind; [apply stable_reads, reads_Exists | intros e].
  apply stable_bind; [|intros _; apply stable_reads, reads_ret].
  destruct e; simpl; [apply stable_reads, reads_ret | eapply stable_tool, Intersect_run].
Qed.

Lemma stable_main_garages w csv : stable w (main_garages w csv).
Proof.
  apply stable_bind; [apply stable_find_candidate | intros g].
  destruct (truthy g); [apply stable_reads, reads_ret|].
  apply stable_bind; [apply stable_reads, reads_get | intros st].
  destruct (_ && _); [|apply stable_reads, reads_raise].
  apply stable_bind.
  { apply stable_reads, reads_bind; [apply reads_ListFields | intros; apply reads_ret]. }
  intros xy. destruct (_ || _); [apply stable_reads, reads_raise|].
  apply stable_bind; [eapply stable_tool, XYTableToPoint_run | intros _].
  apply stable_reads, reads_ret.
Qed.

Lemma stable_main_structures w : stable w (main_structures w).
Proof.
  apply stable_bind; [apply stable_find_candidate | intros g].
  destruct (negb _); [apply stable_reads, reads_raise | apply stable_reads, reads_ret].
Qed.


(** *** Idempotent materialisation *)

Lemma calls_put_fc p l st : calls (put_fc p l st) = calls st.
Proof. reflexivity. Qed.

Lemma project_feature_exists i o sr st :
  fc_exists st o = true → project_feature i o sr st = (Ok o, st).
Proof.
  intros H. unfold project_feature, mbind, M_bind, Exists. by rewrite H.
Qed.

Lemma project_feature_inv i o sr st r st' :
  project_feature i o sr st = (r, st') →
  (fc_exists st o = true ∧ r = Ok o ∧ st' = st) ∨
  (fc_exists st o = false ∧
   ((∃ l, r = Ok o ∧ st' = put_fc o l (with_call (Project_call i o sr) st)) ∨
    ((∃ e, r = Raise e) ∧ st' = with_call (Project_call i o sr) st))).
Proof.
  destruct (fc_exists st o) eqn:E.
  - rewrite project_feature_exists by done. intros H; inversion H. by left.
  - intros H. right. split; [done|].
    unfold project_feature in H.
    apply bind_inv in H as [(a & s & H1 & H2) | (e & H1 & _)]; [|discriminate].
    inversion H1; subst; clear H1. rewrite E in H2.
    apply bind_inv in H2 as [(u & s' & H1 & H2) | (e & H1 & ->)].
    + apply Project_run in H1 as [(l & _ & _ & ->) | ((e & ?) & _)]; [|discriminate].
      inversion H2; subst. left. eauto.
    + apply Project_run in H1 as [(l & ? & _) | (_ & ->)]; [discriminate|].
      right. eauto.
Qed.

Lemma main_buffer_exists out gp d name st :
  buffer_name d = Some name → fc_exists st (out, name) = true →
  main_buffer out gp d st = (Ok (out, name), st).
Proof.
  intros Hn H. unfold main_buffer. rewrite Hn.
  unfold mbind, M_bind, Exists. by rewrite H.
Qed.

Lemma main_buffer_inv out gp d st r st' :
  main_buffer out gp d st = (r, st') →
  (buffer_name d = None ∧ (∃ e, r = Raise e) ∧ st' = st) ∨
  ∃ name, buffer_name d = Some name ∧
    ((fc_exists st (out, name) = true ∧ r = Ok (out, name) ∧ st' = st) ∨
     (fc_exists st (out, name) = false ∧
      ((∃ l, r = Ok (out, name) ∧
             st' = put_fc (out, name) l (with_call (Buffer_call gp (out, name) d) st)) ∨
       ((∃ e, r = Raise e) ∧ st' = with_call (Buffer_call gp (out, name) d) st)))).
Proof.
  destruct (buffer_name d) as [name|] eqn:Hn.
  2:{ unfold main_buffer. rewrite Hn. intros H; inversion H. left. eauto. }
  intros H. right. exists name. split; [done|].
  destruct (fc_exists st (out, name)) eqn:E.
  - rewrite (main_buffer_exists _ _ _ _ _ Hn E) in H. inversion H. by left.
  - right. split; [done|]. unfold main_buffer in H. rewrite Hn in H.
    apply bind_inv in H as [(a & s & H1 & H2) | (e & H1 & _)]; [|discriminate].
    inversion H1; subst; clear H1. rewrite E in H2. simpl in H2.
    apply bind_inv in H2 as [(u & s' & H1 & H2) | (e & H1 & ->)].
    + apply Buffer_run in H1 as [(l & _ & _ & ->) | ((e & ?) & _)]; [|discriminate].
      inversion H2; subst. left. eauto.
    + apply Buffer_run in H1 as [(l & ? & _) | (_ & ->)]; [discriminate|].
      right. eauto.
Qed.

Abbreviation intersect_fc out := (out, "Garage_Structures_Intersect").

Lemma main_intersect_exists out b s st :
  fc_exists st (intersect_fc out) = true →
  main_intersect out b s st = (Ok (intersect_fc out), st).
Proof.
  intros H. unfold main_intersect, mbind, M_bind, Exists. by rewrite H.
Qed.

Lemma main_intersect_inv out b s st r st' :
  main_intersect out b s st = (r, st') →
  (fc_exists st (intersect_fc out) = true ∧ r = Ok (intersect_fc out) ∧ st' = st) ∨
  (fc_exists st (intersect_fc out) = false ∧
   ((∃ l, r = Ok (intersect_fc out) ∧
          st' = put_fc (intersect_fc out) l
                  (with_call (Intersect_call [b; s] (intersect_fc out)) st)) ∨
    ((∃ e, r = Raise e) ∧ st' = with_call (Intersect_call [b; s] (intersect_fc out)) st))).
Proof.
  destruct (fc_exists st (intersect_fc out)) eqn:E.
  - rewrite main_intersect_exists by done. intros H; inversion H. by left.
  - intros H. right. split; [done|].
    unfold main_intersect in H.
    apply bind_inv in H as [(a & s0 & H1 & H2) | (e & H1 & _)]; [|discriminate].
    inversion H1; subst; clear H1. rewrite E in H2. simpl in H2.
    apply bind_inv in H2 as [(u & s' & H1 & H2) | (e & H1 & ->)].
    + apply Intersect_run in H1 as [(l & _ & _ & ->) | ((e & ?) & _)]; [|discriminate].
      inversion H2; subst. left. eauto.
    + apply Intersect_run in H1 as [(l & ? & _) | (_ & ->)]; [discriminate|].
      right. eauto.
Qed.

(** After a materialisation that returned, the layer is there. *)
Lemma project_feature_Ok i o sr st r st' :
  project_feature i o sr st = (Ok r, st') → r = o ∧ fc_exists st' o = true.
Proof.
  intros H. apply project_feature_inv in H
    as [(E & H & ->) | (E & [(l & H & ->) | ((e & H) & _)])]; try discriminate;
    inversion H; subst; split; auto using fc_exists_put_fc.
Qed.

Lemma main_buffer_Ok out gp d st r st' :
  main_buffer out gp d st = (Ok r, st') →
  ∃ name, buffer_name d = Some name ∧ r = (out, name) ∧ fc_exists st' r = true.
Proof.
  intros H. apply main_buffer_inv in H as [(_ & (e & H) & _) | (name & Hn & H)];
    [discriminate|].
  exists name. split; [done|].
  destruct H as [(E & H & ->) | (E & [(l & H & ->) | ((e & H) & _)])]; try discriminate;
    inversion H; subst; split; auto using fc_exists_put_fc.
Qed.

Lemma main_intersect_Ok out b s st r st' :
  main_intersect out b s st = (Ok r, st') →
  r = intersect_fc out ∧ fc_exists st' r = true.
Proof.
  intros H. apply main_intersect_inv in H
    as [(E & H & ->) | (E & [(l & H & ->) | ((e & H) & _)])]; try discriminate;
    inversion H; subst; split; auto using fc_exists_put_fc.
Qed.

(** C1: a materialisation that returned is not repeated: run again on the
    same destination and layer name it returns the same output, leaves the
    state (so the stored layer) as it is and runs no tool, so that over the
    two invocations the producer ran at most once; and when the named layer
    exists already it is returned with the state unchanged, no producer
    (Project, Buffer or Intersect) being run. *)
Theorem materialize_idempotent
    (i o : FcPath) (sr : Z) (st st1 : St) (r : FcPath)
    (out : string) (gp : FcPath) (d : PyFloat) (stb stb1 : St) (rb : FcPath)
    (out' : string) (b s : FcPath) (sti sti1 : St) (ri : FcPath)
    (Hp : project_feature i o sr st = (Ok r, st1))
    (Hb : main_buffer out gp d stb = (Ok rb, stb1))
    (Hi : main_intersect out' b s sti = (Ok ri, sti1)) :
  (project_feature i o sr st1 = (Ok r, st1) ∧
   (calls st1 = calls st ∨ calls st1 = calls st ++ [Project_call i o sr]) ∧
   (∀ s0, fc_exists s0 o = true → project_feature i o sr s0 = (Ok o, s0))) ∧
  (main_buffer out gp d stb1 = (Ok rb, stb1) ∧
   (calls stb1 = calls stb ∨ calls stb1 = calls stb ++ [Buffer_call gp rb d]) ∧
   (∀ s0, fc_exists s0 rb = true → main_buffer out gp d s0 = (Ok rb, s0))) ∧
  (main_intersect out' b s sti1 = (Ok ri, sti1) ∧
   (calls sti1 = calls sti ∨ calls sti1 = calls sti ++ [Intersect_call [b; s] ri]) ∧
   (∀ s0, fc_exists s0 ri = true → main_intersect out' b s s0 = (Ok ri, s0))).
Proof.
  split; [|split].
  - destruct (project_feature_Ok _ _ _ _ _ _ Hp) as [-> E1].
    split; [by apply project_feature_exists|].
    split; [|intros s0; apply project_feature_exists].
    apply project_feature_inv in Hp
      as [(_ & _ & ->) | (_ & [(l & _ & ->) | ((e & H) & _)])]; try discriminate; auto.
  - destruct (main_buffer_Ok _ _ _ _ _ _ Hb) as (name & Hn & -> & E1).
    split; [by apply main_buffer_exists|].
    split; [|intros s0; by apply main_buffer_exists].
    apply main_buffer_inv in Hb as [(Hn' & _) | (name' & Hn' & Hb)]; [congruence|].
    assert (name' = name) as -> by congruence.
    destruct Hb as [(_ & _ & ->) | (_ & [(l & _ & ->) | ((e & H) & _)])];
      try discriminate; auto.
  - destruct (main_intersect_Ok _ _ _ _ _ _ Hi) as [-> E1].
    split; [by apply main_intersect_exists|].
    split; [|intros s0; apply main_intersect_exists].
    apply main_intersect_inv in Hi
      as [(_ & _ & ->) | (_ & [(l & _ & ->) | ((e & H) & _)])]; try discriminate; auto.
Qed.


(** *** The layer resolver *)

Lemma has_name_nil n : has_name n (@nil (string * Dataset Feature)) = false.
Proof. apply bool_decide_eq_false. set_solver. Qed.

Lemma exact_loop_find st w names :
  exact_loop st w names = List.find (λ n, has_name n (workspace_content st w)) names.
Proof.
  induction names as [|n names IH]; simpl; [reflexivity|].
  rewrite IH. unfold fc_exists, workspace_content; cbn [fst snd].
  destruct (gdbs st !! w) as [c|]; cbn [default]; [reflexivity|].
  by rewrite has_name_nil.
Qed.

Lemma inner_loop_filter n fcs :
  inner_loop n fcs = head (List.filter (λ f, String.eqb (lower f) (lower n)) fcs).
Proof.
  induction fcs as [|f fcs IH]; simpl; [reflexivity|].
  destruct (String.eqb (lower f) (lower n)); [reflexivity | exact IH].
Qed.

Lemma head_app_Some {A} (l l' : list A) :
  head (l ++ l') = match head l with Some a => Some a | None => head l' end.
Proof. by destruct l. Qed.

Lemma outer_loop_flat_map names fcs :
  outer_loop names fcs =
  head (flat_map (λ n, List.filter (λ f, String.eqb (lower f) (lower n)) fcs) names).
Proof.
  induction names as [|n names IH]; simpl; [reflexivity|].
  rewrite head_app_Some, <- inner_loop_filter, IH.
  by destruct (inner_loop n fcs).
Qed.

Lemma find_result_spec st w names :
  find_result st w names = resolve_spec (workspace_content st w) names.
Proof.
  unfold find_result, resolve_spec.
  by rewrite exact_loop_find, outer_loop_flat_map.
Qed.

(** C5: the resolver returns the first candidate that exists under its
    exact name and, only when none does, the first listed feature class
    that equals a candidate up to case, candidates taken in list order
    ([resolve_spec]); the result is the same on any two states whose
    workspace has the same content, whatever the ambient workspace and the
    rest of the state are. *)
Theorem find_candidate_featureclass_resolves
    (workspace : string) (names : list string) (st st2 : St)
    (Hsame : workspace_content st workspace = workspace_content st2 workspace) :
  (_find_candidate_featureclass workspace names st).1
    = Ok (resolve_spec (workspace_content st workspace) names) ∧
  (_find_candidate_featureclass workspace names st).1
    = (_find_candidate_featureclass workspace names st2).1.
Proof.
  rewrite !find_candidate_run; simpl. rewrite !find_result_spec.
  split; [reflexivity | by rewrite Hsame].
Qed.

(** *** The resolver and the source workspace *)

Lemma main_garages_inv in_gdb csv st r st' :
  main_garages in_gdb csv st = (r, st') →
  st' = with_env in_gdb st ∨
  (truthy (find_result st in_gdb garage_names) = false ∧
   ∃ x y,
     let c := XYTableToPoint_call csv (in_gdb, "GaragePoints") x y in
     ((∃ e, r = Raise e) ∧ st' = with_call c (with_env in_gdb st)) ∨
     (∃ l, r = Ok (in_gdb, "GaragePoints") ∧
           fc_exists st (in_gdb, "GaragePoints") = false ∧
           st' = put_fc (in_gdb, "GaragePoints") l (with_call c (with_env in_gdb st)))).
Proof.
  unfold main_garages. intros H.
  apply bind_inv in H as [(g & s & H1 & H2) | (e & H1 & _)];
    rewrite find_candidate_run in H1; inversion H1; subst; clear H1.
  destruct (truthy (find_result st in_gdb garage_names)) eqn:Ht.
  { inversion H2. by left. }
  apply bind_inv in H2 as [(s0 & s & H1 & H2) | (e & H1 & _)]; [|discriminate].
  inversion H1; subst; clear H1.
  destruct (_ && _); [|inversion H2; by left].
  apply bind_inv in H2 as [(xy & s & H1 & H2) | (e & H1 & _)].
  2:{ left. eapply (reads_bind _ _ (reads_ListFields csv)), H1. intros; apply reads_ret. }
  eapply (reads_bind _ _ (reads_ListFields csv)) in H1 as ->; [|intros; apply reads_ret].
  destruct (_ || _); [inversion H2; by left|].
  right. split; [done|]. exists (default "" xy.1), (default "" xy.2). simpl.
  apply bind_inv in H2 as [(u & s & H1 & H2) | (e & H1 & ->)].
  - apply XYTableToPoint_run in H1 as [(l & _ & E & ->) | ((e & ?) & _)]; [|discriminate].
    inversion H2; subst. right. exists l. auto.
  - apply XYTableToPoint_run in H1 as [(l & ? & _) | (_ & ->)]; [discriminate|].
    left. eauto.
Qed.

(** What [main_garages] returns, case by case. *)
Lemma main_garages_cases in_gdb csv st r st' :
  main_garages in_gdb csv st = (r, st') →
  (truthy (find_result st in_gdb garage_names) = true ∧
   r = Ok (in_gdb, default "" (find_result st in_gdb garage_names)) ∧
   st' = with_env in_gdb st) ∨
  (truthy (find_result st in_gdb garage_names) = false ∧
   (((∃ e, r = Raise e) ∧ st' = with_env in_gdb st) ∨
    ∃ x y,
      let c := XYTableToPoint_call csv (in_gdb, "GaragePoints") x y in
      ((∃ e, r = Raise e) ∧ st' = with_call c (with_env in_gdb st)) ∨
      (∃ l, r = Ok (in_gdb, "GaragePoints") ∧
            fc_exists st (in_gdb, "GaragePoints") = false ∧
            st' = put_fc (in_gdb, "GaragePoints") l (with_call c (with_env in_gdb st))))).
Proof.
  unfold main_garages. intros H.
  apply bind_inv in H as [(g & s & H1 & H2) | (e & H1 & _)];
    rewrite find_candidate_run in H1; inversion H1; subst; clear H1.
  destruct (truthy (find_result st in_gdb garage_names)) eqn:Ht.
  { inversion H2. by left. }
  right. split; [done|].
  apply bind_inv in H2 as [(s0 & s & H1 & H2) | (e & H1 & _)]; [|discriminate].
  inversion H1; subst; clear H1.
  destruct (_ && _); [|inversion H2; left; eauto].
  apply bind_inv in H2 as [(xy & s & H1 & H2) | (e & H1 & ->)].
  2:{ left. split; [eauto|].
      eapply (reads_bind _ _ (reads_ListFields csv)), H1. intros; apply reads_ret. }
  eapply (reads_bind _ _ (reads_ListFields csv)) in H1 as ->; [|intros; apply reads_ret].
  destruct (_ || _); [inversion H2; left; eauto|].
  right. exists (default "" xy.1), (default "" xy.2). simpl.
  apply bind_inv in H2 as [(u & s & H1 & H2) | (e & H1 & ->)].
  - apply XYTableToPoint_run in H1 as [(l & _ & E & ->) | ((e & ?) & _)]; [|discriminate].
    inversion H2; subst. right. exists l. auto.
  - apply XYTableToPoint_run in H1 as [(l & ? & _) | (_ & ->)]; [discriminate|].
    left. eauto.
Qed.

(** No candidate found: no candidate exists under its exact name. *)
Lemma find_result_exact st w names n :
  truthy (find_result st w names) = false → "" ∉ names → n ∈ names →
  fc_exists st (w, n) = false.
Proof.
  unfold find_result. intros Ht Hne.
  assert (exact_loop st w names = None) as E.
  { destruct (exact_loop st w names) as [m|] eqn:E; [|done]. exfalso.
    assert (m ∈ names) as Hm.
    { clear Ht. revert E. induction names as [|k names IH]; simpl; [done|].
      destruct (fc_exists st (w, k)).
      - intros [= ->]. apply elem_of_cons. by left.
      - intros E. apply elem_of_cons. right. apply IH; [|done].
        intros H. apply Hne, elem_of_cons. by right. }
    simpl in Ht. apply negb_false_iff, String.eqb_eq in Ht. by subst m. }
  clear Ht Hne. revert E. induction names as [|m names IH]; simpl;
    [intros _ Hn; by apply elem_of_nil in Hn|].
  destruct (fc_exists st (w, m)) eqn:Em; [done|].
  intros E Hn. apply elem_of_cons in Hn as [->|Hn]; auto.
Qed.

Lemma garage_names_not_empty : "" ∉ garage_names.
Proof.
  unfold garage_names. intros H.
  repeat (apply elem_of_cons in H as [?|H]; [discriminate|]).
  by apply elem_of_nil in H.
Qed.

Lemma gdbs_put_fc p l st :
  gdbs (put_fc p l st)
  = <[p.1 := workspace_content st p.1 ++ [(p.2, FeatureClass l)]]> (gdbs st).
Proof. reflexivity. Qed.

Lemma fc_exists_has_name st w n :
  workspace_exists st w = true →
  fc_exists st (w, n) = has_name n (workspace_content st w).
Proof.
  unfold workspace_exists, fc_exists, workspace_content. rewrite bool_decide_eq_true.
  intros [c Hc]. cbn [fst snd]. by rewrite Hc.
Qed.

(** The CSV fallback of the garage resolution, run. *)
Lemma main_garages_fallback in_gdb csv st fs rows x y l :
  workspace_exists st in_gdb = true →
  truthy (find_result st in_gdb garage_names) = false →
  csv ≠ "" →
  files st !! csv = Some (CsvTable fs rows) →
  detect_xy fs = (Some x, Some y) → x ≠ "" → y ≠ "" →
  XYTableToPoint_kernel fs rows x y = Some l →
  main_garages in_gdb csv st
  = (Ok (in_gdb, "GaragePoints"),
     put_fc (in_gdb, "GaragePoints") l
       (with_call (XYTableToPoint_call csv (in_gdb, "GaragePoints") x y)
          (with_env in_gdb st))).
Proof.
  intros Hin Hnone Hcsv Hfile Hxy Hx Hy Hk.
  pose proof (find_result_exact st in_gdb garage_names "GaragePoints" Hnone
                garage_names_not_empty ltac:(apply elem_of_cons; by left)) as Hfresh.
  unfold main_garages.
  rewrite (bind_run _ _ _ _ _ (find_candidate_run in_gdb garage_names st)).
  rewrite Hnone.
  rewrite (bind_run get _ _ (with_env in_gdb st) (with_env in_gdb st) eq_refl).
  apply String.eqb_neq in Hcsv. rewrite Hcsv.
  assert (os_path_exists (with_env in_gdb st) csv = true) as ->.
  { unfold os_path_exists. simpl. rewrite Hfile. apply orb_true_iff. left.
    apply bool_decide_eq_true. eauto. }
  cbn [negb andb].
  assert (_detect_xy_fields csv (with_env in_gdb st)
          = (Ok (Some x, Some y), with_env in_gdb st)) as Hd.
  { unfold _detect_xy_fields, mbind, M_bind, ListFields. simpl. by rewrite Hfile, Hxy. }
  rewrite (bind_run _ _ _ _ _ Hd). cbn [fst snd truthy default].
  apply String.eqb_neq in Hx, Hy. rewrite Hx, Hy. cbn [negb orb].
  unfold XYTableToPoint, mbind, M_bind, log_call, get, kernel_result, write_fc,
    mret, M_ret, set_gdbs.
  simpl. rewrite Hfile, Hk.
  apply bool_decide_eq_true in Hin as [c Hc].
  unfold fc_exists in Hfresh. simpl in Hfresh. rewrite Hc in Hfresh.
  set (s1 := with_call _ (with_env in_gdb st)).
  assert (gdbs s1 = gdbs st) as Hg by reflexivity.
  rewrite Hg, Hc, Hfresh. unfold put_fc, workspace_content. cbn [fst snd].
  by rewrite Hg, Hc.
Qed.

(** C8: a resolution call leaves every workspace and every file as it is
    (it sets the ambient workspace only), except the garage resolution in
    its CSV fallback: when no candidate is found and the CSV gives a point
    layer, that layer is added under the name GaragePoints, a name the
    source workspace did not hold, at the end of the source workspace,
    [XYTableToPoint] being run once, and no other dataset or workspace
    changes.  A fallback that fails changes no workspace. *)
Theorem resolver_frame (in_gdb csv : string) (st : St)
    (fs : list Field) (rows : list Row) (x y : string) (l : Layer Feature)
    (Hin : workspace_exists st in_gdb = true)
    (Hnone : truthy (find_result st in_gdb garage_names) = false)
    (Hcsv : csv ≠ "")
    (Hfile : files st !! csv = Some (CsvTable fs rows))
    (Hxy : detect_xy fs = (Some x, Some y))
    (Hx : x ≠ "") (Hy : y ≠ "")
    (Hkernel : XYTableToPoint_kernel fs rows x y = Some l) :
  (∃ st', main_garages in_gdb csv st = (Ok (in_gdb, "GaragePoints"), st') ∧
          has_name "GaragePoints" (workspace_content st in_gdb) = false ∧
          gdbs st' = <[in_gdb := workspace_content st in_gdb
                                 ++ [("GaragePoints", FeatureClass l)]]> (gdbs st) ∧
          files st' = files st ∧
          calls st' = calls st ++ [XYTableToPoint_call csv (in_gdb, "GaragePoints") x y]) ∧
  ∀ (names : list string) (csv0 : string) (st0 : St),
    (_find_candidate_featureclass in_gdb names st0).2 = with_env in_gdb st0 ∧
    (main_structures in_gdb st0).2 = with_env in_gdb st0 ∧
    (truthy (find_result st0 in_gdb garage_names) = true →
     (main_garages in_gdb csv0 st0).2 = with_env in_gdb st0) ∧
    (∀ e st', main_garages in_gdb csv0 st0 = (Raise e, st') →
              gdbs st' = gdbs st0 ∧ files st' = files st0) ∧
    (∀ p st', main_garages in_gdb csv0 st0 = (Ok p, st') →
              truthy (find_result st0 in_gdb garage_names) = false →
              p = (in_gdb, "GaragePoints") ∧
              fc_exists st0 (in_gdb, "GaragePoints") = false ∧
              files st' = files st0 ∧
              ∃ l0, gdbs st' = <[in_gdb := workspace_content st0 in_gdb
                                           ++ [("GaragePoints", FeatureClass l0)]]>
                                 (gdbs st0)).
Proof.
  split.
  - eexists. split; [by eapply main_garages_fallback|].
    split; [|auto].
    rewrite <- (fc_exists_has_name st in_gdb "GaragePoints" Hin).
    apply (find_result_exact st in_gdb garage_names);
      [done | apply garage_names_not_empty | apply elem_of_cons; by left].
  - intros names csv0 st0. rewrite find_candidate_run. split; [reflexivity|].
    split.
    { unfold main_structures, mbind, M_bind. rewrite find_candidate_run.
      by destruct (negb _). }
    split.
    { intros Ht. destruct (main_garages in_gdb csv0 st0) as [r st'] eqn:H.
      apply main_garages_cases in H as [(_ & _ & ->) | (Hf & _)]; [done | congruence]. }
    split.
    + intros e st' H.
      apply main_garages_cases in H
        as [(_ & ? & _) | (_ & [(_ & ->) | (x0 & y0 & [(_ & ->) | (l0 & ? & _)])])];
        done.
    + intros p st' H Ht.
      apply main_garages_cases in H
        as [(Ht' & _) | (_ & [((e & ?) & _) | (x0 & y0 & [((e & ?) & _) | (l0 & Hr & E & ->)])])];
        try congruence.
      injection Hr as ->. split; [done|]. split; [done|]. split; [done|]. by exists l0.
Qed.

(** *** A layer that was found is found again *)

Lemma exact_loop_Some st w names n :
  exact_loop st w names = Some n → n ∈ names ∧ fc_exists st (w, n) = true.
Proof.
  induction names as [|m names IH]; simpl; [done|].
  destruct (fc_exists st (w, m)) eqn:E.
  - intros [= ->]. split; [apply elem_of_cons; by left | done].
  - intros H. destruct (IH H). split; [apply elem_of_cons; by right | done].
Qed.

Lemma exact_loop_None st w names n :
  exact_loop st w names = None → n ∈ names → fc_exists st (w, n) = false.
Proof.
  induction names as [|m names IH]; simpl; [set_solver|].
  destruct (fc_exists st (w, m)) eqn:E; [done|].
  intros H [->|Hn]%elem_of_cons; auto.
Qed.

Lemma inner_loop_app n fcs extra f :
  inner_loop n fcs = Some f → inner_loop n (fcs ++ extra) = Some f.
Proof.
  induction fcs as [|g fcs IH]; simpl; [done|].
  destruct (String.eqb (lower g) (lower n)); auto.
Qed.

Lemma outer_loop_app names fcs extra f :
  outer_loop names fcs = Some f → is_Some (outer_loop names (fcs ++ extra)).
Proof.
  induction names as [|n names IH]; simpl; [done|].
  destruct (inner_loop n fcs) as [g|] eqn:E.
  - intros _. rewrite (inner_loop_app _ _ extra _ E). eauto.
  - intros H. destruct (inner_loop n (fcs ++ extra)) as [g|]; eauto.
Qed.

Lemma lower_empty s : lower s = "" → s = "".
Proof. by destruct s. Qed.

Lemma inner_loop_nonempty n fcs f : n ≠ "" → inner_loop n fcs = Some f → f ≠ "".
Proof.
  intros Hn. induction fcs as [|g fcs IH]; simpl; [done|].
  destruct (String.eqb (lower g) (lower n)) eqn:E; [|exact IH].
  intros [= ->] ->. apply String.eqb_eq in E. simpl in E.
  symmetry in E. by apply lower_empty in E.
Qed.

Lemma outer_loop_nonempty names fcs f :
  (∀ n, n ∈ names → n ≠ "") → outer_loop names fcs = Some f → f ≠ "".
Proof.
  induction names as [|n names IH]; simpl; [done|]. intros Hn.
  destruct (inner_loop n fcs) as [g|] eqn:E.
  - intros [= ->]. eapply inner_loop_nonempty; [|exact E]. apply Hn. set_solver.
  - apply IH. intros m Hm. apply Hn. set_solver.
Qed.

Lemma truthy_Some s : s ≠ "" → truthy (Some s) = true.
Proof.
  intros H. simpl. apply negb_true_iff. by apply String.eqb_neq.
Qed.

Lemma truthy_inv o : truthy o = true → ∃ s, o = Some s ∧ s ≠ "".
Proof.
  destruct o as [s|]; [|done]. simpl. intros H%negb_true_iff%String.eqb_neq. eauto.
Qed.

Lemma feature_class_names_app (c c' : list (string * Dataset Feature)) :
  feature_class_names (c ++ c') = feature_class_names c ++ feature_class_names c'.
Proof. unfold feature_class_names. by rewrite List.filter_app, fmap_app. Qed.

Lemma find_result_truthy st w names :
  (∀ n, n ∈ names → n ≠ "") →
  is_Some (find_result st w names) → truthy (find_result st w names) = true.
Proof.
  intros Hn [f Hf]. rewrite Hf. apply truthy_Some. unfold find_result in Hf.
  destruct (exact_loop st w names) as [n|] eqn:E.
  - inversion Hf; subst. apply Hn. by apply exact_loop_Some in E as [? _].
  - by eapply outer_loop_nonempty.
Qed.

Lemma exact_loop_is_Some st w names n :
  n ∈ names → fc_exists st (w, n) = true → is_Some (exact_loop st w names).
Proof.
  intros Hn E. destruct (exact_loop st w names) eqn:H; [eauto|].
  rewrite (exact_loop_None _ _ _ _ H Hn) in E. discriminate.
Qed.

(** Adding datasets never loses the layer a resolution had found. *)
Lemma find_result_extends st st' w names :
  (∀ n, n ∈ names → n ≠ "") → extends st st' →
  truthy (find_result st w names) = true → truthy (find_result st' w names) = true.
Proof.
  intros Hn E Ht. apply find_result_truthy; [done|].
  apply truthy_inv in Ht as (f & Hf & _). unfold find_result in *.
  destruct (exact_loop st w names) as [n|] eqn:Ex.
  - apply exact_loop_Some in Ex as [Hin Hex].
    destruct (exact_loop_is_Some st' w names n Hin (fc_exists_extends _ _ _ E Hex)) as [m ->].
    eauto.
  - destruct (exact_loop st' w names); [eauto|].
    unfold workspace_content in *. destruct (gdbs st !! w) as [c|] eqn:Hc.
    + destruct (ext_gdbs _ _ E _ _ Hc) as [c' ->]. simpl in *.
      rewrite feature_class_names_app. by eapply outer_loop_app.
    + simpl in Hf. by rewrite outer_loop_nil in Hf.
Qed.

Lemma garage_names_nonempty n : n ∈ garage_names → n ≠ "".
Proof.
  unfold garage_names. intros H ->.
  repeat (apply elem_of_cons in H as [H|H]; [discriminate|]). by apply elem_of_nil in H.
Qed.

Lemma structures_names_nonempty n : n ∈ structures_names → n ≠ "".
Proof.
  unfold structures_names. intros H ->.
  repeat (apply elem_of_cons in H as [H|H]; [discriminate|]). by apply elem_of_nil in H.
Qed.

(** *** A run of [main] that completes *)

Lemma main_garages_Ok in_gdb csv st r st' :
  main_garages in_gdb csv st = (Ok r, st') →
  truthy (find_result st' in_gdb garage_names) = true.
Proof.
  intros H. pose proof H as H'.
  apply main_garages_inv in H' as [-> | (Ht & x & y & [((e & ?) & _) | (l & _ & E & ->)])];
    [| discriminate |].
  - rewrite (find_result_gdbs (with_env in_gdb st) st) by reflexivity.
    unfold main_garages in H. apply bind_Ok_inv in H as (g & s & H1 & H2).
    rewrite find_candidate_run in H1. inversion H1; subst; clear H1.
    destruct (truthy (find_result st in_gdb garage_names)) eqn:Ht; [done|].
    exfalso. apply bind_Ok_inv in H2 as (s0 & s & H1 & H2). inversion H1; subst; clear H1.
    destruct (_ && _); [|discriminate].
    apply bind_Ok_inv in H2 as (xy & s & H1 & H2).
    eapply (reads_bind _ _ (reads_ListFields csv)) in H1 as ->; [|intros; apply reads_ret].
    destruct (_ || _); [discriminate|].
    apply bind_Ok_inv in H2 as (u & s & H1 & H2).
    apply XYTableToPoint_run in H1 as [(l & _ & _ & ->) | ((e & ?) & _)]; [|discriminate].
    apply (f_equal (λ x, length (calls x.2))) in H2. simpl in H2.
    rewrite length_app in H2. simpl in H2. lia.
  - apply find_result_truthy; [apply garage_names_nonempty|].
    unfold find_result.
    destruct (exact_loop_is_Some
                (put_fc (in_gdb, "GaragePoints") l
                   (with_call (XYTableToPoint_call csv (in_gdb, "GaragePoints") x y)
                      (with_env in_gdb st)))
                in_gdb garage_names "GaragePoints") as [m ->]; eauto.
    + unfold garage_names. set_solver.
    + apply fc_exists_put_fc.
Qed.

Lemma main_structures_Ok in_gdb st r st' :
  main_structures in_gdb st = (Ok r, st') →
  st' = with_env in_gdb st ∧ truthy (find_result st in_gdb structures_names) = true.
Proof.
  unfold main_structures. intros H. apply bind_Ok_inv in H as (g & s & H1 & H2).
  rewrite find_candidate_run in H1. inversion H1; subst; clear H1.
  destruct (truthy (find_result st in_gdb structures_names)); simpl in H2; [|discriminate].
  by inversion H2.
Qed.


Abbreviation garage_prj out := (out, "GaragePoints_PRJ").
Abbreviation structures_prj out := (out, "Structures_PRJ").

(** What holds after the [try] block of [main] has completed. *)
Lemma main_body_Ok in0 csv0 out0 a force st r st' :
  main_body in0 csv0 out0 a force st = (Ok r, st') →
  r = 0 ∧
  ∃ d name, buffer_distance a = Ok d ∧ buffer_name d = Some name ∧
    extends st st' ∧
    env_workspace st' = Some (strip in0) ∧
    workspace_exists st (strip in0) = true ∧
    truthy (find_result st' (strip in0) garage_names) = true ∧
    truthy (find_result st' (strip in0) structures_names) = true ∧
    fc_exists st' (garage_prj (output_gdb in0 out0)) = true ∧
    fc_exists st' (structures_prj (output_gdb in0 out0)) = true ∧
    fc_exists st' (output_gdb in0 out0, name) = true ∧
    fc_exists st' (intersect_fc (output_gdb in0 out0)) = true.
Proof.
  unfold main_body. set (out := output_gdb in0 out0). set (w := strip in0).
  intros H.
  apply bind_Ok_inv in H as (d & s & H0 & H).
  unfold lift in H0. injection H0 as Hd Hs0. subst s.
  apply bind_Ok_inv in H as (e & s & H0 & H).
  unfold Exists_workspace in H0. injection H0 as He0 Hs0. subst s e.
  destruct (workspace_exists st w) eqn:Hw; simpl in H; [|discriminate].
  apply bind_Ok_inv in H as (u0 & s0 & H0 & H).
  unfold set_env_workspace in H0. injection H0 as _ Hs0. subst s0.
  apply bind_Ok_inv in H as (gp & s1 & Hg & H).
  apply bind_Ok_inv in H as (sp & s2 & Hs & H).
  apply bind_Ok_inv in H as (u3 & s3 & Hc & H).
  apply bind_Ok_inv in H as (u4 & s4 & Hp1 & H).
  apply bind_Ok_inv in H as (u5 & s5 & Hp2 & H).
  apply bind_Ok_inv in H as (bfc & s6 & Hb & H).
  apply bind_Ok_inv in H as (u7 & s7 & Hi & H).
  cbv [mret M_ret] in H. injection H as Hr Hs7. subst st' r. split; [reflexivity|].
  destruct (stable_main_garages w (strip csv0) _ _ _ Hg) as [E1 W1].
  destruct (stable_main_structures w _ _ _ Hs) as [E2 W2].
  destruct (stable_create_output_gdb w out _ _ _ Hc) as [E3 W3].
  destruct (stable_project_feature w _ _ _ _ _ _ Hp1) as [E4 W4].
  destruct (stable_project_feature w _ _ _ _ _ _ Hp2) as [E5 W5].
  destruct (stable_main_buffer w _ _ _ _ _ _ Hb) as [E6 W6].
  destruct (stable_main_intersect w _ _ _ _ _ _ Hi) as [E7 W7].
  apply main_garages_Ok in Hg.
  apply main_structures_Ok in Hs as [_ Hs].
  apply project_feature_Ok in Hp1 as [_ Hp1].
  apply project_feature_Ok in Hp2 as [_ Hp2].
  apply main_buffer_Ok in Hb as (name & Hn & -> & Hb).
  apply main_intersect_Ok in Hi as [-> Hi].
  assert (extends s7 s7) as X7 by apply extends_refl.
  pose proof (extends_trans _ _ _ E7 X7) as X6.
  pose proof (extends_trans _ _ _ E6 X6) as X5.
  pose proof (extends_trans _ _ _ E5 X5) as X4.
  pose proof (extends_trans _ _ _ E4 X4) as X3.
  pose proof (extends_trans _ _ _ E3 X3) as X2.
  pose proof (extends_trans _ _ _ E2 X2) as X1.
  pose proof (extends_trans _ _ _ E1 X1) as X0.
  pose proof (extends_trans _ _ _ (extends_with_env w st) X0) as X.
  exists d, name. split; [done|]. split; [done|]. split; [exact X|].
  split; [apply W7, W6, W5, W4, W3, W2, W1; reflexivity|]. split; [done|].
  split; [exact (find_result_extends _ _ _ _ garage_names_nonempty X1 Hg)|].
  split.
  { apply (find_result_extends s1 _ _ _ structures_names_nonempty X1 Hs). }
  split; [exact (fc_exists_extends _ _ _ X4 Hp1)|].
  split; [exact (fc_exists_extends _ _ _ X5 Hp2)|].
  split; [exact (fc_exists_extends _ _ _ X6 Hb) | exact Hi].
Qed.

Lemma main_garages_found in_gdb csv st :
  env_workspace st = Some in_gdb →
  truthy (find_result st in_gdb garage_names) = true →
  ∃ g, main_garages in_gdb csv st = (Ok (in_gdb, g), st).
Proof.
  intros He Ht. unfold main_garages.
  erewrite bind_run by apply find_candidate_run. rewrite Ht.
  rewrite with_env_id by done. eauto.
Qed.

Lemma main_structures_found in_gdb st :
  env_workspace st = Some in_gdb →
  truthy (find_result st in_gdb structures_names) = true →
  ∃ g, main_structures in_gdb st = (Ok (in_gdb, g), st).
Proof.
  intros He Ht. unfold main_structures.
  erewrite bind_run by apply find_candidate_run. rewrite Ht. simpl.
  rewrite with_env_id by done. eauto.
Qed.

Lemma create_output_gdb_exists out st :
  workspace_exists st out = true → create_output_gdb out st = (Ok out, st).
Proof.
  intros H. unfold create_output_gdb, mbind, M_bind, Exists_workspace. by rewrite H.
Qed.

(** On the state a completed run left, a run with the same locations and a
    distance of the same integer part finds everything in place: it runs no
    tool and changes nothing. *)
Lemma main_body_again in0 csv0 out0 a a' force force' d d' st st' :
  main_body in0 csv0 out0 a force st = (Ok 0, st') →
  buffer_distance a = Ok d → buffer_distance a' = Ok d' → int d = int d' →
  main_body in0 csv0 out0 a' force' st' = (Ok 0, st').
Proof.
  intros H Hd Hd' Hint.
  apply main_body_Ok in H
    as (_ & d0 & name & Hd0 & Hn & E & He & Hw & Hg & Hs & P1 & P2 & P3 & P4).
  assert (d0 = d) as -> by congruence.
  assert (buffer_name d' = Some name) as Hn'.
  { unfold buffer_name in *. by rewrite <- Hint. }
  unfold main_body. rewrite Hd'.
  erewrite bind_run by reflexivity.
  erewrite bind_run by reflexivity.
  rewrite (workspace_exists_extends _ _ _ E Hw). simpl.
  erewrite bind_run by reflexivity. rewrite (with_env_id _ _ He).
  destruct (main_garages_found (strip in0) (strip csv0) st' He Hg) as [g Hg'].
  erewrite bind_run by exact Hg'.
  destruct (main_structures_found (strip in0) st' He Hs) as [s Hs'].
  erewrite bind_run by exact Hs'.
  erewrite bind_run
    by (apply create_output_gdb_exists; exact (fc_exists_workspace _ _ P1)).
  erewrite bind_run by (by apply project_feature_exists).
  erewrite bind_run by (by apply project_feature_exists).
  erewrite bind_run by (by eapply main_buffer_exists).
  erewrite bind_run by (by apply main_intersect_exists).
  reflexivity.
Qed.


Lemma bind_raise {A B} (m : Mc A) (f : A → Mc B) st e s :
  m st = (Raise e, s) → (m ≫= f) st = (Raise e, s).
Proof. unfold mbind, M_bind. by intros ->. Qed.

Lemma main_zero_inv in0 csv0 out0 a force st st' :
  main in0 csv0 out0 a force st = (0, st') →
  main_body in0 csv0 out0 a force st = (Ok 0, st').
Proof.
  unfold main. destruct (main_body in0 csv0 out0 a force st) as [[r|e] s]; intros H.
  - by inversion H.
  - inversion H.
Qed.

Lemma main_of_body in0 csv0 out0 a force st r st' :
  main_body in0 csv0 out0 a force st = (Ok r, st') →
  main in0 csv0 out0 a force st = (r, st').
Proof. unfold main. by intros ->. Qed.

(** *** Ambiguous coordinate fields *)

Lemma main_garages_ambiguous w csv fs rows st :
  truthy (find_result st w garage_names) = false →
  csv ≠ "" → files st !! csv = Some (CsvTable fs rows) →
  detect_xy fs = Ambiguous →
  main_garages w csv st = (Raise unable_to_detect, with_env w st).
Proof.
  intros Hg Hne Hcsv Hamb. unfold main_garages.
  erewrite bind_run by apply find_candidate_run. rewrite Hg.
  erewrite bind_run by reflexivity.
  assert (negb (String.eqb csv "") && os_path_exists (with_env w st) csv = true) as ->.
  { apply andb_true_iff. split.
    - apply negb_true_iff. by apply String.eqb_neq.
    - unfold os_path_exists. apply orb_true_iff. left. apply bool_decide_eq_true.
      simpl. rewrite Hcsv. eauto. }
  assert (_detect_xy_fields csv (with_env w st) = (Ok Ambiguous, with_env w st)) as Hdet.
  { unfold _detect_xy_fields, mbind, M_bind, ListFields. simpl. rewrite Hcsv.
    by rewrite Hamb. }
  erewrite bind_run by exact Hdet. reflexivity.
Qed.

(** C7 (as amended): detection signals Ambiguous exactly when fewer than
    two fields are numeric and one of the two name classes has no match;
    when the garage layer is missing and the CSV's fields are ambiguous,
    [main] aborts: it returns 1 after reporting the error, having run no
    tool and written no layer. *)
Theorem ambiguous_fields_abort
    (in0 csv0 out0 force : string) (a : PyArg) (d : PyFloat)
    (fs fields : list Field) (rows : list Row) (st : St)
    (Hd : buffer_distance a = Ok d)
    (Hin : workspace_exists st (strip in0) = true)
    (Hg : truthy (find_result st (strip in0) garage_names) = false)
    (Hne : strip csv0 ≠ "")
    (Hcsv : files st !! strip csv0 = Some (CsvTable fs rows))
    (Hamb : detect_xy fs = Ambiguous) :
  (detect_xy fields = Ambiguous ↔
   (length (List.filter is_numeric fields) < 2)%nat ∧
   (x_candidates fields = [] ∨ y_candidates fields = [])) ∧
  main in0 csv0 out0 a force st
    = (1, AddError unable_to_detect (with_env (strip in0) st)).
Proof.
  split; [apply FieldDetectorFacts.detect_xy_ambiguous_iff|].
  unfold main, main_body. rewrite Hd.
  erewrite bind_run by reflexivity.
  erewrite bind_run by reflexivity. rewrite Hin. simpl.
  erewrite bind_run by reflexivity.
  erewrite bind_raise; [reflexivity|].
  erewrite main_garages_ambiguous; eauto.
Qed.

(** *** The buffer layer name *)

Lemma buffer_name_int d n :
  int d = Some n → buffer_name d = Some ("Garage_Buffer_" +:+ str n +:+ "m").
Proof. unfold buffer_name. by intros ->. Qed.

(** C10: the buffer layer is named after the integer part of the distance,
    so two distances with the same integer part (150.2 and 150.9) give the
    same name, and a run with the second distance on the state the first
    run left changes nothing: it returns 0 with the state, hence the
    earlier buffer layer and the trace of tools, as they were. *)
Theorem buffer_name_integer_part
    (in0 csv0 out0 force : string) (a1 a2 : PyArg) (d1 d2 : PyFloat) (st st1 : St)
    (H1 : buffer_distance a1 = Ok d1)
    (H2 : buffer_distance a2 = Ok d2)
    (Hint : int d1 = int d2)
    (Hrun : main in0 csv0 out0 a1 force st = (0, st1)) :
  (∃ n, int d1 = Some n ∧
        buffer_name d1 = Some ("Garage_Buffer_" +:+ str n +:+ "m") ∧
        buffer_name d2 = buffer_name d1 ∧
        fc_exists st1 (output_gdb in0 out0, "Garage_Buffer_" +:+ str n +:+ "m") = true) ∧
  buffer_name (Finite (1502 # 10)) = Some "Garage_Buffer_150m" ∧
  buffer_name (Finite (1509 # 10)) = Some "Garage_Buffer_150m" ∧
  main in0 csv0 out0 a2 force st1 = (0, st1).
Proof.
  apply main_zero_inv in Hrun. split; [|split; [reflexivity|split; [reflexivity|]]].
  - pose proof Hrun as H.
    apply main_body_Ok in H as (_ & d & name & Hd & Hn & _ & _ & _ & _ & _ & _ & _ & P & _).
    assert (d = d1) as -> by congruence.
    destruct (int d1) as [n|] eqn:Hi; [|unfold buffer_name in Hn; by rewrite Hi in Hn].
    exists n. split; [done|]. rewrite (buffer_name_int _ _ Hi) in Hn |- *.
    inversion Hn; subst. split; [done|]. split; [|done].
    symmetry in Hint. by rewrite (buffer_name_int _ _ Hint).
  - apply main_of_body. by eapply main_body_again.
Qed.

(** The layers of the destination after a completed run. *)
Lemma main_completed_layers in0 csv0 out0 a force st st' :
  main in0 csv0 out0 a force st = (0, st') →
  ∃ d name, buffer_distance a = Ok d ∧ buffer_name d = Some name ∧
    fc_exists st' (garage_prj (output_gdb in0 out0)) = true ∧
    fc_exists st' (structures_prj (output_gdb in0 out0)) = true ∧
    fc_exists st' (output_gdb in0 out0, name) = true ∧
    fc_exists st' (intersect_fc (output_gdb in0 out0)) = true ∧
    extends st st'.
Proof.
  intros H. apply main_zero_inv, main_body_Ok in H
    as (_ & d & name & Hd & Hn & E & _ & _ & _ & _ & P1 & P2 & P3 & P4).
  exists d, name. auto 10.
Qed.

End Facts.

(** *** The statements at work on the sample campus *)
Import Sample.

Lemma materialize_idempotent_witness :
  project_feature (L := library) (campus_gdb, "GARAGEPOINTS")
    (output_gdb_path, "GaragePoints_PRJ") 3857 projected
    = (Ok (output_gdb_path, "GaragePoints_PRJ"), projected) ∧
  main_buffer (L := library) output_gdb_path (output_gdb_path, "GaragePoints_PRJ")
    (Finite 150) buffered
    = (Ok (output_gdb_path, "Garage_Buffer_150m"), buffered) ∧
  main_intersect (L := library) output_gdb_path (output_gdb_path, "Garage_Buffer_150m")
    (output_gdb_path, "Structures_PRJ") intersected
    = (Ok (output_gdb_path, "Garage_Structures_Intersect"), intersected) ∧
  calls intersected
    = [Project_call (campus_gdb, "GARAGEPOINTS") (output_gdb_path, "GaragePoints_PRJ") 3857;
       Project_call (campus_gdb, "Structures") (output_gdb_path, "Structures_PRJ") 3857;
       Buffer_call (output_gdb_path, "GaragePoints_PRJ")
         (output_gdb_path, "Garage_Buffer_150m") (Finite 150);
       Intersect_call [(output_gdb_path, "Garage_Buffer_150m");
                       (output_gdb_path, "Structures_PRJ")]
         (output_gdb_path, "Garage_Structures_Intersect")].
Proof.
  assert (project_feature (L := library) (campus_gdb, "GARAGEPOINTS")
            (output_gdb_path, "GaragePoints_PRJ") 3857 campus_with_output
          = (Ok (output_gdb_path, "GaragePoints_PRJ"), projected)) as Hp
    by (vm_compute; reflexivity).
  assert (main_buffer (L := library) output_gdb_path (output_gdb_path, "GaragePoints_PRJ")
            (Finite 150) projected_both
          = (Ok (output_gdb_path, "Garage_Buffer_150m"), buffered)) as Hb
    by (vm_compute; reflexivity).
  assert (main_intersect (L := library) output_gdb_path
            (output_gdb_path, "Garage_Buffer_150m") (output_gdb_path, "Structures_PRJ")
            buffered
          = (Ok (output_gdb_path, "Garage_Structures_Intersect"), intersected)) as Hi
    by (vm_compute; reflexivity).
  destruct (materialize_idempotent _ _ _ _ _ _ _ _ _ _ _ _ _ _ _ _ _ _ Hp Hb Hi)
    as ((P & _) & (B & _) & (I & _)).
  split; [exact P|]. split; [exact B|]. split; [exact I|].
  vm_compute. reflexivity.
Defined.

Lemma find_candidate_featureclass_resolves_witness :
  (_find_candidate_featureclass campus_gdb garage_names campus).1
    = Ok (Some "GARAGEPOINTS") ∧
  (_find_candidate_featureclass campus_gdb garage_names campus).1
    = (_find_candidate_featureclass campus_gdb garage_names
         (with_env "/elsewhere" (with_call (CreateFileGDB_call "/data" "x") campus))).1.
Proof.
  destruct (find_candidate_featureclass_resolves campus_gdb garage_names campus
              (with_env "/elsewhere" (with_call (CreateFileGDB_call "/data" "x") campus))
              eq_refl) as [H1 H2].
  split; [|exact H2]. rewrite H1. vm_compute. reflexivity.
Defined.

Lemma ambiguous_fields_abort_witness :
  main (L := library) campus_gdb "/data/names.csv" "" ArgNone "false" campus_csv
    = (1, AddError unable_to_detect (with_env campus_gdb campus_csv)).
Proof.
  refine (proj2 (ambiguous_fields_abort (L := library) campus_gdb "/data/names.csv" ""
                   "false" ArgNone (Finite 150)
                   [mkField "id" "String"; mkField "name" "String"] [] [1; 2] campus_csv
                   eq_refl _ _ _ _ eq_refl)).
  - vm_compute; reflexivity.
  - vm_compute; reflexivity.
  - vm_compute. discriminate.
  - vm_compute; reflexivity.
Defined.

(** C7 as stated fails: with the fields [lon] and [note], both texts, a
    field name does match a pattern ([lon] is X-like) and yet detection
    signals Ambiguous, because the Y-like class is empty. *)
Lemma ambiguous_with_a_name_match :
  let fields := [mkField "lon" "String"; mkField "note" "String"] in
  ¬ (detect_xy fields = Ambiguous ↔
     (length (List.filter is_numeric fields) < 2)%nat ∧
     Forall (λ f, x_like (name f) = false ∧ y_like (name f) = false) fields).
Proof.
  intros fields [H _]. specialize (H eq_refl) as [_ H].
  inversion H as [|f l [Hx _] _]. vm_compute in Hx. discriminate.
Qed.

(** The CSV fallback at work: the garage layer is missing, the CSV has
    longitude and latitude columns, and the resolution adds the point layer
    GaragePoints to the source workspace. *)
Lemma resolver_frame_witness :
  ∃ st', main_garages (L := library) campus_gdb "/data/garages.csv" campus_csv
         = (Ok (campus_gdb, "GaragePoints"), st') ∧
         workspace_content st' campus_gdb
         = [("Structures", FeatureClass (mkLayer (Some 4326) [2; 3]));
            ("GaragePoints", FeatureClass (mkLayer (Some 4326) [1; 2]))] ∧
         calls st' = [XYTableToPoint_call "/data/garages.csv" (campus_gdb, "GaragePoints")
                        "Longitude" "Latitude"].
Proof.
  destruct (resolver_frame (L := library) campus_gdb "/data/garages.csv" campus_csv
              [mkField "Longitude" "Double"; mkField "Latitude" "Double";
               mkField "capacity" "Integer"] [1; 2] "Longitude" "Latitude"
              (mkLayer (Some 4326) [1; 2]))
    as [(st' & Hrun & _ & Hg & _ & Hc) _].
  - vm_compute; reflexivity.
  - vm_compute; reflexivity.
  - discriminate.
  - vm_compute; reflexivity.
  - vm_compute; reflexivity.
  - discriminate.
  - discriminate.
  - reflexivity.
  - exists st'. split; [exact Hrun|]. split; [|exact Hc].
    unfold workspace_content. rewrite Hg. vm_compute. reflexivity.
Defined.

Lemma buffer_name_integer_part_witness :
  main (L := library) campus_gdb "" "" (ArgText "150.9") "false" after_run = (0, after_run).
Proof.
  refine (proj2 (proj2 (proj2
    (buffer_name_integer_part (L := library) campus_gdb "" "" "false"
       (ArgText "150.2") (ArgText "150.9") (Finite (1502 # 10)) (Finite (1509 # 10))
       campus after_run eq_refl eq_refl eq_refl _)))).
  vm_compute; reflexivity.
Defined.

End ArcPyFacts.

(** ** The GeoPandas script *)
Module GeoPandasFacts.
Import PyNum GeoPandasTool.

Section Facts.
Context {Geom : Type} {L : Library Geom}.

Abbreviation GDF := (GeoDataFrame Geom).
Implicit Types (g s b : GDF) (c : CRS).

Lemma to_crs_Ok g target g' :
  to_crs g target = Ok g' → is_Some (crs g) ∧ is_Some target ∧ crs g' = target.
Proof.
  unfold to_crs. destruct (crs g) as [c|] eqn:Hc; [|done].
  destruct target as [t|]; [|done].
  destruct (decide (c = t)) as [->|Hne]; intros [= <-]; eauto.
Qed.

Lemma to_crs_run g c t :
  crs g = Some c → ∃ g', to_crs g (Some t) = Ok g' ∧ crs g' = Some t.
Proof.
  intros Hc. unfold to_crs. rewrite Hc.
  destruct (decide (c = t)) as [->|Hne]; eauto.
Qed.

Lemma utm_crs_metric zone north : linear_metric (utm_crs zone north) = true.
Proof. reflexivity. Qed.

Lemma ensure_projected_empty g :
  empty g = true → ensure_projected_for_buffer (Some g) = Ok (Some g).
Proof. unfold ensure_projected_for_buffer. by intros ->. Qed.

Lemma ensure_projected_not_geographic g c :
  crs g = Some c → is_geographic c = false →
  ensure_projected_for_buffer (Some g) = Ok (Some g).
Proof.
  intros Hc Hg. unfold ensure_projected_for_buffer. rewrite Hc, Hg.
  by destruct (empty g).
Qed.

Lemma ensure_projected_geographic g c :
  empty g = false → crs g = Some c → is_geographic c = true →
  ∃ g' c', ensure_projected_for_buffer (Some g) = Ok (Some g') ∧
           crs g' = Some c' ∧ linear_metric c' = true ∧
           (c' = web_mercator ∨ ∃ zone north, c' = utm_crs zone north).
Proof.
  intros He Hc Hg. unfold ensure_projected_for_buffer. rewrite He, Hc, Hg.
  destruct (estimate_utm_zone (geometry g)) as [[zone north]|].
  - destruct (to_crs_run g c (utm_crs zone north) Hc) as (g' & -> & Hg').
    exists g', (utm_crs zone north). eauto 10.
  - destruct (to_crs_run g c web_mercator Hc) as (g' & -> & Hg').
    exists g', web_mercator. eauto 10.
Qed.

(** C2 (as amended): a frame with rows whose CRS is geographic comes back
    in a projected CRS in metres (the estimated UTM zone, or Web Mercator
    when the estimate fails), and one whose CRS is projected in metres
    comes back as it is, so in both cases the result has linear, metric
    units; a frame without rows comes back as it is, whatever its CRS. *)
Theorem ensure_projected_linear_units (g g0 : GDF) (c : CRS)
    (Hrows : empty g = false)
    (Hcrs : crs g = Some c)
    (Hkind : is_geographic c = true ∨ linear_metric c = true)
    (Hempty : empty g0 = true) :
  (∃ g' c', ensure_projected_for_buffer (Some g) = Ok (Some g') ∧
            crs g' = Some c' ∧ linear_metric c' = true) ∧
  (is_geographic c = false → ensure_projected_for_buffer (Some g) = Ok (Some g)) ∧
  ensure_projected_for_buffer (Some g0) = Ok (Some g0).
Proof.
  split; [|split].
  - destruct (is_geographic c) eqn:Hg.
    + destruct (ensure_projected_geographic g c Hrows Hcrs Hg) as (g' & c' & H & H1 & H2 & _).
      eauto.
    + destruct Hkind as [?|Hm]; [done|]. exists g, c.
      by rewrite (ensure_projected_not_geographic g c).
  - by apply ensure_projected_not_geographic.
  - by apply ensure_projected_empty.
Qed.

(** *** The operands of the overlay *)

Lemma to_crs_keeps_empty g target g' : to_crs g target = Ok g' → empty g' = empty g.
Proof.
  unfold to_crs. destruct (crs g) as [c|]; [|done].
  destruct target as [t|]; [|done].
  destruct (decide (c = t)); intros [= <-]; [done|].
  unfold empty. simpl. by destruct (geometry g).
Qed.

Lemma to_crs_naive g target : crs g = None → ∃ e, to_crs g target = Raise e.
Proof. intros H. unfold to_crs. rewrite H. eauto. Qed.

Lemma align_same g c : crs g = Some c → align (Some g) c = Ok (Some g).
Proof. intros H. unfold align. by destruct (decide (crs g ≠ Some c)). Qed.

(** Aligning a frame that has a CRS is [to_crs], which returns the frame
    itself when it is in the target CRS already. *)
Lemma align_to_crs s c t :
  crs s = Some c →
  ∃ s1, to_crs s (Some t) = Ok s1 ∧ align (Some s) t = Ok (Some s1) ∧
        crs s1 = Some t ∧ empty s1 = empty s.
Proof.
  intros Hc. destruct (to_crs_run s c t Hc) as (s1 & Ht & Hc1).
  exists s1. split; [done|]. split; [|split; [done | by apply to_crs_keeps_empty in Ht]].
  unfold align. destruct (decide (crs s ≠ Some t)) as [Hne|He]; [by rewrite Ht|].
  assert (c = t) as -> by (apply dec_stable in He; congruence).
  unfold to_crs in Ht. rewrite Hc in Ht.
  destruct (decide (t = t)); [|done]. by injection Ht as <-.
Qed.

Lemma ensure_projected_with_crs g c :
  crs g = Some c →
  ∃ gp, ensure_projected_for_buffer (Some g) = Ok (Some gp) ∧
        is_Some (crs gp) ∧ empty gp = empty g.
Proof.
  intros Hc. unfold ensure_projected_for_buffer.
  destruct (empty g) eqn:He; [exists g; by rewrite Hc, He|].
  rewrite Hc. destruct (is_geographic c); [|exists g; by rewrite Hc, He].
  set (utm := match estimate_utm_zone (geometry g) with
              | Some (zone, north) => utm_crs zone north
              | None => web_mercator
              end).
  destruct (to_crs_run g c utm Hc) as (gp & Ht & Hgp). rewrite Ht.
  exists gp. split; [done|]. split; [by rewrite Hgp|].
  apply to_crs_keeps_empty in Ht. congruence.
Qed.

(** The analysis on two layers that carry a CRS, in closed form. *)
Lemma analysis_with_crs g s cg cs :
  crs g = Some cg → crs s = Some cs →
  ∃ s1 gp sp,
    to_crs s (Some cg) = Ok s1 ∧
    ensure_projected_for_buffer (Some g) = Ok (Some gp) ∧
    to_crs s1 (crs gp) = Ok sp ∧
    crs sp = crs gp ∧ is_Some (crs gp) ∧
    let b := mkGDF (crs gp) (map (λ x, buffer x 150) (geometry gp)) in
    analysis (Some g) (Some s) =
      if negb (empty g) then
        if negb (empty s) then
          match overlay_intersection sp b with
          | Some i => Ok (mkLocals (Some gp) (Some sp) (Some b) i)
          | None => Raise "overlay failed"
          end
        else Ok (mkLocals (Some gp) (Some sp) (Some b) (mkGDF (crs b) []))
      else Ok (mkLocals (Some gp) (Some sp) None (mkGDF None [])).
Proof.
  intros Hg Hs.
  destruct (align_to_crs s cs cg Hs) as (s1 & Ht1 & Ha1 & Hc1 & He1).
  destruct (ensure_projected_with_crs g cg Hg) as (gp & Hgp & [cp Hcp] & Hep).
  destruct (to_crs_run s1 cg cp Hc1) as (sp & Ht2 & Hc2).
  exists s1, gp, sp. rewrite Hcp. split; [done|]. split; [done|]. split; [done|].
  split; [done|]. split; [done|]. cbv zeta.
  pose proof (to_crs_keeps_empty _ _ _ Ht2) as He2.
  unfold analysis.
  assert (match Some g with
          | Some (mkGDF (Some c) _) => Some c
          | _ => match Some s with
                 | Some (mkGDF (Some c) _) => Some c
                 | _ => None
                 end
          end = Some cg) as ->.
  { destruct g as [c0 gg]. simpl in Hg. by rewrite Hg. }
  rewrite (align_same g cg Hg), Ha1, Hgp, Hcp, Ht2, Hep, He2, He1.
  destruct (empty g), (empty s); simpl; try reflexivity.
Qed.

(** C3 (as amended): a CRS mismatch between a garage layer and a structures
    layer that each carry a CRS is not an error and is corrected before the
    overlay.  The structures layer is reprojected ([to_crs]) to the CRS of
    the garages and then to the CRS of the projected garage layer; when both
    layers have rows, the overlay is called on the reprojected structures
    and the buffered projected garages, which have the same CRS, and the
    analysis raises only if that call does; otherwise the analysis completes
    without calling the overlay.  A structures layer without CRS is an
    error: its reprojection raises. *)
Theorem overlay_operands_share_crs (g s : GDF) (cg cs : CRS)
    (Hg : crs g = Some cg) (Hs : crs s = Some cs) :
  (∃ s1 gp sp,
     to_crs s (Some cg) = Ok s1 ∧
     ensure_projected_for_buffer (Some g) = Ok (Some gp) ∧
     to_crs s1 (crs gp) = Ok sp ∧
     let b := mkGDF (crs gp) (map (λ x, buffer x 150) (geometry gp)) in
     crs sp = crs b ∧ is_Some (crs sp) ∧
     analysis (Some g) (Some s) =
       (if negb (empty g) then
          if negb (empty s) then
            match overlay_intersection sp b with
            | Some i => Ok (mkLocals (Some gp) (Some sp) (Some b) i)
            | None => Raise "overlay failed"
            end
          else Ok (mkLocals (Some gp) (Some sp) (Some b) (mkGDF (crs b) []))
        else Ok (mkLocals (Some gp) (Some sp) None (mkGDF None []))) ∧
     ∀ l s' b', analysis (Some g) (Some s) = Ok l →
                overlay_operands l = Some (s', b') →
                s' = sp ∧ b' = b ∧ crs s' = crs b') ∧
  ∀ s0 : GDF, crs s0 = None → ∃ e, analysis (Some g) (Some s0) = Raise e.
Proof.
  split.
  - destruct (analysis_with_crs g s cg cs Hg Hs)
      as (s1 & gp & sp & Ht1 & Hgp & Ht2 & Hc & Hsome & Ha).
    exists s1, gp, sp. split; [done|]. split; [done|]. split; [done|]. cbv zeta.
    split; [done|]. split; [by rewrite Hc|]. split; [exact Ha|].
    intros l s' b' Hl Ho. cbv zeta in Ha. rewrite Ha in Hl.
    destruct (negb (empty g)) eqn:Eg; [|by injection Hl as <-].
    destruct (negb (empty s)) eqn:Es.
    + destruct (overlay_intersection sp _) as [i|]; [|done]. injection Hl as <-.
      unfold overlay_operands in Ho. simpl in Ho.
      destruct (negb (empty sp)); [|done]. injection Ho as <- <-. done.
    + injection Hl as <-. unfold overlay_operands in Ho. simpl in Ho.
      pose proof (to_crs_keeps_empty _ _ _ Ht1) as E1. pose proof (to_crs_keeps_empty _ _ _ Ht2) as E2.
      rewrite E2, E1, Es in Ho. done.
  - intros s0 Hn. unfold analysis.
    assert (match Some g with
            | Some (mkGDF (Some c) _) => Some c
            | _ => match Some s0 with
                   | Some (mkGDF (Some c) _) => Some c
                   | _ => None
                   end
            end = Some cg) as ->.
    { destruct g as [c0 gg]. simpl in Hg. by rewrite Hg. }
    rewrite (align_same g cg Hg). unfold align.
    destruct (decide (crs s0 ≠ Some cg)) as [_|He]; [|apply dec_stable in He; congruence].
    destruct (to_crs_naive s0 (Some cg) Hn) as [e ->]. eauto.
Qed.

(** *** The layers written *)

Lemma to_file_other name name' g (gpkg gpkg' : gmap string GDF) :
  name ≠ name' → to_file name g gpkg = Some gpkg' → gpkg' !! name' = gpkg !! name'.
Proof.
  unfold to_file. intros Hne. destruct (to_file_succeeds name g); [|done].
  intros [= <-]. by rewrite lookup_insert_ne.
Qed.

Lemma to_file_if_present_other name name' o (gpkg gpkg' : gmap string GDF) :
  name ≠ name' → to_file_if_present name o gpkg = Some gpkg' →
  gpkg' !! name' = gpkg !! name'.
Proof.
  destruct o as [g|]; simpl; [apply to_file_other|]. by intros _ [= <-].
Qed.

Lemma save_outputs_empty_overlay (l : Locals) (gpkg : gmap string GDF) :
  empty (intersect_gdf l) = true →
  save_outputs l gpkg !! "Garage_Structures_Intersect"
    = gpkg !! "Garage_Structures_Intersect".
Proof.
  intros He. unfold save_outputs. rewrite He. simpl.
  destruct (to_file_if_present "GaragePoints_PRJ" _ gpkg) as [g1|] eqn:H1; [|done].
  apply (to_file_if_present_other _ "Garage_Structures_Intersect") in H1; [|discriminate].
  rewrite <- H1.
  destruct (to_file_if_present "Structures_PRJ" _ g1) as [g2|] eqn:H2; [|done].
  apply (to_file_if_present_other _ "Garage_Structures_Intersect") in H2; [|discriminate].
  rewrite <- H2.
  destruct (to_file_if_present "Garage_Buffer_150m" _ g2) as [g3|] eqn:H3; [|done].
  by apply (to_file_if_present_other _ "Garage_Structures_Intersect") in H3.
Qed.

End Facts.

(** *** The statements at work on the sample layers *)
Import Sample.

Lemma ensure_projected_linear_units_witness :
  ∃ g' c', ensure_projected_for_buffer (L := library) (Some garages) = Ok (Some g') ∧
           crs g' = Some c' ∧ linear_metric c' = true.
Proof.
  exact (proj1 (ensure_projected_linear_units (L := library) garages no_garages
                  (Geographic 4326) eq_refl eq_refl (or_introl eq_refl) eq_refl)).
Defined.

(** C2 as stated fails on a frame without rows: the garage layer in WGS 84
    with no feature comes back in WGS 84, a geographic CRS. *)
Lemma empty_frame_keeps_geographic_crs :
  ¬ (∃ g' c', ensure_projected_for_buffer (L := library) (Some no_garages) = Ok (Some g') ∧
              crs g' = Some c' ∧ linear_metric c' = true).
Proof.
  intros (g' & c' & H & Hc & Hm). vm_compute in H. inversion H; subst g'.
  simpl in Hc. inversion Hc; subst c'. discriminate.
Qed.

Lemma overlay_operands_share_crs_witness :
  crs garages ≠ crs structures ∧
  ∃ l s b, analysis (L := library) (Some garages) (Some structures) = Ok l ∧
           overlay_operands l = Some (s, b) ∧ crs s = crs b.
Proof.
  split; [discriminate|].
  destruct (overlay_operands_share_crs (L := library) garages structures
              (Geographic 4326) (Projected 2277 Foot) eq_refl eq_refl)
    as [(s1 & gp & sp & _ & _ & _ & _ & _ & Ha & Hop) _].
  eexists _, _, _.
  assert (∀ l s b (H1 : analysis (L := library) (Some garages) (Some structures) = Ok l)
            (H2 : overlay_operands l = Some (s, b)),
            analysis (L := library) (Some garages) (Some structures) = Ok l ∧
            overlay_operands l = Some (s, b) ∧ crs s = crs b) as H.
  { intros l s b H1 H2. split; [exact H1|]. split; [exact H2|].
    exact (proj2 (proj2 (Hop l s b H1 H2))). }
  apply H; [vm_compute; reflexivity | reflexivity].
Defined.

(** C3 as stated fails: garages in WGS 84 and structures in a State Plane
    CRS in feet do not share a CRS, yet the analysis completes and the
    overlay is called on the structures reprojected to the CRS of the
    projected garages, Web Mercator. *)
Lemma crs_mismatch_is_reprojected :
  crs garages ≠ crs structures ∧
  ∃ l s b, analysis (L := library) (Some garages) (Some structures) = Ok l ∧
           overlay_operands l = Some (s, b) ∧
           crs s = Some web_mercator ∧ crs s ≠ crs structures ∧
           crs b = Some web_mercator.
Proof.
  split; [discriminate|].
  eexists _, _, _. split; [vm_compute; reflexivity|].
  split; [reflexivity|]. split; [reflexivity|]. split; [discriminate | reflexivity].
Qed.

End GeoPandasFacts.

(** ** The layers a completed run leaves *)
Module PipelineFacts.
Import PyNum.

(** C6 (as amended): when the ArcPy [main] returns 0, the destination
    geodatabase holds the reprojected point layer, the reprojected polygon
    layer, the buffer layer named after the integer part of the distance and
    the overlay layer, whatever the overlay contains, and everything that
    was in the workspaces before is still there (at least four layers, not
    four exactly); the GeoPandas script does not write the overlay layer
    when the overlay has no feature. *)
Theorem completed_run_layers
    {Feature Row : Type} {L : ArcPyTool.Library Feature Row}
    {Geom : Type} {LG : GeoPandasTool.Library Geom}
    (in0 csv0 out0 force : string) (a : PyArg) (st st' : ArcPyTool.State Feature Row)
    (l : GeoPandasTool.Locals) (gpkg : gmap string (GeoPandasTool.GeoDataFrame Geom))
    (Hrun : ArcPyTool.main in0 csv0 out0 a force st = (0, st'))
    (Hempty : GeoPandasTool.empty (GeoPandasTool.intersect_gdf l) = true) :
  (∃ d name,
     ArcPyTool.buffer_distance a = Ok d ∧ ArcPyTool.buffer_name d = Some name ∧
     let out := ArcPyTool.output_gdb in0 out0 in
     ArcPyTool.fc_exists st' (out, "GaragePoints_PRJ") = true ∧
     ArcPyTool.fc_exists st' (out, "Structures_PRJ") = true ∧
     ArcPyTool.fc_exists st' (out, name) = true ∧
     ArcPyTool.fc_exists st' (out, "Garage_Structures_Intersect") = true ∧
     ArcPyTool.extends st st') ∧
  GeoPandasTool.save_outputs l gpkg !! "Garage_Structures_Intersect"
    = gpkg !! "Garage_Structures_Intersect".
Proof.
  split.
  - exact (ArcPyFacts.main_completed_layers _ _ _ _ _ _ _ Hrun).
  - by apply GeoPandasFacts.save_outputs_empty_overlay.
Qed.

Lemma completed_run_layers_witness :
  let out := ArcPyTool.Sample.output_gdb_path in
  let st' := ArcPyTool.Sample.after_run in
  ArcPyTool.fc_exists st' (out, "GaragePoints_PRJ") = true ∧
  ArcPyTool.fc_exists st' (out, "Structures_PRJ") = true ∧
  ArcPyTool.fc_exists st' (out, "Garage_Buffer_150m") = true ∧
  ArcPyTool.fc_exists st' (out, "Garage_Structures_Intersect") = true.
Proof.
  assert (ArcPyTool.main (L := ArcPyTool.Sample.library) ArcPyTool.Sample.campus_gdb "" ""
            (ArgText "150.2") "false" ArcPyTool.Sample.campus
          = (0, ArcPyTool.Sample.after_run)) as Hrun by (vm_compute; reflexivity).
  destruct (completed_run_layers (LG := GeoPandasTool.Sample.library) _ _ _ _ _ _ _
              (GeoPandasTool.mkLocals None None None GeoPandasTool.Sample.no_garages)
              ∅ Hrun eq_refl) as [(d & name & Hd & Hn & P1 & P2 & P3 & P4 & _) _].
  vm_compute in Hd. inversion Hd; subst d. vm_compute in Hn. inversion Hn; subst name.
  repeat split; assumption.
Defined.

(** C6 as stated fails both ways: a second ArcPy run with another distance
    completes on a destination that then holds five layers, and the
    GeoPandas script, given garages and structures that do not meet (an
    overlay without features), completes with three layers, the overlay
    layer not among them. *)
Lemma not_always_four_layers :
  (ArcPyTool.main (L := ArcPyTool.Sample.library) ArcPyTool.Sample.campus_gdb "" ""
     (ArgText "200") "false" ArcPyTool.Sample.after_run
   = (0, ArcPyTool.Sample.after_second_run) ∧
   length (ArcPyTool.workspace_content ArcPyTool.Sample.after_second_run
             ArcPyTool.Sample.output_gdb_path) = 5%nat) ∧
  ∃ m, GeoPandasTool.main (L := GeoPandasTool.Sample.library)
         (Some GeoPandasTool.Sample.garages) (Some GeoPandasTool.Sample.far_structures) ∅
       = Ok m ∧
       m !! "Garage_Structures_Intersect" = None ∧ size m = 3%nat.
Proof.
  split; [split; vm_compute; reflexivity|].
  eexists. split; [vm_compute; reflexivity|]. split; vm_compute; reflexivity.
Qed.

End PipelineFacts.

(** ** More on the ArcPy script tool *)
Module ArcPyMore.
Import PyStr FieldDetector PyNum ArcPyTool ArcPyFrame ArcPyFacts.

Section Facts.
Context {Feature Row : Type} {L : Library Feature Row}.

Abbreviation St := (State Feature Row).
Abbreviation Mc := (@M Feature Row).
Abbreviation stable w m := (@ArcPyTool.stable Feature Row w _ m).
Abbreviation reads m := (@ArcPyTool.reads Feature Row _ m).
Abbreviation tool_run p c m := (@ArcPyTool.tool_run Feature Row p c m).
Abbreviation confined ws m := (@ArcPyFrame.confined Feature Row ws _ m).
Abbreviation runs_only I P m := (@ArcPyFrame.runs_only Feature Row I P _ m).
Abbreviation kept_by_extends I := (@ArcPyFrame.kept_by_extends Feature Row I).
Implicit Types (st : St) (p : FcPath) (w : string).

(** *** [main] only adds *)

Lemma stable_main_body w0 csv0 out0 a force :
  stable (strip w0) (main_body w0 csv0 out0 a force).
Proof.
  unfold main_body.
  apply stable_bind; [apply stable_reads, reads_lift | intros d].
  apply stable_bind; [apply stable_reads, reads_Exists_workspace | intros e].
  destruct (negb e); [apply stable_reads, reads_raise|].
  apply stable_bind; [apply stable_set_env_workspace | intros _].
  apply stable_bind; [apply stable_main_garages | intros gp].
  apply stable_bind; [apply stable_main_structures | intros sp].
  apply stable_bind; [apply stable_create_output_gdb | intros _].
  apply stable_bind; [apply stable_project_feature | intros _].
  apply stable_bind; [apply stable_project_feature | intros _].
  apply stable_bind; [apply stable_main_buffer | intros bfc].
  apply stable_bind; [apply stable_main_intersect | intros _].
  apply stable_reads, reads_ret.
Qed.

Lemma read_fc_content p st l :
  read_fc p st = (Ok l, st) ↔
  ∃ i, list_find (λ d : string * Dataset Feature, bool_decide (d.1 = p.2))
         (workspace_content st p.1) = Some (i, (p.2, FeatureClass l)).
Proof.
  unfold read_fc, workspace_content. destruct (gdbs st !! p.1) as [c|]; simpl.
  - destruct (list_find _ c) as [[i [n [l'|]]]|] eqn:E; split;
      try (intros H; inversion H; fail); try (intros [j H]; inversion H; fail).
    + intros H. inversion H; subst. exists i.
      apply list_find_Some in E as (_ & Hn & _). apply bool_decide_unpack in Hn.
      simpl in Hn. by subst.
    + intros [j H]. by inversion H.
  - split; [intros H; inversion H | intros [j H]; inversion H].
Qed.

(** A layer that can be read stays the same layer when datasets are added. *)
Lemma read_fc_extends p st st' l :
  extends st st' → read_fc p st = (Ok l, st) → read_fc p st' = (Ok l, st').
Proof.
  intros E H. apply read_fc_content in H as [i H]. apply read_fc_content. exists i.
  unfold workspace_content in *. destruct (gdbs st !! p.1) as [c|] eqn:Hc; [|done].
  destruct (ext_gdbs _ _ E _ _ Hc) as [c' ->]. simpl in *.
  by apply list_find_app_l.
Qed.

Lemma read_fc_gdbs p st st' l :
  gdbs st = gdbs st' → read_fc p st = (Ok l, st) → read_fc p st' = (Ok l, st').
Proof.
  intros Hg H. apply read_fc_content in H as [i H]. apply read_fc_content. exists i.
  unfold workspace_content in *. by rewrite <- Hg.
Qed.

(** X1: whatever [main] returns, a feature class that could be read before
    the run reads the same afterwards and a dataset that existed still
    exists; the files on disk are as they were. *)
Theorem main_keeps_existing_layers
    (w0 csv0 out0 force : string) (a : PyArg) (st : St) (p q : FcPath) (l : Layer Feature)
    (Hread : read_fc p st = (Ok l, st))
    (Hexists : fc_exists st q = true) :
  let st' := (main w0 csv0 out0 a force st).2 in
  read_fc p st' = (Ok l, st') ∧ fc_exists st' q = true ∧ files st' = files st.
Proof.
  unfold main. destruct (main_body w0 csv0 out0 a force st) as [[r|e] s] eqn:H;
    destruct (stable_main_body _ _ _ _ _ _ _ _ H) as [E _]; simpl.
  - split; [by eapply read_fc_extends|]. split; [by eapply fc_exists_extends|].
    apply (ext_files _ _ E).
  - split.
    + apply (read_fc_gdbs p s); [reflexivity | by eapply read_fc_extends].
    + split; [|apply (ext_files _ _ E)].
      change (fc_exists (AddError e s) q) with (fc_exists s q).
      by eapply fc_exists_extends.
Qed.


(** *** Where [main] writes *)

Lemma confined_reads ws {A} (m : Mc A) : reads m → confined ws m.
Proof. intros Hm st r st' w c H. by apply Hm in H as ->. Qed.

Lemma confined_bind ws {A B} (m : Mc A) (f : A → Mc B) :
  confined ws m → (∀ a, confined ws (f a)) → confined ws (m ≫= f).
Proof.
  intros Hm Hf st r st' w c H Hw Hn.
  apply bind_inv in H as [(a & s & H1 & H2) | (e & H1 & _)].
  - eapply Hf; [exact H2 | | exact Hn]. eapply Hm; eauto.
  - eapply Hm; eauto.
Qed.

Lemma confined_set_env_workspace ws w : confined ws (set_env_workspace w).
Proof. intros st r st' w' c H. by inversion H. Qed.

Lemma confined_tool ws p c m : tool_run p c m → p.1 ∈ ws → confined ws m.
Proof.
  intros Hm Hp st r st' w c' H Hw Hn.
  apply Hm in H as [(l & _ & _ & ->) | (_ & ->)]; [|done].
  simpl. rewrite lookup_insert_ne; [done|]. intros <-. contradiction.
Qed.

Lemma confined_CreateFileGDB ws folder name : confined ws (CreateFileGDB folder name).
Proof.
  intros st r st' w c H Hw _. unfold CreateFileGDB in H.
  apply bind_inv in H as [(u & s & H1 & H2) | (e & H1 & _)]; [|discriminate].
  inversion H1; subst s; clear H1.
  apply bind_inv in H2 as [(s0 & s & H1 & H2) | (e & H1 & _)]; [|discriminate].
  inversion H1; subst s0 s; clear H1.
  destruct (CreateFileGDB_location folder name) as [p|]; [|by inversion H2].
  destruct (workspace_exists _ p) eqn:Hp; inversion H2; subst; [done|].
  simpl. rewrite lookup_insert_ne; [done|]. intros ->.
  apply bool_decide_eq_false in Hp. apply Hp. simpl. eauto.
Qed.

Lemma confined_find_candidate ws w names :
  confined ws (_find_candidate_featureclass w names).
Proof.
  intros st r st' w' c. rewrite find_candidate_run. intros H; by inversion H.
Qed.

Lemma elem_of_pair_l (x y : string) : x ∈ [x; y].
Proof. apply elem_of_cons. by left. Qed.

Lemma elem_of_pair_r (x y : string) : y ∈ [x; y].
Proof. apply elem_of_cons. right. apply elem_of_cons. by left. Qed.

Lemma confined_main_body w0 csv0 out0 a force :
  confined [strip w0; output_gdb w0 out0] (main_body w0 csv0 out0 a force).
Proof.
  unfold main_body. set (ws := [strip w0; output_gdb w0 out0]).
  assert (strip w0 ∈ ws) as Hin by apply elem_of_pair_l.
  assert (output_gdb w0 out0 ∈ ws) as Hout by apply elem_of_pair_r.
  apply confined_bind; [apply confined_reads, reads_lift | intros d].
  apply confined_bind; [apply confined_reads, reads_Exists_workspace | intros e].
  destruct (negb e); [apply confined_reads, reads_raise|].
  apply confined_bind; [apply confined_set_env_workspace | intros _].
  apply confined_bind; [|intros gp].
  { unfold main_garages.
    apply confined_bind; [apply confined_find_candidate | intros g].
    destruct (truthy g); [apply confined_reads, reads_ret|].
    apply confined_bind; [apply confined_reads, reads_get | intros s].
    destruct (_ && _); [|apply confined_reads, reads_raise].
    apply confined_bind.
    { apply confined_reads, reads_bind; [apply reads_ListFields | intros; apply reads_ret]. }
    intros xy. destruct (_ || _); [apply confined_reads, reads_raise|].
    apply confined_bind; [|intros _; apply confined_reads, reads_ret].
    eapply confined_tool; [apply XYTableToPoint_run | exact Hin]. }
  apply confined_bind; [|intros sp].
  { unfold main_structures.
    apply confined_bind; [apply confined_find_candidate | intros g].
    destruct (negb _); [apply confined_reads, reads_raise | apply confined_reads, reads_ret]. }
  apply confined_bind; [|intros _].
  { unfold create_output_gdb.
    apply confined_bind; [apply confined_reads, reads_Exists_workspace | intros e'].
    destruct e'; [apply confined_reads, reads_ret|].
    apply confined_bind; [apply confined_CreateFileGDB | intros _].
    apply confined_reads, reads_ret. }
  assert (∀ i o, o.1 ∈ ws → confined ws (project_feature i o 3857)) as Hproj.
  { intros i o Ho. unfold project_feature.
    apply confined_bind; [apply confined_reads, reads_Exists | intros e'].
    destruct e'; [apply confined_reads, reads_ret|].
    apply confined_bind; [|intros _; apply confined_reads, reads_ret].
    eapply confined_tool; [apply Project_run | exact Ho]. }
  apply confined_bind; [by apply Hproj | intros _].
  apply confined_bind; [by apply Hproj | intros _].
  apply confined_bind; [|intros bfc].
  { unfold main_buffer. destruct (buffer_name d); [|apply confined_reads, reads_raise].
    apply confined_bind; [apply confined_reads, reads_Exists | intros e'].
    apply confined_bind; [|intros _; apply confined_reads, reads_ret].
    destruct e'; simpl; [apply confined_reads, reads_ret|].
    eapply confined_tool; [apply Buffer_run | exact Hout]. }
  apply confined_bind; [|intros _; apply confined_reads, reads_ret].
  unfold main_intersect.
  apply confined_bind; [apply confined_reads, reads_Exists | intros e'].
  apply confined_bind; [|intros _; apply confined_reads, reads_ret].
  destruct e'; simpl; [apply confined_reads, reads_ret|].
  eapply confined_tool; [apply Intersect_run | exact Hout].
Qed.

(** X2: [main] writes to the source and to the destination geodatabase
    only: any other workspace that exists holds exactly the same datasets
    after the run, whatever [main] returns. *)
Theorem main_writes_source_and_destination_only
    (w0 csv0 out0 force : string) (a : PyArg) (st : St)
    (w : string) (c : list (string * Dataset Feature))
    (Hw : gdbs st !! w = Some c)
    (Hsource : w ≠ strip w0)
    (Hdest : w ≠ output_gdb w0 out0) :
  gdbs (main w0 csv0 out0 a force st).2 !! w = Some c.
Proof.
  assert (w ∉ [strip w0; output_gdb w0 out0]) as Hn.
  { intros [->|[->|H]%elem_of_cons]%elem_of_cons; [done | done | by apply elem_of_nil in H]. }
  unfold main. destruct (main_body w0 csv0 out0 a force st) as [[r|e] s] eqn:H; simpl;
    exact (confined_main_body _ _ _ _ _ _ _ _ _ _ H Hw Hn).
Qed.

(** *** Runs that fail before anything is written *)

(** X3: when no garage layer is found and the CSV argument is empty or
    names nothing on disk, [main] returns 1 with the error text of the
    script; no tool has run and no workspace has changed. *)
Theorem main_no_garages_no_csv
    (w0 csv0 out0 force : string) (a : PyArg) (d : PyFloat) (st : St)
    (Hd : buffer_distance a = Ok d)
    (Hin : workspace_exists st (strip w0) = true)
    (Hg : truthy (find_result st (strip w0) garage_names) = false)
    (Hcsv : strip csv0 = "" ∨ os_path_exists st (strip csv0) = false) :
  main w0 csv0 out0 a force st
    = (1, AddError no_garages_no_csv (with_env (strip w0) st)).
Proof.
  unfold main, main_body. rewrite Hd.
  erewrite bind_run by reflexivity.
  erewrite bind_run by reflexivity. rewrite Hin. simpl.
  erewrite bind_run by reflexivity.
  erewrite bind_raise; [reflexivity|].
  unfold main_garages. erewrite bind_run by apply find_candidate_run.
  rewrite (find_result_gdbs (with_env (strip w0) st) st) by reflexivity. rewrite Hg.
  erewrite bind_run by reflexivity.
  assert (negb (String.eqb (strip csv0) "")
          && os_path_exists (with_env (strip w0) (with_env (strip w0) st)) (strip csv0)
          = false) as ->; [|reflexivity].
  destruct Hcsv as [-> | Hc]; [reflexivity|].
  apply andb_false_iff. by right.
Qed.

(** *** A run without Structures *)

Lemma workspace_content_put_fc w g l st :
  workspace_content (put_fc (w, g) l st) w
  = workspace_content st w ++ [(g, FeatureClass l)].
Proof. unfold workspace_content, put_fc. simpl. by rewrite lookup_insert_eq. Qed.

Lemma has_name_single n g (d : Dataset Feature) : n ≠ g → has_name n [(g, d)] = false.
Proof.
  intros Hn. apply bool_decide_eq_false. simpl.
  intros [->|H]%elem_of_cons; [done | by apply elem_of_nil in H].
Qed.

Lemma inner_loop_snoc n fcs g :
  String.eqb (lower g) (lower n) = false → inner_loop n (fcs ++ [g]) = inner_loop n fcs.
Proof.
  intros Hg. induction fcs as [|f fcs IH]; simpl; [by rewrite Hg|].
  by destruct (String.eqb (lower f) (lower n)).
Qed.

(** A new layer whose name no candidate equals, even up to case, does not
    change what the resolver finds. *)
Lemma find_result_put_other w g l st names :
  (∀ n, n ∈ names → n ≠ g ∧ String.eqb (lower g) (lower n) = false) →
  find_result (put_fc (w, g) l st) w names = find_result st w names.
Proof.
  intros Hn. unfold find_result. rewrite workspace_content_put_fc.
  assert (exact_loop (put_fc (w, g) l st) w names = exact_loop st w names) as ->.
  { induction names as [|n names IH]; simpl; [reflexivity|].
    rewrite IH by (intros m Hm; apply Hn, elem_of_cons; by right).
    assert (fc_exists (put_fc (w, g) l st) (w, n) = fc_exists st (w, n)) as ->;
      [|reflexivity].
    unfold fc_exists. cbn [fst snd].
    change (gdbs (put_fc (w, g) l st) !! w) with
      (<[w := workspace_content st w ++ [(g, FeatureClass l)]]> (gdbs st) !! w).
    rewrite lookup_insert_eq, has_name_app, has_name_single
      by (apply Hn, elem_of_cons; by left).
    rewrite orb_false_r. unfold workspace_content.
    destruct (gdbs st !! w); [reflexivity | apply has_name_nil]. }
  destruct (exact_loop st w names); [reflexivity|].
  rewrite feature_class_names_app. simpl.
  change (feature_class_names [(g, FeatureClass l)]) with [g].
  induction names as [|n names IH]; simpl; [reflexivity|].
  rewrite inner_loop_snoc by (apply Hn, elem_of_cons; by left).
  rewrite IH by (intros m Hm; apply Hn, elem_of_cons; by right). reflexivity.
Qed.

Lemma structures_not_garage_points n :
  n ∈ structures_names →
  n ≠ "GaragePoints" ∧ String.eqb (lower "GaragePoints") (lower n) = false.
Proof.
  unfold structures_names. intros H.
  repeat (apply elem_of_cons in H as [->|H]; [split; [discriminate | reflexivity]|]).
  by apply elem_of_nil in H.
Qed.

Lemma main_structures_missing w st :
  truthy (find_result st w structures_names) = false →
  main_structures w st
  = (Raise "Could not find Structures feature class in input GDB", with_env w st).
Proof.
  intros Hs. unfold main_structures. erewrite bind_run by apply find_candidate_run.
  by rewrite Hs.
Qed.

(** X4: when no Structures layer is found, [main] returns 1 and the
    destination is never prepared: the only tool that may have run is
    [XYTableToPoint] (the CSV fallback for the garages), and every
    workspace other than the source geodatabase is as it was, none being
    created. *)
Theorem main_no_structures
    (w0 csv0 out0 force : string) (a : PyArg) (d : PyFloat) (st : St)
    (Hd : buffer_distance a = Ok d)
    (Hin : workspace_exists st (strip w0) = true)
    (Hs : truthy (find_result st (strip w0) structures_names) = false) :
  (main w0 csv0 out0 a force st).1 = 1 ∧
  (∃ cs, calls (main w0 csv0 out0 a force st).2 = calls st ++ cs ∧
         Forall is_XYTableToPoint_call cs) ∧
  (∀ w, w ≠ strip w0 → gdbs (main w0 csv0 out0 a force st).2 !! w = gdbs st !! w).
Proof.
  unfold main, main_body. rewrite Hd.
  erewrite bind_run by reflexivity.
  erewrite bind_run by reflexivity. rewrite Hin. simpl.
  erewrite bind_run by reflexivity.
  set (w := strip w0) in *. set (csv := strip csv0).
  destruct (main_garages w csv (with_env w st)) as [r1 s1] eqn:Hg.
  pose proof Hg as Hg'.
  apply main_garages_inv in Hg'
    as [-> | (_ & x & y & [((e & ->) & ->) | (l & -> & _ & ->)])].
  - destruct r1 as [gp|e].
    + erewrite bind_run by exact Hg.
      erewrite bind_raise by (apply main_structures_missing;
        by rewrite (find_result_gdbs _ st) by reflexivity).
      simpl. split; [reflexivity|]. split; [|done].
      exists []. by rewrite app_nil_r.
    + erewrite bind_raise by exact Hg. simpl. split; [reflexivity|]. split; [|done].
      exists []. by rewrite app_nil_r.
  - erewrite bind_raise by exact Hg. simpl. split; [reflexivity|]. split; [|done].
    eexists. split; [reflexivity|]. by repeat constructor.
  - erewrite bind_run by exact Hg.
    erewrite bind_raise.
    2:{ apply main_structures_missing.
        rewrite find_result_put_other by apply structures_not_garage_points.
        by rewrite (find_result_gdbs _ st) by reflexivity. }
    simpl. split; [reflexivity|]. split.
    + eexists. split; [reflexivity|]. by repeat constructor.
    + intros w' Hw'. by rewrite lookup_insert_ne.
Qed.

(** *** Preparing the destination *)

(** X5: [create_output_gdb] leaves an existing geodatabase alone; when the
    path names none, it runs [CreateFileGDB] on the folder and on the name
    without its [.gdb] extension, which adds one empty geodatabase where the
    tool puts it and changes no other workspace, and returns the path it
    was given: the destination exists afterwards exactly when the tool put
    the geodatabase at that path. *)
Theorem create_output_gdb_creates (p q : string) (st s0 : St)
    (Hmissing : workspace_exists st p = false)
    (Hloc : CreateFileGDB_location (os_path_dirname p) (name_no_ext p) = Some q)
    (Hfree : workspace_exists st q = false)
    (Hthere : workspace_exists s0 p = true) :
  let call := CreateFileGDB_call (os_path_dirname p) (name_no_ext p) in
  let st' := with_gdbs (<[q := []]> (gdbs st)) (with_call call st) in
  create_output_gdb p st = (Ok p, st') ∧
  (workspace_exists st' p = true ↔ q = p) ∧
  create_output_gdb p s0 = (Ok p, s0).
Proof.
  simpl. split; [|split].
  - unfold create_output_gdb. erewrite bind_run by reflexivity. rewrite Hmissing.
    fold (name_no_ext p). unfold CreateFileGDB.
    erewrite bind_run.
    2:{ erewrite bind_run by reflexivity. erewrite bind_run by reflexivity.
        rewrite Hloc.
        change (workspace_exists (with_call _ st) q) with (workspace_exists st q).
        rewrite Hfree. reflexivity. }
    reflexivity.
  - unfold workspace_exists in *. simpl. rewrite bool_decide_eq_true.
    apply bool_decide_eq_false in Hmissing. split.
    + intros Hp. destruct (decide (q = p)) as [|Hne]; [done|].
      rewrite lookup_insert_ne in Hp by done. contradiction.
    + intros ->. rewrite lookup_insert_eq. eauto.
  - by apply create_output_gdb_exists.
Qed.

(** *** An overlay that is there is not computed again *)

Lemma runs_only_reads I P {A} (m : Mc A) : reads m → runs_only I P m.
Proof.
  intros Hm st r st' HI H. apply Hm in H as ->. split; [done|].
  exists []. by rewrite app_nil_r.
Qed.

Lemma runs_only_bind I P {A B} (m : Mc A) (f : A → Mc B) :
  runs_only I P m → (∀ a, runs_only I P (f a)) → runs_only I P (m ≫= f).
Proof.
  intros Hm Hf st r st' HI H.
  apply bind_inv in H as [(a & s & H1 & H2) | (e & H1 & _)].
  - destruct (Hm _ _ _ HI H1) as (HI1 & cs1 & C1 & P1).
    destruct (Hf _ _ _ _ HI1 H2) as (HI2 & cs2 & C2 & P2).
    split; [done|]. exists (cs1 ++ cs2). split.
    + by rewrite C2, C1, app_assoc.
    + by apply Forall_app.
  - exact (Hm _ _ _ HI H1).
Qed.

Lemma runs_only_set_env_workspace I P w :
  kept_by_extends I → runs_only I P (set_env_workspace w).
Proof.
  intros HI st r st' Hst H. inversion H; subst.
  split; [exact (HI _ _ (extends_with_env w st) Hst)|].
  exists []. by rewrite app_nil_r.
Qed.

Lemma runs_only_tool I P p c m :
  kept_by_extends I → tool_run p c m → P c → runs_only I P m.
Proof.
  intros HI Hm Hc st r st' Hst H.
  apply Hm in H as [(l & _ & _ & ->) | (_ & ->)].
  - split.
    + apply (HI (with_call c st)); [apply extends_put_fc|].
      exact (HI _ _ (extends_with_call c st) Hst).
    + exists [c]. split; [reflexivity | by constructor].
  - split; [exact (HI _ _ (extends_with_call c st) Hst)|].
    exists [c]. split; [reflexivity | by constructor].
Qed.

Lemma runs_only_find_candidate I P w names :
  kept_by_extends I → runs_only I P (_find_candidate_featureclass w names).
Proof.
  intros HI st r st' Hst. rewrite find_candidate_run. intros H; inversion H; subst.
  split; [exact (HI _ _ (extends_with_env w st) Hst)|].
  exists []. by rewrite app_nil_r.
Qed.

Lemma CreateFileGDB_calls folder name st r st' :
  CreateFileGDB folder name st = (r, st') →
  calls st' = calls st ++ [CreateFileGDB_call folder name].
Proof.
  unfold CreateFileGDB. intros H.
  apply bind_inv in H as [(u & s & H1 & H2) | (e & H1 & _)]; [|discriminate].
  inversion H1; subst s; clear H1.
  apply bind_inv in H2 as [(s0 & s & H1 & H2) | (e & H1 & _)]; [|discriminate].
  inversion H1; subst s0 s; clear H1.
  destruct (CreateFileGDB_location folder name) as [p|]; [|by inversion H2].
  destruct (workspace_exists _ p); by inversion H2.
Qed.

Lemma runs_only_CreateFileGDB I P folder name :
  kept_by_extends I → P (CreateFileGDB_call folder name) →
  runs_only I P (CreateFileGDB folder name).
Proof.
  intros HI Hc st r st' Hst H.
  destruct (stable_CreateFileGDB "" folder name _ _ _ H) as [E _].
  split; [exact (HI _ _ E Hst)|].
  rewrite (CreateFileGDB_calls _ _ _ _ _ H). exists [CreateFileGDB_call folder name].
  split; [reflexivity | by constructor].
Qed.

Lemma read_fc_exists p st l : read_fc p st = (Ok l, st) → fc_exists st p = true.
Proof.
  intros H. apply read_fc_content in H as [i H].
  apply list_find_Some in H as (Hi & _). unfold fc_exists, workspace_content in *.
  destruct (gdbs st !! p.1) as [c|]; [|done]. simpl in Hi.
  apply bool_decide_eq_true. apply list_elem_of_fmap.
  exists (p.2, FeatureClass l). split; [done|]. by eapply list_elem_of_lookup_2.
Qed.

(** X6: when the overlay layer is in the destination at the start, [main]
    never runs [Intersect], whatever the buffer distance and whatever it
    returns, and the overlay layer reads the same afterwards (so it is not
    brought up to date with a new buffer). *)
Theorem main_keeps_existing_overlay
    (w0 csv0 out0 force : string) (a : PyArg) (st : St) (l : Layer Feature)
    (Hread : read_fc (output_gdb w0 out0, "Garage_Structures_Intersect") st = (Ok l, st)) :
  let st' := (main w0 csv0 out0 a force st).2 in
  read_fc (output_gdb w0 out0, "Garage_Structures_Intersect") st' = (Ok l, st') ∧
  ∃ cs, calls st' = calls st ++ cs ∧ Forall (λ c, ¬ is_Intersect_call c) cs.
Proof.
  set (out := output_gdb w0 out0) in *.
  set (I := λ s : St, fc_exists s (out, "Garage_Structures_Intersect") = true).
  set (P := λ c, ¬ is_Intersect_call c).
  assert (kept_by_extends I) as HI.
  { intros s s' E Hs. by eapply fc_exists_extends. }
  assert (runs_only I P (main_body w0 csv0 out0 a force)) as Hrun.
  { unfold main_body. fold out.
    apply runs_only_bind; [apply runs_only_reads, reads_lift | intros d].
    apply runs_only_bind; [apply runs_only_reads, reads_Exists_workspace | intros e].
    destruct (negb e); [apply runs_only_reads, reads_raise|].
    apply runs_only_bind; [by apply runs_only_set_env_workspace | intros _].
    apply runs_only_bind; [|intros gp].
    { unfold main_garages.
      apply runs_only_bind; [by apply runs_only_find_candidate | intros g].
      destruct (truthy g); [apply runs_only_reads, reads_ret|].
      apply runs_only_bind; [apply runs_only_reads, reads_get | intros s].
      destruct (_ && _); [|apply runs_only_reads, reads_raise].
      apply runs_only_bind.
      { apply runs_only_reads, reads_bind; [apply reads_ListFields | intros; apply reads_ret]. }
      intros xy. destruct (_ || _); [apply runs_only_reads, reads_raise|].
      apply runs_only_bind; [|intros _; apply runs_only_reads, reads_ret].
      eapply runs_only_tool; [done | apply XYTableToPoint_run | by intros []]. }
    apply runs_only_bind; [|intros sp].
    { unfold main_structures.
      apply runs_only_bind; [by apply runs_only_find_candidate | intros g].
      destruct (negb _); [apply runs_only_reads, reads_raise | apply runs_only_reads, reads_ret]. }
    apply runs_only_bind; [|intros _].
    { unfold create_output_gdb.
      apply runs_only_bind; [apply runs_only_reads, reads_Exists_workspace | intros e'].
      destruct e'; [apply runs_only_reads, reads_ret|].
      apply runs_only_bind; [|intros _; apply runs_only_reads, reads_ret].
      apply runs_only_CreateFileGDB; [done | by intros []]. }
    assert (∀ i o, runs_only I P (project_feature i o 3857)) as Hproj.
    { intros i o. unfold project_feature.
      apply runs_only_bind; [apply runs_only_reads, reads_Exists | intros e'].
      destruct e'; [apply runs_only_reads, reads_ret|].
      apply runs_only_bind; [|intros _; apply runs_only_reads, reads_ret].
      eapply runs_only_tool; [done | apply Project_run | by intros []]. }
    apply runs_only_bind; [apply Hproj | intros _].
    apply runs_only_bind; [apply Hproj | intros _].
    apply runs_only_bind; [|intros bfc].
    { unfold main_buffer. destruct (buffer_name d); [|apply runs_only_reads, reads_raise].
      apply runs_only_bind; [apply runs_only_reads, reads_Exists | intros e'].
      apply runs_only_bind; [|intros _; apply runs_only_reads, reads_ret].
      destruct e'; simpl; [apply runs_only_reads, reads_ret|].
      eapply runs_only_tool; [done | apply Buffer_run | by intros []]. }
    apply runs_only_bind; [|intros _; apply runs_only_reads, reads_ret].
    intros s r s' Hs H. rewrite main_intersect_exists in H by exact Hs.
    inversion H; subst. split; [done|]. exists []. by rewrite app_nil_r. }
  pose proof (read_fc_exists _ _ _ Hread) as Hex.
  unfold main. destruct (main_body w0 csv0 out0 a force st) as [[r|e] s] eqn:H;
    destruct (stable_main_body _ _ _ _ _ _ _ _ H) as [E _];
    destruct (Hrun _ _ _ Hex H) as (_ & cs & C & HP); simpl.
  - split; [by eapply read_fc_extends | eauto].
  - split; [|eauto].
    apply (read_fc_gdbs _ s); [reflexivity | by eapply read_fc_extends].
Qed.

(** *** Names *)

Lemma append_char_inj (c : ascii) (s1 s2 : string) :
  s1 +:+ String c "" = s2 +:+ String c "" → s1 = s2.
Proof.
  revert s2. induction s1 as [|a s1 IH]; intros [|b s2]; simpl; intros H.
  - reflexivity.
  - injection H as _ H. by destruct s2.
  - injection H as _ H. by destruct s1.
  - injection H as -> H. by rewrite (IH _ H).
Qed.

(** X7: distances with different integer parts are given different buffer
    layer names: two distances with the same name have the same integer
    part. *)
Theorem buffer_name_separates (d1 d2 : PyFloat) (name : string)
    (H1 : buffer_name d1 = Some name)
    (H2 : buffer_name d2 = Some name) :
  int d1 = int d2.
Proof.
  unfold buffer_name in *.
  destruct (int d1) as [n1|], (int d2) as [n2|]; try discriminate.
  rewrite <- H2 in H1. apply (inj Some) in H1.
  apply (inj (String.append "Garage_Buffer_")) in H1.
  apply append_char_inj in H1. unfold str in H1.
  by apply (inj pretty) in H1 as ->.
Qed.

(** *** What the resolver and the detector return *)

Lemma inner_loop_Some n fcs f :
  inner_loop n fcs = Some f → f ∈ fcs ∧ lower f = lower n.
Proof.
  induction fcs as [|g fcs IH]; simpl; [done|].
  destruct (String.eqb (lower g) (lower n)) eqn:E.
  - intros [= ->]. apply String.eqb_eq in E. split; [apply elem_of_cons; by left | done].
  - intros H. destruct (IH H). split; [apply elem_of_cons; by right | done].
Qed.

Lemma inner_loop_None n fcs :
  inner_loop n fcs = None ↔ ∀ f, f ∈ fcs → lower f ≠ lower n.
Proof.
  induction fcs as [|g fcs IH]; simpl.
  - split; [intros _ f H; by apply elem_of_nil in H | done].
  - destruct (String.eqb (lower g) (lower n)) eqn:E.
    + apply String.eqb_eq in E. split; [done|]. intros H.
      exfalso. apply (H g); [apply elem_of_cons; by left | done].
    + apply String.eqb_neq in E. rewrite IH. split.
      * intros H f [->|Hf]%elem_of_cons; auto.
      * intros H f Hf. apply H, elem_of_cons. by right.
Qed.

Lemma outer_loop_Some names fcs f :
  outer_loop names fcs = Some f → f ∈ fcs ∧ ∃ n, n ∈ names ∧ lower f = lower n.
Proof.
  induction names as [|n names IH]; simpl; [done|].
  destruct (inner_loop n fcs) as [g|] eqn:E.
  - intros [= ->]. apply inner_loop_Some in E as [Hf Hl].
    split; [done|]. exists n. split; [apply elem_of_cons; by left | done].
  - intros H. destruct (IH H) as (Hf & m & Hm & Hl).
    split; [done|]. exists m. split; [apply elem_of_cons; by right | done].
Qed.

Lemma outer_loop_None names fcs :
  outer_loop names fcs = None ↔ ∀ n f, n ∈ names → f ∈ fcs → lower f ≠ lower n.
Proof.
  induction names as [|n names IH]; simpl.
  - split; [intros _ n f H; by apply elem_of_nil in H | done].
  - destruct (inner_loop n fcs) as [g|] eqn:E.
    + split; [done|]. intros H. apply inner_loop_Some in E as [Hg Hl].
      exfalso. apply (H n g); [apply elem_of_cons; by left | done | done].
    + rewrite IH. pose proof (proj1 (inner_loop_None n fcs) E) as Hn. split.
      * intros H m f [->|Hm]%elem_of_cons Hf; [by apply Hn | by apply H].
      * intros H m f Hm Hf. apply H; [apply elem_of_cons; by right | done].
Qed.

Lemma feature_class_has_name f (c : list (string * Dataset Feature)) :
  f ∈ feature_class_names c → has_name f c = true.
Proof.
  unfold feature_class_names, has_name. intros Hf. apply bool_decide_eq_true.
  apply list_elem_of_fmap in Hf as (d & -> & Hd). apply list_elem_of_fmap.
  exists d. split; [done|]. apply list_elem_of_In in Hd. apply filter_In in Hd as [Hd _].
  by apply list_elem_of_In.
Qed.

(** X8: a name [_find_candidate_featureclass] returns is the name of a
    dataset that exists in the workspace, and it equals one of the
    candidates up to case. *)
Theorem find_candidate_returns_existing
    (workspace : string) (names : list string) (st : St) (f : string)
    (Hfound : (_find_candidate_featureclass workspace names st).1 = Ok (Some f)) :
  fc_exists st (workspace, f) = true ∧ ∃ n, n ∈ names ∧ lower f = lower n.
Proof.
  rewrite find_candidate_run in Hfound. simpl in Hfound. injection Hfound as Hf.
  unfold find_result in Hf. destruct (exact_loop st workspace names) as [n|] eqn:E.
  - injection Hf as ->. apply exact_loop_Some in E as [Hn He]. eauto.
  - apply outer_loop_Some in Hf as [Hf Hn]. split; [|done].
    unfold fc_exists, workspace_content in *. simpl.
    destruct (gdbs st !! workspace) as [c|]; simpl in Hf.
    + by apply feature_class_has_name.
    + by apply elem_of_nil in Hf.
Qed.

(** X9: [_find_candidate_featureclass] returns [None] exactly when no
    candidate exists under its exact name and no feature class of the
    workspace equals a candidate up to case. *)
Theorem find_candidate_none_iff (workspace : string) (names : list string) (st : St) :
  (_find_candidate_featureclass workspace names st).1 = Ok None ↔
  (∀ n, n ∈ names → fc_exists st (workspace, n) = false) ∧
  (∀ n f, n ∈ names → f ∈ feature_class_names (workspace_content st workspace) →
          lower f ≠ lower n).
Proof.
  rewrite find_candidate_run. simpl. unfold find_result. split.
  - intros H. injection H as H.
    destruct (exact_loop st workspace names) as [n|] eqn:E; [discriminate|].
    split; [intros n Hn; by eapply exact_loop_None | by apply outer_loop_None].
  - intros [H1 H2].
    destruct (exact_loop st workspace names) as [n|] eqn:E.
    + apply exact_loop_Some in E as [Hn He]. rewrite (H1 n Hn) in He. discriminate.
    + f_equal. by apply outer_loop_None.
Qed.

Lemma filter_head_elem {A} (p : A → bool) (l : list A) (a : A) (r : list A) :
  List.filter p l = a :: r → a ∈ l ∧ p a = true.
Proof.
  intros H. assert (In a (List.filter p l)) as Hin by (rewrite H; by left).
  apply filter_In in Hin as [Hin Hp]. split; [by apply list_elem_of_In | done].
Qed.

(** X10: what [_detect_xy_fields] returns for a schema is all or nothing:
    either [(None, None)] or two names of fields of the schema, and then
    either the first is X-like and the second Y-like, or both are names of
    numeric fields. *)
Theorem detect_xy_all_or_nothing (fields : list Field) (x y : option string)
    (Hdetect : detect_xy fields = (x, y)) :
  (x = None ∧ y = None) ∨
  ∃ a b, x = Some a ∧ y = Some b ∧
         a ∈ map name fields ∧ b ∈ map name fields ∧
         ((x_like a = true ∧ y_like b = true) ∨
          (a ∈ num_fields fields ∧ b ∈ num_fields fields)).
Proof.
  unfold detect_xy in Hdetect.
  assert (∀ a b r, num_fields fields = a :: b :: r →
            a ∈ map name fields ∧ b ∈ map name fields ∧
            a ∈ num_fields fields ∧ b ∈ num_fields fields) as Hnum.
  { intros a b r Hn.
    assert (∀ c, c ∈ num_fields fields → c ∈ map name fields) as Hsub.
    { intros c Hc. unfold num_fields in Hc. apply list_elem_of_In, in_map_iff in Hc
        as (f & <- & Hf). apply filter_In in Hf as [Hf _].
      apply list_elem_of_In, in_map. exact Hf. }
    assert (a ∈ num_fields fields) as Ha by (rewrite Hn; apply elem_of_cons; by left).
    assert (b ∈ num_fields fields) as Hb
      by (rewrite Hn; apply elem_of_cons; right; apply elem_of_cons; by left).
    auto. }
  assert (match num_fields fields with
          | a :: b :: _ => (Some a, Some b)
          | _ => (None, None)
          end = (x, y) →
          (x = None ∧ y = None) ∨
          ∃ a b, x = Some a ∧ y = Some b ∧
                 a ∈ map name fields ∧ b ∈ map name fields ∧
                 ((x_like a = true ∧ y_like b = true) ∨
                  (a ∈ num_fields fields ∧ b ∈ num_fields fields))) as Hfall.
  { destruct (num_fields fields) as [|a [|b r]] eqn:Hn; intros [= <- <-]; auto.
    destruct (Hnum a b r eq_refl) as (? & ? & ? & ?). right. exists a, b. auto 10. }
  destruct (x_candidates fields) as [|a xs] eqn:Hx; [auto|].
  destruct (y_candidates fields) as [|b ys] eqn:Hy; [auto|].
  injection Hdetect as <- <-. right. exists a, b.
  apply filter_head_elem in Hx as [Ha Hxa]. apply filter_head_elem in Hy as [Hb Hyb].
  auto 10.
Qed.

End Facts.

(** *** The statements at work on the sample campus *)
Import Sample ArcPySamples.

Lemma main_keeps_existing_layers_witness :
  read_fc (campus_gdb, "Structures") after_run
    = (Ok (mkLayer (Some 4326) [2; 3]), after_run) ∧
  fc_exists after_run (campus_gdb, "GARAGEPOINTS") = true ∧
  files after_run = files campus.
Proof.
  exact (main_keeps_existing_layers (L := library) campus_gdb "" "" "false"
           (ArgText "150.2") campus (campus_gdb, "Structures")
           (campus_gdb, "GARAGEPOINTS") (mkLayer (Some 4326) [2; 3]) eq_refl eq_refl).
Defined.

Lemma main_writes_source_and_destination_only_witness :
  gdbs (main (L := library) campus_gdb "" "" (ArgText "150.2") "false"
          campus_and_archive).2 !! "/data/Archive.gdb"
  = Some [("Structures_2019", FeatureClass (mkLayer (Some 4326) [7]))].
Proof.
  refine (main_writes_source_and_destination_only (L := library) campus_gdb "" "" "false"
            (ArgText "150.2") campus_and_archive "/data/Archive.gdb" _ _ _ _).
  - vm_compute; reflexivity.
  - vm_compute; discriminate.
  - vm_compute; discriminate.
Defined.

Lemma main_no_garages_no_csv_witness :
  main (L := library) campus_gdb "/data/nothing.csv" "" ArgNone "false" campus_csv
  = (1, AddError no_garages_no_csv (with_env campus_gdb campus_csv)).
Proof.
  refine (main_no_garages_no_csv (L := library) campus_gdb "/data/nothing.csv" "" "false"
            ArgNone (Finite 150) campus_csv eq_refl _ _ (or_intror _)).
  - vm_compute; reflexivity.
  - vm_compute; reflexivity.
  - vm_compute; reflexivity.
Defined.

Lemma main_no_structures_witness :
  (main (L := library) campus_gdb "/data/garages.csv" "" ArgNone "false" garages_only).1 = 1 ∧
  calls (main (L := library) campus_gdb "/data/garages.csv" "" ArgNone "false"
           garages_only).2
  = [XYTableToPoint_call "/data/garages.csv" (campus_gdb, "GaragePoints")
       "Longitude" "Latitude"].
Proof.
  split.
  - refine (proj1 (main_no_structures (L := library) campus_gdb "/data/garages.csv" ""
                     "false" ArgNone (Finite 150) garages_only eq_refl _ _)).
    + vm_compute; reflexivity.
    + vm_compute; reflexivity.
  - vm_compute; reflexivity.
Defined.

Lemma create_output_gdb_creates_witness :
  create_output_gdb (L := library) output_gdb_path campus
  = (Ok output_gdb_path,
     with_gdbs (<[output_gdb_path := []]> (gdbs campus))
       (with_call (CreateFileGDB_call "/data" "Lab4_Output") campus)).
Proof.
  refine (proj1 (create_output_gdb_creates (L := library) output_gdb_path output_gdb_path
                   campus campus_with_output _ _ _ _)).
  - vm_compute; reflexivity.
  - vm_compute; reflexivity.
  - vm_compute; reflexivity.
  - vm_compute; reflexivity.
Defined.

Lemma main_keeps_existing_overlay_witness :
  read_fc (output_gdb_path, "Garage_Structures_Intersect") after_second_run
  = (Ok (mkLayer (Some 3857) [2]), after_second_run).
Proof.
  refine (proj1 (main_keeps_existing_overlay (L := library) campus_gdb "" "" "false"
                   (ArgText "200") after_run (mkLayer (Some 3857) [2]) _)).
  vm_compute; reflexivity.
Defined.

Lemma buffer_name_separates_witness :
  int (Finite (1502 # 10)) = int (Finite (1509 # 10)).
Proof.
  exact (buffer_name_separates (Finite (1502 # 10)) (Finite (1509 # 10))
           "Garage_Buffer_150m" eq_refl eq_refl).
Defined.

Lemma find_candidate_returns_existing_witness :
  fc_exists campus (campus_gdb, "GARAGEPOINTS") = true ∧
  ∃ n, n ∈ garage_names ∧ lower "GARAGEPOINTS" = lower n.
Proof.
  refine (find_candidate_returns_existing campus_gdb garage_names campus "GARAGEPOINTS" _).
  vm_compute; reflexivity.
Defined.

Lemma detect_xy_all_or_nothing_witness :
  (Some "Longitude" = None ∧ Some "Latitude" = None) ∨
  ∃ a b, Some "Longitude" = Some a ∧ Some "Latitude" = Some b ∧
         a ∈ ["Longitude"; "Latitude"; "capacity"] ∧
         b ∈ ["Longitude"; "Latitude"; "capacity"] ∧
         ((x_like a = true ∧ y_like b = true) ∨
          (a ∈ ["Longitude"; "Latitude"; "capacity"] ∧
           b ∈ ["Longitude"; "Latitude"; "capacity"])).
Proof.
  exact (detect_xy_all_or_nothing
           [mkField "Longitude" "Double"; mkField "Latitude" "Double";
            mkField "capacity" "Integer"] _ _ eq_refl).
Defined.

End ArcPyMore.

(** ** More on the GeoPandas script *)
Module GeoPandasMore.
Import PyNum GeoPandasTool GeoPandasStages GeoPandasFacts.

Section Facts.
Context {Geom : Type} {L : Library Geom}.

Abbreviation GDF := (GeoDataFrame Geom).
Implicit Types (g s b : GDF) (c : CRS).

Lemma analysis_stages (garage structures : option GDF) :
  analysis garage structures = staged_analysis garage structures.
Proof. reflexivity. Qed.

(** *** Reprojection keeps the rows *)

Lemma to_crs_rows g target g' :
  to_crs g target = Ok g' → length (geometry g') = length (geometry g).
Proof.
  unfold to_crs. destruct (crs g) as [c|]; [|done]. destruct target as [t|]; [|done].
  destruct (decide (c = t)); intros [= <-]; [done|]. simpl. by rewrite length_map.
Qed.

Lemma empty_rows g : empty g = true ↔ length (geometry g) = 0%nat.
Proof. unfold empty. by destruct (geometry g). Qed.

Lemma empty_same_rows g g' :
  length (geometry g') = length (geometry g) → empty g' = empty g.
Proof. unfold empty. by destruct (geometry g), (geometry g'). Qed.

Lemma ensure_projected_inv g r :
  ensure_projected_for_buffer (Some g) = Ok r →
  ∃ g', r = Some g' ∧ length (geometry g') = length (geometry g) ∧
        (g' = g ∨ (empty g = false ∧ ∃ c c', crs g = Some c ∧ is_geographic c = true ∧
                   crs g' = Some c' ∧ is_geographic c' = false)).
Proof.
  unfold ensure_projected_for_buffer. destruct (empty g) eqn:He.
  { intros [= <-]. eauto. }
  destruct (crs g) as [c|] eqn:Hc.
  - destruct (is_geographic c) eqn:Hg; [|intros [= <-]; eauto].
    set (utm := match estimate_utm_zone (geometry g) with
                | Some (zone, north) => utm_crs zone north
                | None => web_mercator
                end).
    assert (is_geographic utm = false) as Hu.
    { unfold utm. by destruct (estimate_utm_zone (geometry g)) as [[? ?]|]. }
    destruct (to_crs g (Some utm)) as [g'|e] eqn:Ht; [|done].
    intros [= <-]. exists g'. split; [done|]. split; [by eapply to_crs_rows|].
    right. split; [done|]. exists c, utm. destruct (to_crs_Ok _ _ _ Ht) as (_ & _ & Hc').
    auto.
  - simpl. unfold to_crs. rewrite Hc. discriminate.
Qed.

(** X11: [ensure_projected_for_buffer] keeps the number of rows, and
    applying it to its own result changes nothing. *)
Theorem ensure_projected_idempotent (g g' : GDF)
    (Hrun : ensure_projected_for_buffer (Some g) = Ok (Some g')) :
  length (geometry g') = length (geometry g) ∧
  ensure_projected_for_buffer (Some g') = Ok (Some g').
Proof.
  destruct (ensure_projected_inv _ _ Hrun)
    as (g1 & [= <-] & Hlen & [-> | (He & c & c' & Hc & Hg & Hc' & Hg')]).
  - done.
  - split; [done|]. unfold ensure_projected_for_buffer.
    rewrite (empty_same_rows _ _ Hlen), He, Hc', Hg'. reflexivity.
Qed.

Lemma ensure_projected_raises g :
  (∃ e, ensure_projected_for_buffer (Some g) = Raise e) ↔
  empty g = false ∧ crs g = None.
Proof.
  unfold ensure_projected_for_buffer. destruct (empty g) eqn:He.
  { split; [by intros [e H] | by intros [H _]]. }
  destruct (crs g) as [c|] eqn:Hc.
  - destruct (is_geographic c).
    + destruct (estimate_utm_zone (geometry g)) as [[zone north]|];
        (match goal with |- context [to_crs g (Some ?t)] =>
           destruct (to_crs_run g c t Hc) as (g' & -> & _) end);
        split; [by intros [e H] | by intros [_ H] | by intros [e H] | by intros [_ H]].
    + split; [by intros [e H] | by intros [_ H]].
  - simpl. unfold to_crs. rewrite Hc. split; [done | eauto].
Qed.

(** X12: [ensure_projected_for_buffer] raises exactly on a frame that has
    rows and no CRS (the reprojection of geometries without CRS is an
    error); on every other frame it returns a frame. *)
Theorem ensure_projected_raises_iff (g : GDF) :
  (∃ e, ensure_projected_for_buffer (Some g) = Raise e) ↔
  empty g = false ∧ crs g = None.
Proof. apply ensure_projected_raises. Qed.

(** *** The layers of the analysis *)

Lemma align_inv (o : option GDF) t (r : option GDF) :
  align o t = Ok r →
  match o with
  | Some g0 => ∃ g1, r = Some g1 ∧ length (geometry g1) = length (geometry g0) ∧
                     is_Some (crs g0)
  | None => r = None
  end.
Proof.
  unfold align. destruct o as [g0|]; [|by intros [= <-]].
  destruct (decide (crs g0 ≠ Some t)) as [Hne|Heq].
  - destruct (to_crs g0 (Some t)) as [g1|] eqn:Ht; [|done]. intros [= <-].
    exists g1. split; [done|]. split; [by eapply to_crs_rows|].
    by destruct (to_crs_Ok _ _ _ Ht).
  - intros [= <-]. exists g0. split; [done|]. split; [done|].
    apply dec_stable in Heq. rewrite Heq. eauto.
Qed.

Lemma aligned_inv (garage structures o1 o2 : option GDF) :
  aligned garage structures = Ok (o1, o2) →
  match garage with
  | Some g0 => ∃ g, o1 = Some g ∧ length (geometry g) = length (geometry g0) ∧
                    (crs g0 = None → crs g = None)
  | None => o1 = None
  end.
Proof.
  unfold aligned. destruct (target_crs garage structures) as [t|] eqn:Ht.
  - destruct (align garage t) as [g|] eqn:Hg; [|done].
    destruct (align structures t) as [s|]; [|done]. intros [= <- <-].
    apply align_inv in Hg. destruct garage as [g0|]; [|done].
    destruct Hg as (g' & -> & Hl & [c Hc]). exists g'. split; [done|]. split; [done|].
    rewrite Hc. discriminate.
  - intros [= <- <-]. destruct garage as [g0|]; eauto.
Qed.

Lemma analysis_inv (garage structures : option GDF) l :
  analysis garage structures = Ok l →
  ∃ g1 s1 : option GDF, aligned garage structures = Ok (g1, s1) ∧
           project_garage g1 = Ok (garage_proj l) ∧
           project_structures s1 (garage_proj l) = Ok (structures_proj l) ∧
           garage_buffer l = buffer_of (garage_proj l) ∧
           (empty (intersect_gdf l) = false → is_Some (overlay_operands l)).
Proof.
  rewrite analysis_stages. unfold staged_analysis.
  destruct (aligned garage structures) as [[g1 s1]|] eqn:Ha; [|done].
  destruct (project_garage g1) as [gp|] eqn:Hg; [|done].
  destruct (project_structures s1 gp) as [sp|] eqn:Hs; [|done].
  unfold overlay_of, overlay_operands. intros H. exists g1, s1.
  destruct (buffer_of gp) as [b|] eqn:Hb, sp as [s|];
    try (injection H as <-; simpl; rewrite ?Hb; repeat split; done).
  destruct (negb (empty s)) eqn:He.
  - destruct (overlay_intersection s b); [|done]. injection H as <-. simpl.
    rewrite Hb, He. repeat split; eauto.
  - injection H as <-. simpl. rewrite Hb. repeat split; done.
Qed.

(** X13: when the analysis completes on a garage layer, the reprojected
    garage layer has one row per garage, and the buffer layer, made when
    there are garages, has the CRS of the reprojected layer and holds its
    geometries buffered by 150, one per garage; without garages (no layer,
    or no rows) no buffer layer is made. *)
Theorem buffer_one_per_garage (garage structures : option GDF) (l : Locals)
    (Hrun : analysis garage structures = Ok l) :
  match garage with
  | Some g0 =>
      ∃ gp, garage_proj l = Some gp ∧
            length (geometry gp) = length (geometry g0) ∧
            garage_buffer l =
              if empty g0 then None
              else Some (mkGDF (crs gp) (map (λ x, buffer x 150) (geometry gp)))
  | None => garage_proj l = None ∧ garage_buffer l = None
  end.
Proof.
  destruct (analysis_inv _ _ _ Hrun) as (g1 & s1 & Ha & Hg & _ & Hb & _).
  apply aligned_inv in Ha. destruct garage as [g0|].
  - destruct Ha as (g & -> & Hl & _).
    change (project_garage (Some g)) with (ensure_projected_for_buffer (Some g)) in Hg.
    destruct (ensure_projected_inv _ _ Hg) as (gp & Hgp & Hl' & _).
    exists gp. split; [done|]. split; [congruence|].
    rewrite Hb, Hgp. simpl.
    assert (empty gp = empty g0) as -> by (apply empty_same_rows; congruence).
    destruct (empty g0); reflexivity.
  - subst g1. simpl in Hg. injection Hg as Hg. rewrite Hb, <- Hg. done.
Qed.

(** X14: the two reprojected layers the analysis produces are in the same
    CRS, whether or not the layers have rows. *)
Theorem projected_layers_share_crs (garage structures : option GDF) (l : Locals)
    (gp sp : GDF)
    (Hrun : analysis garage structures = Ok l)
    (Hg : garage_proj l = Some gp)
    (Hs : structures_proj l = Some sp) :
  crs sp = crs gp.
Proof.
  destruct (analysis_inv _ _ _ Hrun) as (g1 & s1 & _ & _ & Hps & _).
  rewrite Hg, Hs in Hps. unfold project_structures in Hps.
  destruct s1 as [s|]; [|done].
  destruct (to_crs s (crs gp)) as [s'|] eqn:Ht; [|done]. injection Hps as ->.
  by destruct (to_crs_Ok _ _ _ Ht) as (_ & _ & ?).
Qed.

(** X15: a garage layer that has rows and no CRS makes the analysis raise,
    whatever the structures layer is. *)
Theorem naive_garages_raise (g0 : GDF) (structures : option GDF)
    (Hrows : empty g0 = false)
    (Hcrs : crs g0 = None) :
  ∃ e, analysis (Some g0) structures = Raise e.
Proof.
  destruct (analysis (Some g0) structures) as [l|e] eqn:Hrun; [|eauto]. exfalso.
  destruct (analysis_inv _ _ _ Hrun) as (g1 & s1 & Ha & Hg & _).
  apply aligned_inv in Ha as (g & -> & Hl & Hc).
  change (project_garage (Some g)) with (ensure_projected_for_buffer (Some g)) in Hg.
  assert (∃ e, ensure_projected_for_buffer (Some g) = Raise e) as [e He].
  { apply ensure_projected_raises. split; [|auto].
    by rewrite (empty_same_rows g0 g Hl). }
  congruence.
Qed.

(** *** Writing the layers *)

Lemma to_file_if_present_frame name name' (o : option GDF) (gpkg gpkg' : gmap string GDF) :
  name' ≠ name → to_file_if_present name o gpkg = Some gpkg' →
  gpkg' !! name' = gpkg !! name'.
Proof.
  intros Hne. destruct o as [g|]; simpl; [|by intros [= <-]].
  unfold to_file. destruct (to_file_succeeds name g); [|done].
  intros [= <-]. by rewrite lookup_insert_ne.
Qed.

(** X16: saving the outputs touches no layer of the GeoPackage other than
    the four output layers. *)
Theorem save_outputs_frame (l : Locals) (gpkg : gmap string GDF) (name : string)
    (Hother : name ∉ output_layer_names) :
  save_outputs l gpkg !! name = gpkg !! name.
Proof.
  assert (name ≠ "GaragePoints_PRJ" ∧ name ≠ "Structures_PRJ" ∧
          name ≠ "Garage_Buffer_150m" ∧ name ≠ "Garage_Structures_Intersect")
    as (N1 & N2 & N3 & N4).
  { unfold output_layer_names in Hother.
    repeat split; intros ->; apply Hother; repeat (try (apply elem_of_cons; by left);
      apply elem_of_cons; right). }
  unfold save_outputs.
  destruct (to_file_if_present "GaragePoints_PRJ" _ gpkg) as [g1|] eqn:H1; [|done].
  rewrite <- (to_file_if_present_frame _ _ _ _ _ N1 H1).
  destruct (to_file_if_present "Structures_PRJ" _ g1) as [g2|] eqn:H2; [|done].
  rewrite <- (to_file_if_present_frame _ _ _ _ _ N2 H2).
  destruct (to_file_if_present "Garage_Buffer_150m" _ g2) as [g3|] eqn:H3; [|done].
  rewrite <- (to_file_if_present_frame _ _ _ _ _ N3 H3).
  destruct (negb (empty (intersect_gdf l))); [|done].
  unfold to_file. destruct (to_file_succeeds _ _); [|done]. by rewrite lookup_insert_ne.
Qed.

(** X17: without a garage layer, [main] writes at most the reprojected
    structures layer: every other layer of the GeoPackage is as it was. *)
Theorem no_garages_only_structures_written
    (s0 : GDF) (gpkg m : gmap string GDF) (name : string)
    (Hrun : main None (Some s0) gpkg = Ok m)
    (Hother : name ≠ "Structures_PRJ") :
  m !! name = gpkg !! name.
Proof.
  unfold main in Hrun. destruct (analysis None (Some s0)) as [l|] eqn:Ha; [|done].
  injection Hrun as <-.
  destruct (analysis_inv _ _ _ Ha) as (g1 & s1 & Hal & Hg & _ & Hb & Hov).
  apply aligned_inv in Hal. subst g1. simpl in Hg. injection Hg as Hg.
  rewrite <- Hg in Hb. simpl in Hb.
  assert (empty (intersect_gdf l) = true) as He.
  { destruct (empty (intersect_gdf l)) eqn:E; [done|].
    destruct (Hov eq_refl) as [x Hx]. unfold overlay_operands in Hx.
    by rewrite Hb in Hx. }
  unfold save_outputs. rewrite <- Hg, Hb, He. simpl.
  destruct (to_file_if_present "Structures_PRJ" _ gpkg) as [g2|] eqn:H2; [|done].
  by apply (to_file_if_present_frame _ _ _ _ _ Hother H2).
Qed.

End Facts.

(** *** The statements at work on the sample layers *)
Import Sample.

Lemma ensure_projected_idempotent_witness :
  ensure_projected_for_buffer (L := library)
    (Some (mkGDF (Some web_mercator) [1; 2]))
  = Ok (Some (mkGDF (Some web_mercator) [1; 2])).
Proof.
  refine (proj2 (ensure_projected_idempotent (L := library) garages _ _)).
  vm_compute; reflexivity.
Defined.

Lemma buffer_one_per_garage_witness :
  ∃ l gp, analysis (L := library) (Some garages) (Some structures) = Ok l ∧
          garage_proj l = Some gp ∧ length (geometry gp) = 2%nat ∧
          garage_buffer l
          = Some (mkGDF (crs gp) (map (λ x, buffer (Library := library) x 150) (geometry gp))).
Proof.
  destruct (analysis (L := library) (Some garages) (Some structures)) as [l|e] eqn:H;
    [|vm_compute in H; discriminate].
  destruct (buffer_one_per_garage (L := library) _ _ _ H) as (gp & Hg & Hl & Hb).
  exists l, gp. auto.
Defined.

Lemma projected_layers_share_crs_witness :
  ∃ l gp sp, analysis (L := library) (Some garages) (Some structures) = Ok l ∧
             garage_proj l = Some gp ∧ structures_proj l = Some sp ∧ crs sp = crs gp.
Proof.
  eexists _, _, _.
  split; [vm_compute; reflexivity|]. split; [reflexivity|]. split; [reflexivity|].
  eapply (projected_layers_share_crs (L := library) (Some garages) (Some structures));
    [vm_compute; reflexivity | reflexivity | reflexivity].
Defined.

Lemma naive_garages_raise_witness :
  ∃ e, analysis (L := library) (Some (mkGDF None [1; 2])) (Some structures) = Raise e.
Proof. exact (naive_garages_raise (L := library) (mkGDF None [1; 2]) _ eq_refl eq_refl). Defined.

Lemma save_outputs_frame_witness :
  save_outputs (L := library)
    (mkLocals (Some garages) (Some structures) (Some garages) structures)
    {[ "LandUse" := far_structures ]} !! "LandUse"
  = Some far_structures.
Proof.
  rewrite (save_outputs_frame (L := library)); [reflexivity|].
  unfold output_layer_names.
  intros H. repeat (apply elem_of_cons in H as [H|H]; [discriminate|]).
  by apply elem_of_nil in H.
Defined.

Lemma no_garages_only_structures_written_witness :
  ∃ m, main (L := library) None (Some structures) {[ "LandUse" := far_structures ]} = Ok m ∧
       m !! "LandUse" = Some far_structures.
Proof.
  destruct (main (L := library) None (Some structures) {[ "LandUse" := far_structures ]})
    as [m|e] eqn:H; [|vm_compute in H; discriminate].
  exists m. split; [reflexivity|].
  by rewrite (no_garages_only_structures_written (L := library) _ _ _ "LandUse" H).
Defined.

End GeoPandasMore.

(** ** Looking for an input geodatabase *)
Module GeoPandasInputFacts.
Import PyStr GeoPandasInput.

Lemma first_where_Some p listing f :
  first_where p listing = Some f →
  ∃ before after, listing = before ++ f :: after ∧ p f = true ∧
                  ∀ g, g ∈ before → p g = false.
Proof.
  induction listing as [|h listing IH]; simpl; [done|].
  destruct (p h) eqn:E.
  - intros [= ->]. exists [], listing. split; [done|]. split; [done|].
    intros g Hg. by apply elem_of_nil in Hg.
  - intros H. destruct (IH H) as (before & after & -> & Hp & Hb).
    exists (h :: before), after. split; [done|]. split; [done|].
    intros g [->|Hg]%elem_of_cons; auto.
Qed.

Lemma first_where_None p listing :
  first_where p listing = None ↔ ∀ f, f ∈ listing → p f = false.
Proof.
  induction listing as [|h listing IH]; simpl.
  - split; [intros _ f Hf; by apply elem_of_nil in Hf | done].
  - destruct (p h) eqn:E.
    + split; [done|]. intros H. rewrite (H h) in E; [done | apply elem_of_cons; by left].
    + rewrite IH. split.
      * intros H f [->|Hf]%elem_of_cons; auto.
      * intros H f Hf. apply H, elem_of_cons. by right.
Qed.

(** X18: what [find_first_gdb_or_folder] returns is an entry of the
    listing joined to the base directory: the first entry that is a
    directory named [*.gdb] (any case) when there is one, even after a
    GeoPackage in the listing, and otherwise the first entry named
    [*.gpkg], directory or not. *)
Theorem find_first_prefers_gdb
    (join : string → string → string) (isdir : string → bool)
    (listing : list string) (base_dir path : string)
    (Hfound : find_first_gdb_or_folder join isdir listing base_dir = Some path) :
  ∃ before f after,
    listing = before ++ f :: after ∧ path = join base_dir f ∧
    ((endswith ".gdb" (lower f) = true ∧ isdir (join base_dir f) = true ∧
      ∀ g, g ∈ before →
           endswith ".gdb" (lower g) && isdir (join base_dir g) = false) ∨
     (endswith ".gpkg" (lower f) = true ∧
      (∀ g, g ∈ before → endswith ".gpkg" (lower g) = false) ∧
      ∀ g, g ∈ listing →
           endswith ".gdb" (lower g) && isdir (join base_dir g) = false)).
Proof.
  unfold find_first_gdb_or_folder in Hfound.
  destruct (first_where _ listing) as [f|] eqn:Hgdb.
  - injection Hfound as <-.
    apply first_where_Some in Hgdb as (before & after & -> & [H1 H2]%andb_true_iff & Hb).
    exists before, f, after. auto 10.
  - destruct (first_where (λ f, endswith ".gpkg" (lower f)) listing) as [f|] eqn:Hpk;
      [|done].
    injection Hfound as <-.
    apply first_where_Some in Hpk as (before & after & -> & H1 & Hb).
    exists before, f, after. split; [done|]. split; [done|]. right.
    split; [done|]. split; [done|]. by apply first_where_None.
Qed.

(** X19: [find_first_gdb_or_folder] returns [None] exactly when the listing
    has neither a directory named [*.gdb] nor an entry named [*.gpkg]. *)
Theorem find_first_none_iff
    (join : string → string → string) (isdir : string → bool)
    (listing : list string) (base_dir : string) :
  find_first_gdb_or_folder join isdir listing base_dir = None ↔
  ∀ f, f ∈ listing →
       endswith ".gdb" (lower f) && isdir (join base_dir f) = false ∧
       endswith ".gpkg" (lower f) = false.
Proof.
  unfold find_first_gdb_or_folder.
  destruct (first_where _ listing) as [f|] eqn:Hgdb.
  - split; [done|]. intros H.
    apply first_where_Some in Hgdb as (before & after & -> & Hp & _).
    destruct (H f) as [Hf _]; [apply elem_of_app; right; apply elem_of_cons; by left|].
    congruence.
  - destruct (first_where (λ f, endswith ".gpkg" (lower f)) listing) as [f|] eqn:Hpk.
    + split; [done|]. intros H.
      apply first_where_Some in Hpk as (before & after & -> & Hp & _).
      destruct (H f) as [_ Hf]; [apply elem_of_app; right; apply elem_of_cons; by left|].
      congruence.
    + split; [|done]. intros _ f Hf. split.
      * by apply (proj1 (first_where_None _ _) Hgdb).
      * by apply (proj1 (first_where_None _ _) Hpk).
Qed.

Lemma find_first_prefers_gdb_witness :
  find_first_gdb_or_folder (λ a b, a +:+ "/" +:+ b)
    (λ p, String.eqb p "/lab/Campus.GDB") ["notes.txt"; "old.gpkg"; "Campus.GDB"] "/lab"
  = Some "/lab/Campus.GDB" ∧
  ∃ before f after,
    ["notes.txt"; "old.gpkg"; "Campus.GDB"] = before ++ f :: after ∧
    "/lab/Campus.GDB" = "/lab" +:+ "/" +:+ f.
Proof.
  split; [reflexivity|].
  destruct (find_first_prefers_gdb (λ a b, a +:+ "/" +:+ b)
              (λ p, String.eqb p "/lab/Campus.GDB")
              ["notes.txt"; "old.gpkg"; "Campus.GDB"] "/lab" "/lab/Campus.GDB" eq_refl)
    as (before & f & after & H1 & H2 & _).
  exists before, f, after. auto.
Defined.

End GeoPandasInputFacts.

(** ** The Lab 5 console tool *)
Module Lab5Facts.
Import PyStr Lab5Tool PyStrFacts.

(** *** [ask] *)

(** X20: a value [ask] returns is the typed line stripped; it is not empty
    and has no white-space character, ASCII or not, at either end, so
    stripping it again changes nothing; an answer that is empty once
    stripped ends the program with exit code 1. *)
Theorem ask_returns_stripped (typed v : string)
    (Hreturn : ask typed = Return v) :
  v = strip typed ∧ v ≠ "" ∧
  (∀ w u, w ∈ white_space → v ≠ w +:+ u ∧ v ≠ u +:+ w) ∧
  strip v = v ∧
  ∀ t, strip t = "" → ask t = SysExit 1.
Proof.
  unfold ask in *. destruct (String.eqb (strip typed) "") eqn:E; [done|].
  injection Hreturn as <-. apply String.eqb_neq in E.
  split; [done|]. split; [done|].
  split; [intros w u; apply strip_no_space|].
  split; [apply strip_idempotent|].
  intros t ->. reflexivity.
Qed.

Lemma ask_returns_stripped_witness :
  "Rudder Tower" = strip ("  Rudder Tower " +:+ bytes [194; 160]%nat) ∧
  "Rudder Tower" ≠ "" ∧ strip "Rudder Tower" = "Rudder Tower" ∧
  ask (bytes [194; 160; 32]%nat) = SysExit 1.
Proof.
  destruct (ask_returns_stripped ("  Rudder Tower " +:+ bytes [194; 160]%nat)
              "Rudder Tower" eq_refl) as (H1 & H2 & _ & H3 & H4).
  split; [exact H1|]. split; [exact H2|]. split; [exact H3|].
  apply H4. reflexivity.
Defined.

(** *** The where clause and the clip layer name *)

Lemma replace_quote_inj s1 s2 :
  replace_char "'" "''" s1 = replace_char "'" "''" s2 → s1 = s2.
Proof.
  revert s2. induction s1 as [|a s1 IH]; intros [|b s2]; simpl.
  - done.
  - destruct (Ascii.eqb b "'"); discriminate.
  - destruct (Ascii.eqb a "'"); discriminate.
  - destruct (Ascii.eqb a "'") eqn:Ea, (Ascii.eqb b "'") eqn:Eb; simpl.
    + apply Ascii.eqb_eq in Ea, Eb. subst. intros [= H]. by rewrite (IH _ H).
    + apply Ascii.eqb_neq in Eb. intros [= H _]. by subst.
    + apply Ascii.eqb_neq in Ea. intros [= H _]. by subst.
    + intros [= -> H]. by rewrite (IH _ H).
Qed.

(** X21: the where clause determines the selected name: different names
    are given different where clauses (doubling the quotes loses
    nothing). *)
Theorem where_clause_injective (name1 name2 : string)
    (Hdifferent : name1 ≠ name2) :
  where_clause name1 ≠ where_clause name2.
Proof.
  intros Hsame. apply Hdifferent. unfold where_clause, safe_name in Hsame.
  apply (inj (String.append "BldgName = '")) in Hsame.
  apply ArcPyMore.append_char_inj in Hsame. by apply replace_quote_inj.
Qed.

Lemma where_clause_injective_witness :
  where_clause "O'Neill Hall" ≠ where_clause "O''Neill Hall".
Proof. apply where_clause_injective. discriminate. Defined.

Lemma replace_space_no_space s : contains " " (replace_char " " "_" s) = false.
Proof.
  induction s as [|c r IH]; simpl; [done|].
  destruct (Ascii.eqb c " ") eqn:E; simpl; [exact IH|].
  rewrite IH, orb_false_r. case_match; [|done].
  subst c. by rewrite Ascii.eqb_refl in E.
Qed.

Lemma replace_space_idempotent s :
  replace_char " " "_" (replace_char " " "_" s) = replace_char " " "_" s.
Proof.
  induction s as [|c r IH]; simpl; [done|].
  destruct (Ascii.eqb c " ") eqn:E; simpl.
  - change ("" +:+ replace_char " " "_" r) with (replace_char " " "_" r).
    rewrite IH. reflexivity.
  - by rewrite E, IH.
Qed.

Lemma contains_space_prefix s :
  contains " " ("clip_" +:+ s) = contains " " s.
Proof. reflexivity. Qed.

(** X22: the name of the clip layer never holds a space, and a selected
    name gives the same clip layer as the name with its spaces turned into
    underscores, so that two such names share (and overwrite) one output. *)
Theorem clip_name_no_space (Selected_Name : string) :
  contains " " (clip_name Selected_Name) = false ∧
  clip_name (replace_char " " "_" Selected_Name) = clip_name Selected_Name.
Proof.
  unfold clip_name. split.
  - rewrite contains_space_prefix. apply replace_space_no_space.
  - by rewrite replace_space_idempotent.
Qed.

(** *** The hints *)

Section Hints.
Context {V : Type} `{Countable V}.

#[local] Set Warnings "-clear-no-such-hyp".

Lemma hint_loop_spec (rows : list V) (seen : gset V) :
  (size seen < 10)%nat →
  NoDup (hint_loop rows seen) ∧
  (∀ h, h ∈ hint_loop rows seen → h ∈ rows ∧ h ∉ seen) ∧
  (size seen + length (hint_loop rows seen) ≤ 10)%nat.
Proof.
  revert seen. induction rows as [|nm rows IH]; intros seen Hs; simpl.
  - split; [constructor|]. split; [intros h Hh; by apply elem_of_nil in Hh | lia].
  - destruct (bool_decide (nm ∉ seen)) eqn:Hf.
    + apply bool_decide_eq_true in Hf.
      assert (size (seen ∪ {[nm]}) = S (size seen)) as Hsz.
      { rewrite size_union by set_solver. rewrite size_singleton. lia. }
      destruct (bool_decide (10 ≤ size (seen ∪ {[nm]}))%nat) eqn:Hfull.
      * split; [apply NoDup_singleton|]. split; [|simpl; lia].
        intros h ->%list_elem_of_singleton. split; [apply elem_of_cons; by left | done].
      * apply bool_decide_eq_false in Hfull.
        destruct (IH (seen ∪ {[nm]})) as (Hnd & Hin & Hlen); [lia|].
        simpl. split; [|split].
        -- constructor; [|done]. intros Hnm. apply Hin in Hnm as [_ Hnm]. set_solver.
        -- intros h [->|Hh]%elem_of_cons.
           ++ split; [apply elem_of_cons; by left | done].
           ++ apply Hin in Hh as [Hr Hn]. split; [apply elem_of_cons; by right | set_solver].
        -- lia.
    + rewrite bool_decide_eq_false_2 by lia. simpl.
      destruct (IH seen Hs) as (Hnd & Hin & Hlen). split; [done|]. split; [|done].
      intros h Hh. apply Hin in Hh as [Hr Hn]. split; [apply elem_of_cons; by right | done].
Qed.

(** X23: the hints printed are names of the layer, each printed once, and
    never more than ten. *)
Theorem hints_distinct_at_most_ten (rows : list V) :
  NoDup (hints rows) ∧ (∀ h, h ∈ hints rows → h ∈ rows) ∧ (length (hints rows) ≤ 10)%nat.
Proof.
  destruct (hint_loop_spec rows ∅) as (Hnd & Hin & Hlen).
  { rewrite size_empty. lia. }
  split; [done|]. split; [intros h Hh; by apply Hin|].
  rewrite size_empty in Hlen. exact Hlen.
Qed.

Lemma hint_loop_complete (rows : list V) (seen : gset V) nm :
  (size (seen ∪ list_to_set rows) < 10)%nat →
  nm ∈ rows → nm ∉ seen → nm ∈ hint_loop rows seen.
Proof.
  revert seen. induction rows as [|r rows IH]; intros seen Hs Hnm Hn; simpl.
  - by apply elem_of_nil in Hnm.
  - simpl in Hs.
    assert (size (seen ∪ {[r]}) ≤ size (seen ∪ ({[r]} ∪ list_to_set rows)))%nat as Hle
      by (apply subseteq_size; set_solver).
    destruct (bool_decide (r ∉ seen)) eqn:Hf.
    + apply bool_decide_eq_true in Hf.
      rewrite bool_decide_eq_false_2 by lia. simpl.
      apply elem_of_cons in Hnm as [->|Hnm]; [apply elem_of_cons; by left|].
      destruct (decide (nm = r)) as [->|Hne]; [apply elem_of_cons; by left|].
      apply elem_of_cons. right. apply IH; [|done|set_solver].
      replace (seen ∪ {[r]} ∪ list_to_set rows) with (seen ∪ ({[r]} ∪ list_to_set rows))
        by set_solver. done.
    + apply bool_decide_eq_false in Hf. apply dec_stable in Hf.
      assert (size seen ≤ size (seen ∪ ({[r]} ∪ list_to_set rows)))%nat
        by (apply subseteq_size; set_solver).
      rewrite bool_decide_eq_false_2 by lia. simpl.
      apply elem_of_cons in Hnm as [->|Hnm]; [done|].
      apply IH; [|done|done].
      replace (seen ∪ list_to_set rows) with (seen ∪ ({[r]} ∪ list_to_set rows))
        by set_solver. done.
Qed.

(** X24: when the layer has fewer than ten distinct names, every name of
    the layer is among the hints. *)
Theorem hints_complete_below_ten (rows : list V) (nm : V)
    (Hfew : (size (list_to_set rows : gset V) < 10)%nat)
    (Hnm : nm ∈ rows) :
  nm ∈ hints rows.
Proof.
  apply hint_loop_complete; [|done|set_solver].
  by replace (∅ ∪ list_to_set rows : gset V) with (list_to_set rows : gset V) by set_solver.
Qed.

End Hints.

Lemma hints_complete_below_ten_witness :
  "Kyle Field" ∈ hints ["Rudder Tower"; "Kyle Field"; "Rudder Tower"].
Proof.
  refine (hints_complete_below_ten ["Rudder Tower"; "Kyle Field"; "Rudder Tower"]
            "Kyle Field" _ _).
  - vm_compute. lia.
  - apply elem_of_cons. right. apply elem_of_cons. by left.
Defined.

End Lab5Facts.

(** ** What a run on a fresh destination computes *)
Module ArcPyFlow.
Import PyStr FieldDetector PyNum ArcPyTool ArcPyFrame ArcPyFacts ArcPyMore.

Section Facts.
Context {Feature Row : Type} {L : Library Feature Row}.

Abbreviation St := (State Feature Row).
Abbreviation Mc := (@M Feature Row).
Implicit Types (st : St) (p : FcPath) (w : string).

Lemma fc_exists_content st p :
  fc_exists st p = has_name p.2 (workspace_content st p.1).
Proof.
  unfold fc_exists, workspace_content. destruct (gdbs st !! p.1); [done|].
  simpl. by rewrite has_name_nil.
Qed.

Lemma workspace_content_put_other w w' g l st :
  w' ≠ w → workspace_content (put_fc (w, g) l st) w' = workspace_content st w'.
Proof.
  intros Hne. unfold workspace_content, put_fc. simpl. by rewrite lookup_insert_ne.
Qed.

(** A layer just written reads as what was written. *)
Lemma read_fc_put_fc p l st :
  fc_exists st p = false → read_fc p (put_fc p l st) = (Ok l, put_fc p l st).
Proof.
  intros He. apply read_fc_content. destruct p as [w g]. simpl.
  rewrite workspace_content_put_fc. rewrite fc_exists_content in He. simpl in He.
  exists (length (workspace_content st w)).
  apply list_find_Some. split; [|split].
  - by rewrite lookup_app_r, Nat.sub_diag by lia.
  - by apply bool_decide_pack.
  - intros j [n d] Hj Hlt. intros Heq%bool_decide_unpack. simpl in Heq. subst n.
    rewrite lookup_app_l in Hj by done.
    apply bool_decide_eq_false in He. apply He.
    apply list_elem_of_fmap. exists (g, d). split; [done|]. by eapply list_elem_of_lookup_2.
Qed.

Lemma read_fc_with_call p c st l :
  read_fc p (with_call c st) = (Ok l, with_call c st) ↔ read_fc p st = (Ok l, st).
Proof. split; apply read_fc_gdbs; reflexivity. Qed.

Lemma write_fc_Ok_inv p l st u st' :
  write_fc p l st = (Ok u, st') → fc_exists st p = false ∧ st' = put_fc p l st.
Proof.
  unfold write_fc, put_fc, fc_exists, workspace_content.
  destruct (gdbs st !! p.1) as [c|]; simpl; [|done].
  destruct (has_name p.2 c); [done|]. intros H. by inversion H.
Qed.

(** What a tool that returned has read, computed and written. *)
Lemma tool_Ok_inv (i o : FcPath) c (kernel : Layer Feature → option (Layer Feature)) st u st' :
  (log_call c ;; l ← read_fc i; l' ← kernel_result (kernel l); write_fc o l') st
    = (Ok u, st') →
  ∃ l l', read_fc i st = (Ok l, st) ∧ kernel l = Some l' ∧ fc_exists st o = false ∧
          st' = put_fc o l' (with_call c st).
Proof.
  intros H. apply bind_Ok_inv in H as (u0 & s & H0 & H). inversion H0; subst s; clear H0.
  apply bind_Ok_inv in H as (l & s & Hr & H).
  pose proof (reads_read_fc i _ _ _ Hr) as ->.
  apply bind_Ok_inv in H as (l' & s & Hk & H).
  destruct (kernel l) as [k|] eqn:Ek; [|discriminate]. inversion Hk; subst l' s; clear Hk.
  apply write_fc_Ok_inv in H as [He ->].
  exists l, k. split; [by apply read_fc_with_call in Hr|]. auto.
Qed.

Lemma Intersect_Ok_inv (a b o : FcPath) st u st' :
  Intersect a b o st = (Ok u, st') →
  ∃ la lb l', read_fc a st = (Ok la, st) ∧ read_fc b st = (Ok lb, st) ∧
              Intersect_kernel la lb = Some l' ∧ fc_exists st o = false ∧
              st' = put_fc o l' (with_call (Intersect_call [a; b] o) st).
Proof.
  unfold Intersect. intros H.
  apply bind_Ok_inv in H as (u0 & s & H0 & H). inversion H0; subst s; clear H0.
  apply bind_Ok_inv in H as (la & s & Hra & H).
  pose proof (reads_read_fc a _ _ _ Hra) as ->.
  apply bind_Ok_inv in H as (lb & s & Hrb & H).
  pose proof (reads_read_fc b _ _ _ Hrb) as ->.
  apply bind_Ok_inv in H as (l' & s & Hk & H).
  destruct (Intersect_kernel la lb) as [k|] eqn:Ek; [|discriminate].
  inversion Hk; subst l' s; clear Hk.
  apply write_fc_Ok_inv in H as [He ->].
  exists la, lb, k. split; [by apply read_fc_with_call in Hra|].
  split; [by apply read_fc_with_call in Hrb|]. auto.
Qed.

(** A materialisation that returned on a destination without the layer
    has run its tool. *)
Lemma project_feature_fresh i o sr st r st' :
  fc_exists st o = false → project_feature i o sr st = (Ok r, st') →
  ∃ l l', read_fc i st = (Ok l, st) ∧ Project_kernel l sr = Some l' ∧
          st' = put_fc o l' (with_call (Project_call i o sr) st).
Proof.
  intros He H. unfold project_feature in H.
  apply bind_Ok_inv in H as (e & s & H0 & H). inversion H0; subst e s; clear H0.
  rewrite He in H. apply bind_Ok_inv in H as (u & s & Ht & Hr).
  apply (tool_Ok_inv i o _ (λ l, Project_kernel l sr)) in Ht as (l & l' & ? & ? & _ & ?).
  inversion Hr; subst. eauto.
Qed.

Lemma main_buffer_fresh out gp d name st r st' :
  buffer_name d = Some name → fc_exists st (out, name) = false →
  main_buffer out gp d st = (Ok r, st') →
  ∃ l l', read_fc gp st = (Ok l, st) ∧ Buffer_kernel l d = Some l' ∧
          st' = put_fc (out, name) l' (with_call (Buffer_call gp (out, name) d) st).
Proof.
  intros Hn He H. unfold main_buffer in H. rewrite Hn in H.
  apply bind_Ok_inv in H as (e & s & H0 & H). inversion H0; subst e s; clear H0.
  rewrite He in H. simpl in H. apply bind_Ok_inv in H as (u & s & Ht & Hr).
  apply (tool_Ok_inv gp (out, name) _ (λ l, Buffer_kernel l d)) in Ht
    as (l & l' & ? & ? & _ & ?).
  inversion Hr; subst. eauto.
Qed.

Lemma main_intersect_fresh out b s st r st' :
  fc_exists st (out, "Garage_Structures_Intersect") = false →
  main_intersect out b s st = (Ok r, st') →
  ∃ lb ls l', read_fc b st = (Ok lb, st) ∧ read_fc s st = (Ok ls, st) ∧
              Intersect_kernel lb ls = Some l' ∧
              st' = put_fc (out, "Garage_Structures_Intersect") l'
                      (with_call (Intersect_call [b; s] (out, "Garage_Structures_Intersect"))
                         st).
Proof.
  intros He H. unfold main_intersect in H.
  apply bind_Ok_inv in H as (e & s0 & H0 & H). inversion H0; subst e s0; clear H0.
  rewrite He in H. simpl in H. apply bind_Ok_inv in H as (u & s0 & Ht & Hr).
  apply Intersect_Ok_inv in Ht as (lb & ls & l' & ? & ? & ? & _ & ?).
  inversion Hr; subst. eauto 10.
Qed.


Lemma main_garages_path w csv st gp st' :
  main_garages w csv st = (Ok gp, st') → gp.1 = w.
Proof.
  unfold main_garages. intros H. apply bind_Ok_inv in H as (g & s & _ & H).
  destruct (truthy g); [by inversion H|].
  apply bind_Ok_inv in H as (s0 & s1 & _ & H).
  destruct (_ && _); [|discriminate].
  apply bind_Ok_inv in H as (xy & s2 & _ & H).
  destruct (_ || _); [discriminate|].
  apply bind_Ok_inv in H as (u & s3 & _ & H). by inversion H.
Qed.

Lemma main_structures_path w st sp st' :
  main_structures w st = (Ok sp, st') → sp.1 = w.
Proof.
  unfold main_structures. intros H. apply bind_Ok_inv in H as (g & s & _ & H).
  destruct (negb _); [discriminate | by inversion H].
Qed.

Lemma main_garages_elsewhere w csv st r st' w' :
  main_garages w csv st = (r, st') → w' ≠ w →
  workspace_content st' w' = workspace_content st w'.
Proof.
  intros H Hne. apply main_garages_inv in H
    as [-> | (_ & x & y & [(_ & ->) | (l & _ & _ & ->)])]; try reflexivity.
  by rewrite workspace_content_put_other.
Qed.

Lemma create_output_gdb_empty out st r st' :
  create_output_gdb out st = (Ok r, st') →
  workspace_content st out = [] → workspace_content st' out = [].
Proof.
  unfold create_output_gdb. intros H Hc.
  apply bind_Ok_inv in H as (e & s & H0 & H). inversion H0; subst e s; clear H0.
  destruct (workspace_exists st out).
  { cbv [mret M_ret] in H. injection H as _ <-. exact Hc. }
  apply bind_Ok_inv in H as (u & s & H0 & H).
  cbv [mret M_ret] in H. injection H as _ <-.
  unfold CreateFileGDB in H0.
  apply bind_Ok_inv in H0 as (u0 & sa & H1 & H0). inversion H1; subst sa; clear H1.
  apply bind_Ok_inv in H0 as (s0 & sb & H1 & H0). inversion H1; subst s0 sb; clear H1.
  destruct (CreateFileGDB_location _ _) as [q|]; [|discriminate].
  destruct (workspace_exists _ q); [discriminate|].
  unfold set_gdbs in H0. injection H0 as _ <-.
  unfold workspace_content in *. simpl.
  destruct (decide (q = out)) as [->|Hne]; [by rewrite lookup_insert_eq|].
  by rewrite lookup_insert_ne.
Qed.

Lemma buffer_name_prefix d name :
  buffer_name d = Some name → ∃ t, name = String "G" (String "a" (String "r" (String "a"
    (String "g" (String "e" (String "_" (String "B" t))))))).
Proof.
  unfold buffer_name. destruct (int d) as [n|]; [|done]. intros [= <-]. eauto.
Qed.

Lemma read_fc_unique p st l l' :
  read_fc p st = (Ok l, st) → read_fc p st = (Ok l', st) → l = l'.
Proof. intros H H'. rewrite H in H'. by inversion H'. Qed.

Lemma read_fc_same_content p st st' l :
  workspace_content st p.1 = workspace_content st' p.1 →
  read_fc p st = (Ok l, st) → read_fc p st' = (Ok l, st').
Proof.
  intros Hc H. apply read_fc_content in H as [i H]. apply read_fc_content. exists i.
  by rewrite <- Hc.
Qed.

(** Preparing the destination leaves every workspace that exists as it is. *)
Lemma create_output_gdb_keeps out st r st' w :
  create_output_gdb out st = (Ok r, st') → workspace_exists st w = true →
  workspace_content st' w = workspace_content st w.
Proof.
  unfold create_output_gdb. intros H Hw.
  apply bind_Ok_inv in H as (e & s & H0 & H). inversion H0; subst e s; clear H0.
  destruct (workspace_exists st out).
  { cbv [mret M_ret] in H. by injection H as _ <-. }
  apply bind_Ok_inv in H as (u & s & H0 & H).
  cbv [mret M_ret] in H. injection H as _ <-.
  unfold CreateFileGDB in H0.
  apply bind_Ok_inv in H0 as (u0 & sa & H1 & H0). inversion H1; subst sa; clear H1.
  apply bind_Ok_inv in H0 as (s0 & sb & H1 & H0). inversion H1; subst s0 sb; clear H1.
  destruct (CreateFileGDB_location _ _) as [q|]; [|discriminate].
  destruct (workspace_exists _ q) eqn:Hq; [discriminate|].
  unfold set_gdbs in H0. injection H0 as _ <-.
  unfold workspace_content. simpl.
  rewrite lookup_insert_ne; [done|]. intros ->.
  unfold workspace_exists in Hq, Hw. simpl in Hq. congruence.
Qed.

(** What the garage resolution returns when a candidate is found. *)
Lemma main_garages_resolved w csv st gp st' :
  main_garages w csv st = (Ok gp, st') →
  truthy (find_result st w garage_names) = true →
  find_result st w garage_names = Some gp.2 ∧ st' = with_env w st.
Proof.
  intros H Ht. apply main_garages_cases in H as [(_ & Hr & ->) | (Hf & _)]; [|congruence].
  injection Hr as ->. split; [|done].
  by destruct (find_result st w garage_names).
Qed.

(** What the structures resolution returns. *)
Lemma main_structures_resolved w st sp st' :
  main_structures w st = (Ok sp, st') → find_result st w structures_names = Some sp.2.
Proof.
  unfold main_structures. intros H. apply bind_Ok_inv in H as (g & s & H1 & H2).
  rewrite find_candidate_run in H1. inversion H1; subst; clear H1.
  destruct (find_result st w structures_names) as [n|]; simpl in H2; [|discriminate].
  destruct (negb (negb (n =? ""))); [discriminate|]. by inversion H2.
Qed.

(** X25: a run of [main] that returns 0 on a destination that held nothing
    (and is not the source geodatabase) leaves exactly four layers there, in
    the order they were made, and they are what the tools compute from the
    layers the two resolutions returned: the layer [main_garages] returned
    (the candidate the resolver found, when it found one) and the layer
    [main_structures] returned (the candidate the resolver found), both
    projected to EPSG:3857, the buffer of the projected garages by the
    distance given, and the intersection of that buffer with the projected
    structures. *)
Theorem fresh_run_data_flow
    (w0 csv0 out0 force : string) (a : PyArg) (st st' : St)
    (Hrun : main w0 csv0 out0 a force st = (0, st'))
    (Hfresh : workspace_content st (output_gdb w0 out0) = [])
    (Hsep : output_gdb w0 out0 ≠ strip w0) :
  ∃ d name garages structures s1 lg ls l1 l2 l3 l4,
    buffer_distance a = Ok d ∧ buffer_name d = Some name ∧
    main_garages (strip w0) (strip csv0) (with_env (strip w0) st)
      = (Ok (strip w0, garages), s1) ∧
    (truthy (find_result st (strip w0) garage_names) = true →
     find_result st (strip w0) garage_names = Some garages ∧ gdbs s1 = gdbs st) ∧
    main_structures (strip w0) s1 = (Ok (strip w0, structures), s1) ∧
    find_result s1 (strip w0) structures_names = Some structures ∧
    read_fc (strip w0, garages) s1 = (Ok lg, s1) ∧
    read_fc (strip w0, structures) s1 = (Ok ls, s1) ∧
    Project_kernel lg 3857 = Some l1 ∧
    Project_kernel ls 3857 = Some l2 ∧
    Buffer_kernel l1 d = Some l3 ∧
    Intersect_kernel l3 l2 = Some l4 ∧
    workspace_content st' (output_gdb w0 out0)
    = [("GaragePoints_PRJ", FeatureClass l1); ("Structures_PRJ", FeatureClass l2);
       (name, FeatureClass l3); ("Garage_Structures_Intersect", FeatureClass l4)].
Proof.
  apply main_zero_inv in Hrun. unfold main_body in Hrun.
  set (out := output_gdb w0 out0) in *. set (w := strip w0) in *.
  apply bind_Ok_inv in Hrun as (d & s & H0 & H).
  unfold lift in H0. injection H0 as Hd Hs0. subst s.
  apply bind_Ok_inv in H as (e & s & H0 & H).
  unfold Exists_workspace in H0. injection H0 as He0 Hs0. subst s e.
  destruct (workspace_exists st w) eqn:Hw; simpl in H; [|discriminate].
  apply bind_Ok_inv in H as (u0 & s0 & H0 & H).
  unfold set_env_workspace in H0. injection H0 as _ Hs0. subst s0.
  apply bind_Ok_inv in H as (gp & s1 & Hg & H).
  apply bind_Ok_inv in H as (sp & s2 & Hs & H).
  apply bind_Ok_inv in H as (u3 & s3 & Hc & H).
  apply bind_Ok_inv in H as (u4 & s4 & Hp1 & H).
  apply bind_Ok_inv in H as (u5 & s5 & Hp2 & H).
  apply bind_Ok_inv in H as (bfc & s6 & Hb & H).
  apply bind_Ok_inv in H as (u7 & s7 & Hi & H).
  cbv [mret M_ret] in H. injection H as Hs7. subst s7.
  (* the destination is still empty when the projections start *)
  pose proof (main_garages_elsewhere _ _ _ _ _ out Hg Hsep) as C1.
  change (workspace_content (with_env w st) out) with (workspace_content st out) in C1.
  rewrite Hfresh in C1.
  pose proof (main_garages_path _ _ _ _ _ Hg) as Hgp.
  pose proof (main_structures_path _ _ _ _ Hs) as Hsp.
  (* the two resolutions *)
  destruct (stable_main_garages w (strip csv0) _ _ _ Hg) as [Eg Wg].
  specialize (Wg eq_refl).
  assert (workspace_exists s1 w = true) as Hw1.
  { eapply workspace_exists_extends; [exact Eg|]. exact Hw. }
  pose proof (main_structures_resolved _ _ _ _ Hs) as Hsr.
  pose proof Hs as Hs'.
  apply main_structures_Ok in Hs as [-> _].
  rewrite (with_env_id _ _ Wg) in *.
  pose proof (create_output_gdb_empty _ _ _ _ Hc C1) as C3.
  pose proof (create_output_gdb_keeps _ _ _ _ w Hc Hw1) as K3.
  (* the two projections *)
  apply project_feature_fresh in Hp1 as (lg & l1 & Rg & K1 & ->);
    [|by rewrite fc_exists_content; simpl; rewrite C3].
  set (s4 := put_fc (out, "GaragePoints_PRJ") l1 _) in *.
  assert (workspace_content s4 out = [("GaragePoints_PRJ", FeatureClass l1)]) as C4.
  { unfold s4. rewrite workspace_content_put_fc.
    change (workspace_content (with_call _ s3) out) with (workspace_content s3 out).
    by rewrite C3. }
  assert (read_fc (out, "GaragePoints_PRJ") s4 = (Ok l1, s4)) as R1.
  { apply read_fc_put_fc. rewrite fc_exists_content. simpl.
    change (workspace_content (with_call _ s3) out) with (workspace_content s3 out).
    by rewrite C3. }
  pose proof (stable_project_feature w _ _ _ _ _ _ Hp2) as [E45 _].
  apply project_feature_fresh in Hp2 as (ls & l2 & Rs & K2 & ->);
    [|rewrite fc_exists_content; simpl; rewrite C4; by apply has_name_single].
  set (s5 := put_fc (out, "Structures_PRJ") l2 _) in *.
  assert (workspace_content s5 out
          = [("GaragePoints_PRJ", FeatureClass l1); ("Structures_PRJ", FeatureClass l2)]) as C5.
  { unfold s5. rewrite workspace_content_put_fc.
    change (workspace_content (with_call _ s4) out) with (workspace_content s4 out).
    by rewrite C4. }
  assert (read_fc (out, "Structures_PRJ") s5 = (Ok l2, s5)) as R2.
  { apply read_fc_put_fc. rewrite fc_exists_content. simpl.
    change (workspace_content (with_call _ s4) out) with (workspace_content s4 out).
    rewrite C4. by apply has_name_single. }
  (* the buffer *)
  pose proof (stable_main_buffer w _ _ _ _ _ _ Hb) as [E56 _].
  destruct (main_buffer_Ok _ _ _ _ _ _ Hb) as (name & Hn & -> & _).
  destruct (buffer_name_prefix _ _ Hn) as [t Ht].
  apply (main_buffer_fresh _ _ _ name) in Hb as (lb & l3 & Rb & K3' & ->); [|done|].
  2:{ rewrite fc_exists_content. simpl. rewrite C5.
      change [("GaragePoints_PRJ", FeatureClass l1); ("Structures_PRJ", FeatureClass l2)]
        with ([("GaragePoints_PRJ", FeatureClass l1)] ++ [("Structures_PRJ", FeatureClass l2)]).
      rewrite has_name_app, !has_name_single; [done | by subst name | by subst name]. }
  assert (lb = l1) as ->.
  { eapply read_fc_unique; [exact Rb|]. by eapply read_fc_extends. }
  set (s6 := put_fc (out, name) l3 _) in *.
  assert (workspace_content s6 out
          = [("GaragePoints_PRJ", FeatureClass l1); ("Structures_PRJ", FeatureClass l2);
             (name, FeatureClass l3)]) as C6.
  { unfold s6. rewrite workspace_content_put_fc.
    change (workspace_content (with_call _ s5) out) with (workspace_content s5 out).
    by rewrite C5. }
  assert (fc_exists s5 (out, name) = false) as F5.
  { rewrite fc_exists_content. simpl. rewrite C5.
    change [("GaragePoints_PRJ", FeatureClass l1); ("Structures_PRJ", FeatureClass l2)]
      with ([("GaragePoints_PRJ", FeatureClass l1)] ++ [("Structures_PRJ", FeatureClass l2)]).
    rewrite has_name_app, !has_name_single; [done | by subst name | by subst name]. }
  assert (read_fc (out, name) s6 = (Ok l3, s6)) as R3 by (by apply read_fc_put_fc).
  (* the overlay *)
  pose proof (stable_main_intersect w _ _ _ _ _ _ Hi) as [E67 _].
  apply main_intersect_fresh in Hi as (lb & ls2 & l4 & Rb3 & Rs2 & K4 & ->).
  2:{ rewrite fc_exists_content. simpl. rewrite C6.
      change [("GaragePoints_PRJ", FeatureClass l1); ("Structures_PRJ", FeatureClass l2);
              (name, FeatureClass l3)]
        with ([("GaragePoints_PRJ", FeatureClass l1)] ++
              [("Structures_PRJ", FeatureClass l2)] ++ [(name, FeatureClass l3)]).
      rewrite !has_name_app, !has_name_single; [done | by subst name | done | done]. }
  assert (lb = l3) as -> by (eapply read_fc_unique; [exact Rb3 | exact R3]).
  assert (ls2 = l2) as ->.
  { eapply read_fc_unique; [exact Rs2|]. by eapply read_fc_extends. }
  set (s7 := put_fc (out, "Garage_Structures_Intersect") l4 _) in *.
  assert (gp = (w, gp.2)) as Egp by (rewrite <- Hgp; by destruct gp).
  assert (sp = (w, sp.2)) as Esp by (rewrite <- Hsp; by destruct sp).
  exists d, name, gp.2, sp.2, s1, lg, ls, l1, l2, l3, l4.
  split; [done|]. split; [done|].
  split; [by rewrite <- Egp|].
  split.
  { intros Ht'. destruct (main_garages_resolved _ _ _ _ _ Hg) as [Hf ->].
    - by rewrite (find_result_gdbs (with_env w st) st).
    - split; [|done]. by rewrite (find_result_gdbs st (with_env w st)). }
  split; [by rewrite <- Esp|].
  split; [done|].
  split.
  { rewrite <- Egp. apply (read_fc_same_content gp s3 s1); [|exact Rg].
    by rewrite Hgp. }
  split.
  { rewrite <- Esp. apply (read_fc_same_content sp s3 s1); [by rewrite Hsp|].
    apply (read_fc_same_content sp s4 s3); [|exact Rs].
    rewrite Hsp. unfold s4. rewrite workspace_content_put_other by done. reflexivity. }
  split; [done|]. split; [done|]. split; [done|]. split; [done|].
  unfold s7. rewrite workspace_content_put_fc.
  change (workspace_content (with_call _ s6) out) with (workspace_content s6 out).
  by rewrite C6.
Qed.

End Facts.

Import Sample.

Lemma fresh_run_data_flow_witness :
  ∃ garages lg ls l1 l2 l3 l4,
    find_result campus campus_gdb garage_names = Some garages ∧
    read_fc (campus_gdb, garages) campus = (Ok lg, campus) ∧
    Project_kernel (Library := library) lg 3857 = Some l1 ∧
    Project_kernel (Library := library) ls 3857 = Some l2 ∧
    Buffer_kernel (Library := library) l1 (Finite (1502 # 10)) = Some l3 ∧
    Intersect_kernel (Library := library) l3 l2 = Some l4 ∧
    workspace_content after_run output_gdb_path
    = [("GaragePoints_PRJ", FeatureClass l1); ("Structures_PRJ", FeatureClass l2);
       ("Garage_Buffer_150m", FeatureClass l3);
       ("Garage_Structures_Intersect", FeatureClass l4)].
Proof.
  assert (main (L := library) campus_gdb "" "" (ArgText "150.2") "false" campus
          = (0, after_run)) as Hrun by (vm_compute; reflexivity).
  destruct (fresh_run_data_flow (L := library) _ _ _ _ _ _ _ Hrun)
    as (d & name & g & s & s1 & lg & ls & l1 & l2 & l3 & l4
        & Hd & Hn & _ & Hg & _ & _ & Rg & _ & K1 & K2 & K3 & K4 & Hc).
  - vm_compute; reflexivity.
  - vm_compute; discriminate.
  - vm_compute in Hd. injection Hd as <-. vm_compute in Hn. injection Hn as <-.
    destruct Hg as [Hg Hs1]; [vm_compute; reflexivity|].
    exists g, lg, ls, l1, l2, l3, l4.
    split; [exact Hg|]. split.
    { apply (read_fc_gdbs (campus_gdb, g) s1 campus lg Hs1). exact Rg. }
    split; [exact K1|]. split; [exact K2|]. split; [exact K3|]. split; [exact K4|].
    exact Hc.
Defined.

End ArcPyFlow.

(** ** Reading back what the GeoPandas script saved *)
Module GeoPandasWrites.
Import PyNum GeoPandasTool GeoPandasStages.

Section Facts.
Context {Geom : Type} {L : Library Geom}.

Abbreviation GDF := (GeoDataFrame Geom).

(** X26: when every write succeeds, each layer the analysis produced is
    stored under its own name and none replaces another: the reprojected
    garages, the reprojected structures and the buffer are read back as
    they were produced, the overlay too when it has features, and a layer
    that was not produced (or an overlay without features) leaves its name
    as it was in the GeoPackage. *)
Theorem save_outputs_read_back (l : Locals) (gpkg : gmap string GDF)
    (Hwrites : ∀ name gdf, to_file_succeeds name gdf = true) :
  save_outputs l gpkg !! "GaragePoints_PRJ"
    = match garage_proj l with Some g => Some g | None => gpkg !! "GaragePoints_PRJ" end ∧
  save_outputs l gpkg !! "Structures_PRJ"
    = match structures_proj l with Some g => Some g | None => gpkg !! "Structures_PRJ" end ∧
  save_outputs l gpkg !! "Garage_Buffer_150m"
    = match garage_buffer l with Some g => Some g | None => gpkg !! "Garage_Buffer_150m" end ∧
  save_outputs l gpkg !! "Garage_Structures_Intersect"
    = if empty (intersect_gdf l) then gpkg !! "Garage_Structures_Intersect"
      else Some (intersect_gdf l).
Proof.
  unfold save_outputs, to_file_if_present, to_file.
  destruct (garage_proj l) as [g1|], (structures_proj l) as [g2|],
    (garage_buffer l) as [g3|], (empty (intersect_gdf l));
    rewrite ?Hwrites; simpl;
    repeat split;
    repeat (first [ rewrite lookup_insert_eq | rewrite lookup_insert_ne by done ]);
    reflexivity.
Qed.

End Facts.

Import Sample.

Lemma save_outputs_read_back_witness :
  save_outputs (L := library)
    (mkLocals (Some garages) (Some structures) (Some garages) far_structures) ∅
    !! "Garage_Buffer_150m" = Some garages.
Proof.
  refine (proj1 (proj2 (proj2 (save_outputs_read_back (L := library)
    (mkLocals (Some garages) (Some structures) (Some garages) far_structures) ∅ _)))).
  reflexivity.
Defined.

End GeoPandasWrites.
